(** * ChefGPT recipe-generation core: a shallow embedding and its properties

    The development follows [openai_client.py] (prompt builder, model invoker,
    output normalizer, generators), the [Recipe] model and the request
    validators of [schemas.py], the recipe endpoints of [main.py], and the
    store of [database.py] with the session functions of [auth.py].

    Conventions of the embedding.
    - A Python [str] is a Rocq [string] holding its UTF-8 bytes.  Substring
      tests, [split], [replace] and [join] with ASCII arguments act on the
      bytes exactly as they act on the code points.  [strip] removes every
      code point Python regards as white space.  Case mapping ([lower],
      [capitalize]), the digits [int] reads and the code points [repr]
      escapes follow the Unicode character database in version 14.0.
    - A Python [int] is a [Z]; a Python [float] is a binary64 [float], read
      from a decimal literal with correct rounding and printed in the
      shortest form that reads back.
    - A Python [dict] keeps insertion order: it is an association list whose
      keys are pairwise distinct.
    - A function that may raise returns a [result]; [random.choice] takes the
      index it draws as an argument; the model call and [time.sleep] act on
      an explicit state of the outside world.  An exception of the model call
      is a record of its class, its message and whether it is an instance of
      [Exception].
    - The SQLite file is a record of its tables, each a list of rows in the
      order of insertion; a query is the list operation it stands for, and
      the clock, the token source and the hash function are arguments. *)

From Stdlib Require Import String Ascii ZArith List Bool Lia.
From Stdlib Require Import PrimFloat FloatOps SpecFloat.
From Stdlib Require DecimalString.
Import ListNotations.

Local Open Scope string_scope.
Local Open Scope Z_scope.

(** * Part I.  The embedding *)

(** ** Unicode data

    The tables of the Unicode character database in version 14.0, the one
    of CPython 3.11, for the code points above U+007F unless said
    otherwise. *)

Module Unicode.

(** The code points above U+007F with a lower-case form of one code point:
    every [step]-th code point from [lo] to [hi] is moved by [delta]. *)
Definition lower_ranges : list (Z * Z * Z * Z) :=
  [(0xc0, 0xd6, 1, 32); (0xd8, 0xde, 1, 32); (0x100, 0x12e, 2, 1);
   (0x132, 0x136, 2, 1); (0x139, 0x147, 2, 1); (0x14a, 0x176, 2, 1);
   (0x178, 0x178, 1, (-121)); (0x179, 0x17d, 2, 1); (0x181, 0x181, 1, 210);
   (0x182, 0x184, 2, 1); (0x186, 0x186, 1, 206); (0x187, 0x187, 1, 1);
   (0x189, 0x18a, 1, 205); (0x18b, 0x18b, 1, 1); (0x18e, 0x18e, 1, 79);
   (0x18f, 0x18f, 1, 202); (0x190, 0x190, 1, 203); (0x191, 0x191, 1, 1);
   (0x193, 0x193, 1, 205); (0x194, 0x194, 1, 207); (0x196, 0x196, 1, 211);
   (0x197, 0x197, 1, 209); (0x198, 0x198, 1, 1); (0x19c, 0x19c, 1, 211);
   (0x19d, 0x19d, 1, 213); (0x19f, 0x19f, 1, 214); (0x1a0, 0x1a4, 2, 1);
   (0x1a6, 0x1a6, 1, 218); (0x1a7, 0x1a7, 1, 1); (0x1a9, 0x1a9, 1, 218);
   (0x1ac, 0x1ac, 1, 1); (0x1ae, 0x1ae, 1, 218); (0x1af, 0x1af, 1, 1);
   (0x1b1, 0x1b2, 1, 217); (0x1b3, 0x1b5, 2, 1); (0x1b7, 0x1b7, 1, 219);
   (0x1b8, 0x1b8, 1, 1); (0x1bc, 0x1bc, 1, 1); (0x1c4, 0x1c4, 1, 2);
   (0x1c5, 0x1c5, 1, 1); (0x1c7, 0x1c7, 1, 2); (0x1c8, 0x1c8, 1, 1);
   (0x1ca, 0x1ca, 1, 2); (0x1cb, 0x1db, 2, 1); (0x1de, 0x1ee, 2, 1);
   (0x1f1, 0x1f1, 1, 2); (0x1f2, 0x1f4, 2, 1); (0x1f6, 0x1f6, 1, (-97));
   (0x1f7, 0x1f7, 1, (-56)); (0x1f8, 0x21e, 2, 1); (0x220, 0x220, 1, (-130));
   (0x222, 0x232, 2, 1); (0x23a, 0x23a, 1, 10795); (0x23b, 0x23b, 1, 1);
   (0x23d, 0x23d, 1, (-163)); (0x23e, 0x23e, 1, 10792); (0x241, 0x241, 1, 1);
   (0x243, 0x243, 1, (-195)); (0x244, 0x244, 1, 69); (0x245, 0x245, 1, 71);
   (0x246, 0x24e, 2, 1); (0x370, 0x372, 2, 1); (0x376, 0x376, 1, 1);
   (0x37f, 0x37f, 1, 116); (0x386, 0x386, 1, 38); (0x388, 0x38a, 1, 37);
   (0x38c, 0x38c, 1, 64); (0x38e, 0x38f, 1, 63); (0x391, 0x3a1, 1, 32);
   (0x3a3, 0x3ab, 1, 32); (0x3cf, 0x3cf, 1, 8); (0x3d8, 0x3ee, 2, 1);
   (0x3f4, 0x3f4, 1, (-60)); (0x3f7, 0x3f7, 1, 1); (0x3f9, 0x3f9, 1, (-7));
   (0x3fa, 0x3fa, 1, 1); (0x3fd, 0x3ff, 1, (-130)); (0x400, 0x40f, 1, 80);
   (0x410, 0x42f, 1, 32); (0x460, 0x480, 2, 1); (0x48a, 0x4be, 2, 1);
   (0x4c0, 0x4c0, 1, 15); (0x4c1, 0x4cd, 2, 1); (0x4d0, 0x52e, 2, 1);
   (0x531, 0x556, 1, 48); (0x10a0, 0x10c5, 1, 7264); (0x10c7, 0x10c7, 1, 7264);
   (0x10cd, 0x10cd, 1, 7264); (0x13a0, 0x13ef, 1, 38864); (0x13f0, 0x13f5, 1, 8);
   (0x1c90, 0x1cba, 1, (-3008)); (0x1cbd, 0x1cbf, 1, (-3008)); (0x1e00, 0x1e94, 2, 1);
   (0x1e9e, 0x1e9e, 1, (-7615)); (0x1ea0, 0x1efe, 2, 1); (0x1f08, 0x1f0f, 1, (-8));
   (0x1f18, 0x1f1d, 1, (-8)); (0x1f28, 0x1f2f, 1, (-8)); (0x1f38, 0x1f3f, 1, (-8));
   (0x1f48, 0x1f4d, 1, (-8)); (0x1f59, 0x1f5f, 2, (-8)); (0x1f68, 0x1f6f, 1, (-8));
   (0x1f88, 0x1f8f, 1, (-8)); (0x1f98, 0x1f9f, 1, (-8)); (0x1fa8, 0x1faf, 1, (-8));
   (0x1fb8, 0x1fb9, 1, (-8)); (0x1fba, 0x1fbb, 1, (-74)); (0x1fbc, 0x1fbc, 1, (-9));
   (0x1fc8, 0x1fcb, 1, (-86)); (0x1fcc, 0x1fcc, 1, (-9)); (0x1fd8, 0x1fd9, 1, (-8));
   (0x1fda, 0x1fdb, 1, (-100)); (0x1fe8, 0x1fe9, 1, (-8)); (0x1fea, 0x1feb, 1, (-112));
   (0x1fec, 0x1fec, 1, (-7)); (0x1ff8, 0x1ff9, 1, (-128)); (0x1ffa, 0x1ffb, 1, (-126));
   (0x1ffc, 0x1ffc, 1, (-9)); (0x2126, 0x2126, 1, (-7517)); (0x212a, 0x212a, 1, (-8383));
   (0x212b, 0x212b, 1, (-8262)); (0x2132, 0x2132, 1, 28); (0x2160, 0x216f, 1, 16);
   (0x2183, 0x2183, 1, 1); (0x24b6, 0x24cf, 1, 26); (0x2c00, 0x2c2f, 1, 48);
   (0x2c60, 0x2c60, 1, 1); (0x2c62, 0x2c62, 1, (-10743)); (0x2c63, 0x2c63, 1, (-3814));
   (0x2c64, 0x2c64, 1, (-10727)); (0x2c67, 0x2c6b, 2, 1); (0x2c6d, 0x2c6d, 1, (-10780));
   (0x2c6e, 0x2c6e, 1, (-10749)); (0x2c6f, 0x2c6f, 1, (-10783)); (0x2c70, 0x2c70, 1, (-10782));
   (0x2c72, 0x2c72, 1, 1); (0x2c75, 0x2c75, 1, 1); (0x2c7e, 0x2c7f, 1, (-10815));
   (0x2c80, 0x2ce2, 2, 1); (0x2ceb, 0x2ced, 2, 1); (0x2cf2, 0x2cf2, 1, 1);
   (0xa640, 0xa66c, 2, 1); (0xa680, 0xa69a, 2, 1); (0xa722, 0xa72e, 2, 1);
   (0xa732, 0xa76e, 2, 1); (0xa779, 0xa77b, 2, 1); (0xa77d, 0xa77d, 1, (-35332));
   (0xa77e, 0xa786, 2, 1); (0xa78b, 0xa78b, 1, 1); (0xa78d, 0xa78d, 1, (-42280));
   (0xa790, 0xa792, 2, 1); (0xa796, 0xa7a8, 2, 1); (0xa7aa, 0xa7aa, 1, (-42308));
   (0xa7ab, 0xa7ab, 1, (-42319)); (0xa7ac, 0xa7ac, 1, (-42315)); (0xa7ad, 0xa7ad, 1, (-42305));
   (0xa7ae, 0xa7ae, 1, (-42308)); (0xa7b0, 0xa7b0, 1, (-42258)); (0xa7b1, 0xa7b1, 1, (-42282));
   (0xa7b2, 0xa7b2, 1, (-42261)); (0xa7b3, 0xa7b3, 1, 928); (0xa7b4, 0xa7c2, 2, 1);
   (0xa7c4, 0xa7c4, 1, (-48)); (0xa7c5, 0xa7c5, 1, (-42307)); (0xa7c6, 0xa7c6, 1, (-35384));
   (0xa7c7, 0xa7c9, 2, 1); (0xa7d0, 0xa7d0, 1, 1); (0xa7d6, 0xa7d8, 2, 1);
   (0xa7f5, 0xa7f5, 1, 1); (0xff21, 0xff3a, 1, 32); (0x10400, 0x10427, 1, 40);
   (0x104b0, 0x104d3, 1, 40); (0x10570, 0x1057a, 1, 39); (0x1057c, 0x1058a, 1, 39);
   (0x1058c, 0x10592, 1, 39); (0x10594, 0x10595, 1, 39); (0x10c80, 0x10cb2, 1, 64);
   (0x118a0, 0x118bf, 1, 32); (0x16e40, 0x16e5f, 1, 32); (0x1e900, 0x1e921, 1, 34)].

(** The code points whose lower-case form is more than one code point *)
Definition lower_special : list (Z * list Z) :=
  [(0x130, [0x69; 0x307])].

(** The code points above U+007F with a title-case form of one code point *)
Definition title_ranges : list (Z * Z * Z * Z) :=
  [(0xb5, 0xb5, 1, 743); (0xe0, 0xf6, 1, (-32)); (0xf8, 0xfe, 1, (-32));
   (0xff, 0xff, 1, 121); (0x101, 0x12f, 2, (-1)); (0x131, 0x131, 1, (-232));
   (0x133, 0x137, 2, (-1)); (0x13a, 0x148, 2, (-1)); (0x14b, 0x177, 2, (-1));
   (0x17a, 0x17e, 2, (-1)); (0x17f, 0x17f, 1, (-300)); (0x180, 0x180, 1, 195);
   (0x183, 0x185, 2, (-1)); (0x188, 0x188, 1, (-1)); (0x18c, 0x18c, 1, (-1));
   (0x192, 0x192, 1, (-1)); (0x195, 0x195, 1, 97); (0x199, 0x199, 1, (-1));
   (0x19a, 0x19a, 1, 163); (0x19e, 0x19e, 1, 130); (0x1a1, 0x1a5, 2, (-1));
   (0x1a8, 0x1a8, 1, (-1)); (0x1ad, 0x1ad, 1, (-1)); (0x1b0, 0x1b0, 1, (-1));
   (0x1b4, 0x1b6, 2, (-1)); (0x1b9, 0x1b9, 1, (-1)); (0x1bd, 0x1bd, 1, (-1));
   (0x1bf, 0x1bf, 1, 56); (0x1c4, 0x1c4, 1, 1); (0x1c6, 0x1c6, 1, (-1));
   (0x1c7, 0x1c7, 1, 1); (0x1c9, 0x1c9, 1, (-1)); (0x1ca, 0x1ca, 1, 1);
   (0x1cc, 0x1dc, 2, (-1)); (0x1dd, 0x1dd, 1, (-79)); (0x1df, 0x1ef, 2, (-1));
   (0x1f1, 0x1f1, 1, 1); (0x1f3, 0x1f5, 2, (-1)); (0x1f9, 0x21f, 2, (-1));
   (0x223, 0x233, 2, (-1)); (0x23c, 0x23c, 1, (-1)); (0x23f, 0x240, 1, 10815);
   (0x242, 0x242, 1, (-1)); (0x247, 0x24f, 2, (-1)); (0x250, 0x250, 1, 10783);
   (0x251, 0x251, 1, 10780); (0x252, 0x252, 1, 10782); (0x253, 0x253, 1, (-210));
   (0x254, 0x254, 1, (-206)); (0x256, 0x257, 1, (-205)); (0x259, 0x259, 1, (-202));
   (0x25b, 0x25b, 1, (-203)); (0x25c, 0x25c, 1, 42319); (0x260, 0x260, 1, (-205));
   (0x261, 0x261, 1, 42315); (0x263, 0x263, 1, (-207)); (0x265, 0x265, 1, 42280);
   (0x266, 0x266, 1, 42308); (0x268, 0x268, 1, (-209)); (0x269, 0x269, 1, (-211));
   (0x26a, 0x26a, 1, 42308); (0x26b, 0x26b, 1, 10743); (0x26c, 0x26c, 1, 42305);
   (0x26f, 0x26f, 1, (-211)); (0x271, 0x271, 1, 10749); (0x272, 0x272, 1, (-213));
   (0x275, 0x275, 1, (-214)); (0x27d, 0x27d, 1, 10727); (0x280, 0x280, 1, (-218));
   (0x282, 0x282, 1, 42307); (0x283, 0x283, 1, (-218)); (0x287, 0x287, 1, 42282);
   (0x288, 0x288, 1, (-218)); (0x289, 0x289, 1, (-69)); (0x28a, 0x28b, 1, (-217));
   (0x28c, 0x28c, 1, (-71)); (0x292, 0x292, 1, (-219)); (0x29d, 0x29d, 1, 42261);
   (0x29e, 0x29e, 1, 42258); (0x345, 0x345, 1, 84); (0x371, 0x373, 2, (-1));
   (0x377, 0x377, 1, (-1)); (0x37b, 0x37d, 1, 130); (0x3ac, 0x3ac, 1, (-38));
   (0x3ad, 0x3af, 1, (-37)); (0x3b1, 0x3c1, 1, (-32)); (0x3c2, 0x3c2, 1, (-31));
   (0x3c3, 0x3cb, 1, (-32)); (0x3cc, 0x3cc, 1, (-64)); (0x3cd, 0x3ce, 1, (-63));
   (0x3d0, 0x3d0, 1, (-62)); (0x3d1, 0x3d1, 1, (-57)); (0x3d5, 0x3d5, 1, (-47));
   (0x3d6, 0x3d6, 1, (-54)); (0x3d7, 0x3d7, 1, (-8)); (0x3d9, 0x3ef, 2, (-1));
   (0x3f0, 0x3f0, 1, (-86)); (0x3f1, 0x3f1, 1, (-80)); (0x3f2, 0x3f2, 1, 7);
   (0x3f3, 0x3f3, 1, (-116)); (0x3f5, 0x3f5, 1, (-96)); (0x3f8, 0x3f8, 1, (-1));
   (0x3fb, 0x3fb, 1, (-1)); (0x430, 0x44f, 1, (-32)); (0x450, 0x45f, 1, (-80));
   (0x461, 0x481, 2, (-1)); (0x48b, 0x4bf, 2, (-1)); (0x4c2, 0x4ce, 2, (-1));
   (0x4cf, 0x4cf, 1, (-15)); (0x4d1, 0x52f, 2, (-1)); (0x561, 0x586, 1, (-48));
   (0x13f8, 0x13fd, 1, (-8)); (0x1c80, 0x1c80, 1, (-6254)); (0x1c81, 0x1c81, 1, (-6253));
   (0x1c82, 0x1c82, 1, (-6244)); (0x1c83, 0x1c84, 1, (-6242)); (0x1c85, 0x1c85, 1, (-6243));
   (0x1c86, 0x1c86, 1, (-6236)); (0x1c87, 0x1c87, 1, (-6181)); (0x1c88, 0x1c88, 1, 35266);
   (0x1d79, 0x1d79, 1, 35332); (0x1d7d, 0x1d7d, 1, 3814); (0x1d8e, 0x1d8e, 1, 35384);
   (0x1e01, 0x1e95, 2, (-1)); (0x1e9b, 0x1e9b, 1, (-59)); (0x1ea1, 0x1eff, 2, (-1));
   (0x1f00, 0x1f07, 1, 8); (0x1f10, 0x1f15, 1, 8); (0x1f20, 0x1f27, 1, 8);
   (0x1f30, 0x1f37, 1, 8); (0x1f40, 0x1f45, 1, 8); (0x1f51, 0x1f57, 2, 8);
   (0x1f60, 0x1f67, 1, 8); (0x1f70, 0x1f71, 1, 74); (0x1f72, 0x1f75, 1, 86);
   (0x1f76, 0x1f77, 1, 100); (0x1f78, 0x1f79, 1, 128); (0x1f7a, 0x1f7b, 1, 112);
   (0x1f7c, 0x1f7d, 1, 126); (0x1f80, 0x1f87, 1, 8); (0x1f90, 0x1f97, 1, 8);
   (0x1fa0, 0x1fa7, 1, 8); (0x1fb0, 0x1fb1, 1, 8); (0x1fb3, 0x1fb3, 1, 9);
   (0x1fbe, 0x1fbe, 1, (-7205)); (0x1fc3, 0x1fc3, 1, 9); (0x1fd0, 0x1fd1, 1, 8);
   (0x1fe0, 0x1fe1, 1, 8); (0x1fe5, 0x1fe5, 1, 7); (0x1ff3, 0x1ff3, 1, 9);
   (0x214e, 0x214e, 1, (-28)); (0x2170, 0x217f, 1, (-16)); (0x2184, 0x2184, 1, (-1));
   (0x24d0, 0x24e9, 1, (-26)); (0x2c30, 0x2c5f, 1, (-48)); (0x2c61, 0x2c61, 1, (-1));
   (0x2c65, 0x2c65, 1, (-10795)); (0x2c66, 0x2c66, 1, (-10792)); (0x2c68, 0x2c6c, 2, (-1));
   (0x2c73, 0x2c73, 1, (-1)); (0x2c76, 0x2c76, 1, (-1)); (0x2c81, 0x2ce3, 2, (-1));
   (0x2cec, 0x2cee, 2, (-1)); (0x2cf3, 0x2cf3, 1, (-1)); (0x2d00, 0x2d25, 1, (-7264));
   (0x2d27, 0x2d27, 1, (-7264)); (0x2d2d, 0x2d2d, 1, (-7264)); (0xa641, 0xa66d, 2, (-1));
   (0xa681, 0xa69b, 2, (-1)); (0xa723, 0xa72f, 2, (-1)); (0xa733, 0xa76f, 2, (-1));
   (0xa77a, 0xa77c, 2, (-1)); (0xa77f, 0xa787, 2, (-1)); (0xa78c, 0xa78c, 1, (-1));
   (0xa791, 0xa793, 2, (-1)); (0xa794, 0xa794, 1, 48); (0xa797, 0xa7a9, 2, (-1));
   (0xa7b5, 0xa7c3, 2, (-1)); (0xa7c8, 0xa7ca, 2, (-1)); (0xa7d1, 0xa7d1, 1, (-1));
   (0xa7d7, 0xa7d9, 2, (-1)); (0xa7f6, 0xa7f6, 1, (-1)); (0xab53, 0xab53, 1, (-928));
   (0xab70, 0xabbf, 1, (-38864)); (0xff41, 0xff5a, 1, (-32)); (0x10428, 0x1044f, 1, (-40));
   (0x104d8, 0x104fb, 1, (-40)); (0x10597, 0x105a1, 1, (-39)); (0x105a3, 0x105b1, 1, (-39));
   (0x105b3, 0x105b9, 1, (-39)); (0x105bb, 0x105bc, 1, (-39)); (0x10cc0, 0x10cf2, 1, (-64));
   (0x118c0, 0x118df, 1, (-32)); (0x16e60, 0x16e7f, 1, (-32)); (0x1e922, 0x1e943, 1, (-34))].

(** The code points whose title-case form is more than one code point *)
Definition title_special : list (Z * list Z) :=
  [(0xdf, [0x53; 0x73]); (0x149, [0x2bc; 0x4e]);
   (0x1f0, [0x4a; 0x30c]); (0x390, [0x399; 0x308; 0x301]);
   (0x3b0, [0x3a5; 0x308; 0x301]); (0x587, [0x535; 0x582]);
   (0x1e96, [0x48; 0x331]); (0x1e97, [0x54; 0x308]);
   (0x1e98, [0x57; 0x30a]); (0x1e99, [0x59; 0x30a]);
   (0x1e9a, [0x41; 0x2be]); (0x1f50, [0x3a5; 0x313]);
   (0x1f52, [0x3a5; 0x313; 0x300]); (0x1f54, [0x3a5; 0x313; 0x301]);
   (0x1f56, [0x3a5; 0x313; 0x342]); (0x1fb2, [0x1fba; 0x345]);
   (0x1fb4, [0x386; 0x345]); (0x1fb6, [0x391; 0x342]);
   (0x1fb7, [0x391; 0x342; 0x345]); (0x1fc2, [0x1fca; 0x345]);
   (0x1fc4, [0x389; 0x345]); (0x1fc6, [0x397; 0x342]);
   (0x1fc7, [0x397; 0x342; 0x345]); (0x1fd2, [0x399; 0x308; 0x300]);
   (0x1fd3, [0x399; 0x308; 0x301]); (0x1fd6, [0x399; 0x342]);
   (0x1fd7, [0x399; 0x308; 0x342]); (0x1fe2, [0x3a5; 0x308; 0x300]);
   (0x1fe3, [0x3a5; 0x308; 0x301]); (0x1fe4, [0x3a1; 0x313]);
   (0x1fe6, [0x3a5; 0x342]); (0x1fe7, [0x3a5; 0x308; 0x342]);
   (0x1ff2, [0x1ffa; 0x345]); (0x1ff4, [0x38f; 0x345]);
   (0x1ff6, [0x3a9; 0x342]); (0x1ff7, [0x3a9; 0x342; 0x345]);
   (0xfb00, [0x46; 0x66]); (0xfb01, [0x46; 0x69]);
   (0xfb02, [0x46; 0x6c]); (0xfb03, [0x46; 0x66; 0x69]);
   (0xfb04, [0x46; 0x66; 0x6c]); (0xfb05, [0x53; 0x74]);
   (0xfb06, [0x53; 0x74]); (0xfb13, [0x544; 0x576]);
   (0xfb14, [0x544; 0x565]); (0xfb15, [0x544; 0x56b]);
   (0xfb16, [0x54e; 0x576]); (0xfb17, [0x544; 0x56d])].

(** The cased code points that are not case-ignorable, from U+0000 on *)
Definition letter_ranges : list (Z * Z) :=
  [(0x41, 0x5a); (0x61, 0x7a); (0xaa, 0xaa); (0xb5, 0xb5); (0xba, 0xba);
   (0xc0, 0xd6); (0xd8, 0xf6); (0xf8, 0x1ba); (0x1bc, 0x1bf); (0x1c4, 0x293);
   (0x295, 0x2af); (0x370, 0x373); (0x376, 0x377); (0x37b, 0x37d); (0x37f, 0x37f);
   (0x386, 0x386); (0x388, 0x38a); (0x38c, 0x38c); (0x38e, 0x3a1); (0x3a3, 0x3f5);
   (0x3f7, 0x481); (0x48a, 0x52f); (0x531, 0x556); (0x560, 0x588); (0x10a0, 0x10c5);
   (0x10c7, 0x10c7); (0x10cd, 0x10cd); (0x10d0, 0x10fa); (0x10fd, 0x10ff); (0x13a0, 0x13f5);
   (0x13f8, 0x13fd); (0x1c80, 0x1c88); (0x1c90, 0x1cba); (0x1cbd, 0x1cbf); (0x1d00, 0x1d2b);
   (0x1d6b, 0x1d77); (0x1d79, 0x1d9a); (0x1e00, 0x1f15); (0x1f18, 0x1f1d); (0x1f20, 0x1f45);
   (0x1f48, 0x1f4d); (0x1f50, 0x1f57); (0x1f59, 0x1f59); (0x1f5b, 0x1f5b); (0x1f5d, 0x1f5d);
   (0x1f5f, 0x1f7d); (0x1f80, 0x1fb4); (0x1fb6, 0x1fbc); (0x1fbe, 0x1fbe); (0x1fc2, 0x1fc4);
   (0x1fc6, 0x1fcc); (0x1fd0, 0x1fd3); (0x1fd6, 0x1fdb); (0x1fe0, 0x1fec); (0x1ff2, 0x1ff4);
   (0x1ff6, 0x1ffc); (0x2102, 0x2102); (0x2107, 0x2107); (0x210a, 0x2113); (0x2115, 0x2115);
   (0x2119, 0x211d); (0x2124, 0x2124); (0x2126, 0x2126); (0x2128, 0x2128); (0x212a, 0x212d);
   (0x212f, 0x2134); (0x2139, 0x2139); (0x213c, 0x213f); (0x2145, 0x2149); (0x214e, 0x214e);
   (0x2160, 0x217f); (0x2183, 0x2184); (0x24b6, 0x24e9); (0x2c00, 0x2c7b); (0x2c7e, 0x2ce4);
   (0x2ceb, 0x2cee); (0x2cf2, 0x2cf3); (0x2d00, 0x2d25); (0x2d27, 0x2d27); (0x2d2d, 0x2d2d);
   (0xa640, 0xa66d); (0xa680, 0xa69b); (0xa722, 0xa76f); (0xa771, 0xa787); (0xa78b, 0xa78e);
   (0xa790, 0xa7ca); (0xa7d0, 0xa7d1); (0xa7d3, 0xa7d3); (0xa7d5, 0xa7d9); (0xa7f5, 0xa7f6);
   (0xa7fa, 0xa7fa); (0xab30, 0xab5a); (0xab60, 0xab68); (0xab70, 0xabbf); (0xfb00, 0xfb06);
   (0xfb13, 0xfb17); (0xff21, 0xff3a); (0xff41, 0xff5a); (0x10400, 0x1044f); (0x104b0, 0x104d3);
   (0x104d8, 0x104fb); (0x10570, 0x1057a); (0x1057c, 0x1058a); (0x1058c, 0x10592); (0x10594, 0x10595);
   (0x10597, 0x105a1); (0x105a3, 0x105b1); (0x105b3, 0x105b9); (0x105bb, 0x105bc); (0x10c80, 0x10cb2);
   (0x10cc0, 0x10cf2); (0x118a0, 0x118df); (0x16e40, 0x16e7f); (0x1d400, 0x1d454); (0x1d456, 0x1d49c);
   (0x1d49e, 0x1d49f); (0x1d4a2, 0x1d4a2); (0x1d4a5, 0x1d4a6); (0x1d4a9, 0x1d4ac); (0x1d4ae, 0x1d4b9);
   (0x1d4bb, 0x1d4bb); (0x1d4bd, 0x1d4c3); (0x1d4c5, 0x1d505); (0x1d507, 0x1d50a); (0x1d50d, 0x1d514);
   (0x1d516, 0x1d51c); (0x1d51e, 0x1d539); (0x1d53b, 0x1d53e); (0x1d540, 0x1d544); (0x1d546, 0x1d546);
   (0x1d54a, 0x1d550); (0x1d552, 0x1d6a5); (0x1d6a8, 0x1d6c0); (0x1d6c2, 0x1d6da); (0x1d6dc, 0x1d6fa);
   (0x1d6fc, 0x1d714); (0x1d716, 0x1d734); (0x1d736, 0x1d74e); (0x1d750, 0x1d76e); (0x1d770, 0x1d788);
   (0x1d78a, 0x1d7a8); (0x1d7aa, 0x1d7c2); (0x1d7c4, 0x1d7cb); (0x1df00, 0x1df09); (0x1df0b, 0x1df1e);
   (0x1e900, 0x1e943); (0x1f130, 0x1f149); (0x1f150, 0x1f169); (0x1f170, 0x1f189)].

(** The case-ignorable code points, from U+0000 on *)
Definition ignorable_ranges : list (Z * Z) :=
  [(0x27, 0x27); (0x2e, 0x2e); (0x3a, 0x3a); (0x5e, 0x5e); (0x60, 0x60);
   (0xa8, 0xa8); (0xad, 0xad); (0xaf, 0xaf); (0xb4, 0xb4); (0xb7, 0xb8);
   (0x2b0, 0x36f); (0x374, 0x375); (0x37a, 0x37a); (0x384, 0x385); (0x387, 0x387);
   (0x483, 0x489); (0x559, 0x559); (0x55f, 0x55f); (0x591, 0x5bd); (0x5bf, 0x5bf);
   (0x5c1, 0x5c2); (0x5c4, 0x5c5); (0x5c7, 0x5c7); (0x5f4, 0x5f4); (0x600, 0x605);
   (0x610, 0x61a); (0x61c, 0x61c); (0x640, 0x640); (0x64b, 0x65f); (0x670, 0x670);
   (0x6d6, 0x6dd); (0x6df, 0x6e8); (0x6ea, 0x6ed); (0x70f, 0x70f); (0x711, 0x711);
   (0x730, 0x74a); (0x7a6, 0x7b0); (0x7eb, 0x7f5); (0x7fa, 0x7fa); (0x7fd, 0x7fd);
   (0x816, 0x82d); (0x859, 0x85b); (0x888, 0x888); (0x890, 0x891); (0x898, 0x89f);
   (0x8c9, 0x902); (0x93a, 0x93a); (0x93c, 0x93c); (0x941, 0x948); (0x94d, 0x94d);
   (0x951, 0x957); (0x962, 0x963); (0x971, 0x971); (0x981, 0x981); (0x9bc, 0x9bc);
   (0x9c1, 0x9c4); (0x9cd, 0x9cd); (0x9e2, 0x9e3); (0x9fe, 0x9fe); (0xa01, 0xa02);
   (0xa3c, 0xa3c); (0xa41, 0xa42); (0xa47, 0xa48); (0xa4b, 0xa4d); (0xa51, 0xa51);
   (0xa70, 0xa71); (0xa75, 0xa75); (0xa81, 0xa82); (0xabc, 0xabc); (0xac1, 0xac5);
   (0xac7, 0xac8); (0xacd, 0xacd); (0xae2, 0xae3); (0xafa, 0xaff); (0xb01, 0xb01);
   (0xb3c, 0xb3c); (0xb3f, 0xb3f); (0xb41, 0xb44); (0xb4d, 0xb4d); (0xb55, 0xb56);
   (0xb62, 0xb63); (0xb82, 0xb82); (0xbc0, 0xbc0); (0xbcd, 0xbcd); (0xc00, 0xc00);
   (0xc04, 0xc04); (0xc3c, 0xc3c); (0xc3e, 0xc40); (0xc46, 0xc48); (0xc4a, 0xc4d);
   (0xc55, 0xc56); (0xc62, 0xc63); (0xc81, 0xc81); (0xcbc, 0xcbc); (0xcbf, 0xcbf);
   (0xcc6, 0xcc6); (0xccc, 0xccd); (0xce2, 0xce3); (0xd00, 0xd01); (0xd3b, 0xd3c);
   (0xd41, 0xd44); (0xd4d, 0xd4d); (0xd62, 0xd63); (0xd81, 0xd81); (0xdca, 0xdca);
   (0xdd2, 0xdd4); (0xdd6, 0xdd6); (0xe31, 0xe31); (0xe34, 0xe3a); (0xe46, 0xe4e);
   (0xeb1, 0xeb1); (0xeb4, 0xebc); (0xec6, 0xec6); (0xec8, 0xecd); (0xf18, 0xf19);
   (0xf35, 0xf35); (0xf37, 0xf37); (0xf39, 0xf39); (0xf71, 0xf7e); (0xf80, 0xf84);
   (0xf86, 0xf87); (0xf8d, 0xf97); (0xf99, 0xfbc); (0xfc6, 0xfc6); (0x102d, 0x1030);
   (0x1032, 0x1037); (0x1039, 0x103a); (0x103d, 0x103e); (0x1058, 0x1059); (0x105e, 0x1060);
   (0x1071, 0x1074); (0x1082, 0x1082); (0x1085, 0x1086); (0x108d, 0x108d); (0x109d, 0x109d);
   (0x10fc, 0x10fc); (0x135d, 0x135f); (0x1712, 0x1714); (0x1732, 0x1733); (0x1752, 0x1753);
   (0x1772, 0x1773); (0x17b4, 0x17b5); (0x17b7, 0x17bd); (0x17c6, 0x17c6); (0x17c9, 0x17d3);
   (0x17d7, 0x17d7); (0x17dd, 0x17dd); (0x180b, 0x180f); (0x1843, 0x1843); (0x1885, 0x1886);
   (0x18a9, 0x18a9); (0x1920, 0x1922); (0x1927, 0x1928); (0x1932, 0x1932); (0x1939, 0x193b);
   (0x1a17, 0x1a18); (0x1a1b, 0x1a1b); (0x1a56, 0x1a56); (0x1a58, 0x1a5e); (0x1a60, 0x1a60);
   (0x1a62, 0x1a62); (0x1a65, 0x1a6c); (0x1a73, 0x1a7c); (0x1a7f, 0x1a7f); (0x1aa7, 0x1aa7);
   (0x1ab0, 0x1ace); (0x1b00, 0x1b03); (0x1b34, 0x1b34); (0x1b36, 0x1b3a); (0x1b3c, 0x1b3c);
   (0x1b42, 0x1b42); (0x1b6b, 0x1b73); (0x1b80, 0x1b81); (0x1ba2, 0x1ba5); (0x1ba8, 0x1ba9);
   (0x1bab, 0x1bad); (0x1be6, 0x1be6); (0x1be8, 0x1be9); (0x1bed, 0x1bed); (0x1bef, 0x1bf1);
   (0x1c2c, 0x1c33); (0x1c36, 0x1c37); (0x1c78, 0x1c7d); (0x1cd0, 0x1cd2); (0x1cd4, 0x1ce0);
   (0x1ce2, 0x1ce8); (0x1ced, 0x1ced); (0x1cf4, 0x1cf4); (0x1cf8, 0x1cf9); (0x1d2c, 0x1d6a);
   (0x1d78, 0x1d78); (0x1d9b, 0x1dff); (0x1fbd, 0x1fbd); (0x1fbf, 0x1fc1); (0x1fcd, 0x1fcf);
   (0x1fdd, 0x1fdf); (0x1fed, 0x1fef); (0x1ffd, 0x1ffe); (0x200b, 0x200f); (0x2018, 0x2019);
   (0x2024, 0x2024); (0x2027, 0x2027); (0x202a, 0x202e); (0x2060, 0x2064); (0x2066, 0x206f);
   (0x2071, 0x2071); (0x207f, 0x207f); (0x2090, 0x209c); (0x20d0, 0x20f0); (0x2c7c, 0x2c7d);
   (0x2cef, 0x2cf1); (0x2d6f, 0x2d6f); (0x2d7f, 0x2d7f); (0x2de0, 0x2dff); (0x2e2f, 0x2e2f);
   (0x3005, 0x3005); (0x302a, 0x302d); (0x3031, 0x3035); (0x303b, 0x303b); (0x3099, 0x309e);
   (0x30fc, 0x30fe); (0xa015, 0xa015); (0xa4f8, 0xa4fd); (0xa60c, 0xa60c); (0xa66f, 0xa672);
   (0xa674, 0xa67d); (0xa67f, 0xa67f); (0xa69c, 0xa69f); (0xa6f0, 0xa6f1); (0xa700, 0xa721);
   (0xa770, 0xa770); (0xa788, 0xa78a); (0xa7f2, 0xa7f4); (0xa7f8, 0xa7f9); (0xa802, 0xa802);
   (0xa806, 0xa806); (0xa80b, 0xa80b); (0xa825, 0xa826); (0xa82c, 0xa82c); (0xa8c4, 0xa8c5);
   (0xa8e0, 0xa8f1); (0xa8ff, 0xa8ff); (0xa926, 0xa92d); (0xa947, 0xa951); (0xa980, 0xa982);
   (0xa9b3, 0xa9b3); (0xa9b6, 0xa9b9); (0xa9bc, 0xa9bd); (0xa9cf, 0xa9cf); (0xa9e5, 0xa9e6);
   (0xaa29, 0xaa2e); (0xaa31, 0xaa32); (0xaa35, 0xaa36); (0xaa43, 0xaa43); (0xaa4c, 0xaa4c);
   (0xaa70, 0xaa70); (0xaa7c, 0xaa7c); (0xaab0, 0xaab0); (0xaab2, 0xaab4); (0xaab7, 0xaab8);
   (0xaabe, 0xaabf); (0xaac1, 0xaac1); (0xaadd, 0xaadd); (0xaaec, 0xaaed); (0xaaf3, 0xaaf4);
   (0xaaf6, 0xaaf6); (0xab5b, 0xab5f); (0xab69, 0xab6b); (0xabe5, 0xabe5); (0xabe8, 0xabe8);
   (0xabed, 0xabed); (0xfb1e, 0xfb1e); (0xfbb2, 0xfbc2); (0xfe00, 0xfe0f); (0xfe13, 0xfe13);
   (0xfe20, 0xfe2f); (0xfe52, 0xfe52); (0xfe55, 0xfe55); (0xfeff, 0xfeff); (0xff07, 0xff07);
   (0xff0e, 0xff0e); (0xff1a, 0xff1a); (0xff3e, 0xff3e); (0xff40, 0xff40); (0xff70, 0xff70);
   (0xff9e, 0xff9f); (0xffe3, 0xffe3); (0xfff9, 0xfffb); (0x101fd, 0x101fd); (0x102e0, 0x102e0);
   (0x10376, 0x1037a); (0x10780, 0x10785); (0x10787, 0x107b0); (0x107b2, 0x107ba); (0x10a01, 0x10a03);
   (0x10a05, 0x10a06); (0x10a0c, 0x10a0f); (0x10a38, 0x10a3a); (0x10a3f, 0x10a3f); (0x10ae5, 0x10ae6);
   (0x10d24, 0x10d27); (0x10eab, 0x10eac); (0x10f46, 0x10f50); (0x10f82, 0x10f85); (0x11001, 0x11001);
   (0x11038, 0x11046); (0x11070, 0x11070); (0x11073, 0x11074); (0x1107f, 0x11081); (0x110b3, 0x110b6);
   (0x110b9, 0x110ba); (0x110bd, 0x110bd); (0x110c2, 0x110c2); (0x110cd, 0x110cd); (0x11100, 0x11102);
   (0x11127, 0x1112b); (0x1112d, 0x11134); (0x11173, 0x11173); (0x11180, 0x11181); (0x111b6, 0x111be);
   (0x111c9, 0x111cc); (0x111cf, 0x111cf); (0x1122f, 0x11231); (0x11234, 0x11234); (0x11236, 0x11237);
   (0x1123e, 0x1123e); (0x112df, 0x112df); (0x112e3, 0x112ea); (0x11300, 0x11301); (0x1133b, 0x1133c);
   (0x11340, 0x11340); (0x11366, 0x1136c); (0x11370, 0x11374); (0x11438, 0x1143f); (0x11442, 0x11444);
   (0x11446, 0x11446); (0x1145e, 0x1145e); (0x114b3, 0x114b8); (0x114ba, 0x114ba); (0x114bf, 0x114c0);
   (0x114c2, 0x114c3); (0x115b2, 0x115b5); (0x115bc, 0x115bd); (0x115bf, 0x115c0); (0x115dc, 0x115dd);
   (0x11633, 0x1163a); (0x1163d, 0x1163d); (0x1163f, 0x11640); (0x116ab, 0x116ab); (0x116ad, 0x116ad);
   (0x116b0, 0x116b5); (0x116b7, 0x116b7); (0x1171d, 0x1171f); (0x11722, 0x11725); (0x11727, 0x1172b);
   (0x1182f, 0x11837); (0x11839, 0x1183a); (0x1193b, 0x1193c); (0x1193e, 0x1193e); (0x11943, 0x11943);
   (0x119d4, 0x119d7); (0x119da, 0x119db); (0x119e0, 0x119e0); (0x11a01, 0x11a0a); (0x11a33, 0x11a38);
   (0x11a3b, 0x11a3e); (0x11a47, 0x11a47); (0x11a51, 0x11a56); (0x11a59, 0x11a5b); (0x11a8a, 0x11a96);
   (0x11a98, 0x11a99); (0x11c30, 0x11c36); (0x11c38, 0x11c3d); (0x11c3f, 0x11c3f); (0x11c92, 0x11ca7);
   (0x11caa, 0x11cb0); (0x11cb2, 0x11cb3); (0x11cb5, 0x11cb6); (0x11d31, 0x11d36); (0x11d3a, 0x11d3a);
   (0x11d3c, 0x11d3d); (0x11d3f, 0x11d45); (0x11d47, 0x11d47); (0x11d90, 0x11d91); (0x11d95, 0x11d95);
   (0x11d97, 0x11d97); (0x11ef3, 0x11ef4); (0x13430, 0x13438); (0x16af0, 0x16af4); (0x16b30, 0x16b36);
   (0x16b40, 0x16b43); (0x16f4f, 0x16f4f); (0x16f8f, 0x16f9f); (0x16fe0, 0x16fe1); (0x16fe3, 0x16fe4);
   (0x1aff0, 0x1aff3); (0x1aff5, 0x1affb); (0x1affd, 0x1affe); (0x1bc9d, 0x1bc9e); (0x1bca0, 0x1bca3);
   (0x1cf00, 0x1cf2d); (0x1cf30, 0x1cf46); (0x1d167, 0x1d169); (0x1d173, 0x1d182); (0x1d185, 0x1d18b);
   (0x1d1aa, 0x1d1ad); (0x1d242, 0x1d244); (0x1da00, 0x1da36); (0x1da3b, 0x1da6c); (0x1da75, 0x1da75);
   (0x1da84, 0x1da84); (0x1da9b, 0x1da9f); (0x1daa1, 0x1daaf); (0x1e000, 0x1e006); (0x1e008, 0x1e018);
   (0x1e01b, 0x1e021); (0x1e023, 0x1e024); (0x1e026, 0x1e02a); (0x1e130, 0x1e13d); (0x1e2ae, 0x1e2ae);
   (0x1e2ec, 0x1e2ef); (0x1e8d0, 0x1e8d6); (0x1e944, 0x1e94b); (0x1f3fb, 0x1f3ff); (0xe0001, 0xe0001);
   (0xe0020, 0xe007f); (0xe0100, 0xe01ef)].

(** The decimal digits above U+007F: runs of ten, each from its zero on *)
Definition decimal_ranges : list (Z * Z) :=
  [(0x660, 0x669); (0x6f0, 0x6f9); (0x7c0, 0x7c9); (0x966, 0x96f); (0x9e6, 0x9ef);
   (0xa66, 0xa6f); (0xae6, 0xaef); (0xb66, 0xb6f); (0xbe6, 0xbef); (0xc66, 0xc6f);
   (0xce6, 0xcef); (0xd66, 0xd6f); (0xde6, 0xdef); (0xe50, 0xe59); (0xed0, 0xed9);
   (0xf20, 0xf29); (0x1040, 0x1049); (0x1090, 0x1099); (0x17e0, 0x17e9); (0x1810, 0x1819);
   (0x1946, 0x194f); (0x19d0, 0x19d9); (0x1a80, 0x1a89); (0x1a90, 0x1a99); (0x1b50, 0x1b59);
   (0x1bb0, 0x1bb9); (0x1c40, 0x1c49); (0x1c50, 0x1c59); (0xa620, 0xa629); (0xa8d0, 0xa8d9);
   (0xa900, 0xa909); (0xa9d0, 0xa9d9); (0xa9f0, 0xa9f9); (0xaa50, 0xaa59); (0xabf0, 0xabf9);
   (0xff10, 0xff19); (0x104a0, 0x104a9); (0x10d30, 0x10d39); (0x11066, 0x1106f); (0x110f0, 0x110f9);
   (0x11136, 0x1113f); (0x111d0, 0x111d9); (0x112f0, 0x112f9); (0x11450, 0x11459); (0x114d0, 0x114d9);
   (0x11650, 0x11659); (0x116c0, 0x116c9); (0x11730, 0x11739); (0x118e0, 0x118e9); (0x11950, 0x11959);
   (0x11c50, 0x11c59); (0x11d50, 0x11d59); (0x11da0, 0x11da9); (0x16a60, 0x16a69); (0x16ac0, 0x16ac9);
   (0x16b50, 0x16b59); (0x1d7ce, 0x1d7ff); (0x1e140, 0x1e149); (0x1e2f0, 0x1e2f9); (0x1e950, 0x1e959);
   (0x1fbf0, 0x1fbf9)].

(** The code points above U+007F that [repr] writes as an escape *)
Definition unprintable_ranges : list (Z * Z) :=
  [(0x80, 0xa0); (0xad, 0xad); (0x378, 0x379); (0x380, 0x383); (0x38b, 0x38b);
   (0x38d, 0x38d); (0x3a2, 0x3a2); (0x530, 0x530); (0x557, 0x558); (0x58b, 0x58c);
   (0x590, 0x590); (0x5c8, 0x5cf); (0x5eb, 0x5ee); (0x5f5, 0x605); (0x61c, 0x61c);
   (0x6dd, 0x6dd); (0x70e, 0x70f); (0x74b, 0x74c); (0x7b2, 0x7bf); (0x7fb, 0x7fc);
   (0x82e, 0x82f); (0x83f, 0x83f); (0x85c, 0x85d); (0x85f, 0x85f); (0x86b, 0x86f);
   (0x88f, 0x897); (0x8e2, 0x8e2); (0x984, 0x984); (0x98d, 0x98e); (0x991, 0x992);
   (0x9a9, 0x9a9); (0x9b1, 0x9b1); (0x9b3, 0x9b5); (0x9ba, 0x9bb); (0x9c5, 0x9c6);
   (0x9c9, 0x9ca); (0x9cf, 0x9d6); (0x9d8, 0x9db); (0x9de, 0x9de); (0x9e4, 0x9e5);
   (0x9ff, 0xa00); (0xa04, 0xa04); (0xa0b, 0xa0e); (0xa11, 0xa12); (0xa29, 0xa29);
   (0xa31, 0xa31); (0xa34, 0xa34); (0xa37, 0xa37); (0xa3a, 0xa3b); (0xa3d, 0xa3d);
   (0xa43, 0xa46); (0xa49, 0xa4a); (0xa4e, 0xa50); (0xa52, 0xa58); (0xa5d, 0xa5d);
   (0xa5f, 0xa65); (0xa77, 0xa80); (0xa84, 0xa84); (0xa8e, 0xa8e); (0xa92, 0xa92);
   (0xaa9, 0xaa9); (0xab1, 0xab1); (0xab4, 0xab4); (0xaba, 0xabb); (0xac6, 0xac6);
   (0xaca, 0xaca); (0xace, 0xacf); (0xad1, 0xadf); (0xae4, 0xae5); (0xaf2, 0xaf8);
   (0xb00, 0xb00); (0xb04, 0xb04); (0xb0d, 0xb0e); (0xb11, 0xb12); (0xb29, 0xb29);
   (0xb31, 0xb31); (0xb34, 0xb34); (0xb3a, 0xb3b); (0xb45, 0xb46); (0xb49, 0xb4a);
   (0xb4e, 0xb54); (0xb58, 0xb5b); (0xb5e, 0xb5e); (0xb64, 0xb65); (0xb78, 0xb81);
   (0xb84, 0xb84); (0xb8b, 0xb8d); (0xb91, 0xb91); (0xb96, 0xb98); (0xb9b, 0xb9b);
   (0xb9d, 0xb9d); (0xba0, 0xba2); (0xba5, 0xba7); (0xbab, 0xbad); (0xbba, 0xbbd);
   (0xbc3, 0xbc5); (0xbc9, 0xbc9); (0xbce, 0xbcf); (0xbd1, 0xbd6); (0xbd8, 0xbe5);
   (0xbfb, 0xbff); (0xc0d, 0xc0d); (0xc11, 0xc11); (0xc29, 0xc29); (0xc3a, 0xc3b);
   (0xc45, 0xc45); (0xc49, 0xc49); (0xc4e, 0xc54); (0xc57, 0xc57); (0xc5b, 0xc5c);
   (0xc5e, 0xc5f); (0xc64, 0xc65); (0xc70, 0xc76); (0xc8d, 0xc8d); (0xc91, 0xc91);
   (0xca9, 0xca9); (0xcb4, 0xcb4); (0xcba, 0xcbb); (0xcc5, 0xcc5); (0xcc9, 0xcc9);
   (0xcce, 0xcd4); (0xcd7, 0xcdc); (0xcdf, 0xcdf); (0xce4, 0xce5); (0xcf0, 0xcf0);
   (0xcf3, 0xcff); (0xd0d, 0xd0d); (0xd11, 0xd11); (0xd45, 0xd45); (0xd49, 0xd49);
   (0xd50, 0xd53); (0xd64, 0xd65); (0xd80, 0xd80); (0xd84, 0xd84); (0xd97, 0xd99);
   (0xdb2, 0xdb2); (0xdbc, 0xdbc); (0xdbe, 0xdbf); (0xdc7, 0xdc9); (0xdcb, 0xdce);
   (0xdd5, 0xdd5); (0xdd7, 0xdd7); (0xde0, 0xde5); (0xdf0, 0xdf1); (0xdf5, 0xe00);
   (0xe3b, 0xe3e); (0xe5c, 0xe80); (0xe83, 0xe83); (0xe85, 0xe85); (0xe8b, 0xe8b);
   (0xea4, 0xea4); (0xea6, 0xea6); (0xebe, 0xebf); (0xec5, 0xec5); (0xec7, 0xec7);
   (0xece, 0xecf); (0xeda, 0xedb); (0xee0, 0xeff); (0xf48, 0xf48); (0xf6d, 0xf70);
   (0xf98, 0xf98); (0xfbd, 0xfbd); (0xfcd, 0xfcd); (0xfdb, 0xfff); (0x10c6, 0x10c6);
   (0x10c8, 0x10cc); (0x10ce, 0x10cf); (0x1249, 0x1249); (0x124e, 0x124f); (0x1257, 0x1257);
   (0x1259, 0x1259); (0x125e, 0x125f); (0x1289, 0x1289); (0x128e, 0x128f); (0x12b1, 0x12b1);
   (0x12b6, 0x12b7); (0x12bf, 0x12bf); (0x12c1, 0x12c1); (0x12c6, 0x12c7); (0x12d7, 0x12d7);
   (0x1311, 0x1311); (0x1316, 0x1317); (0x135b, 0x135c); (0x137d, 0x137f); (0x139a, 0x139f);
   (0x13f6, 0x13f7); (0x13fe, 0x13ff); (0x1680, 0x1680); (0x169d, 0x169f); (0x16f9, 0x16ff);
   (0x1716, 0x171e); (0x1737, 0x173f); (0x1754, 0x175f); (0x176d, 0x176d); (0x1771, 0x1771);
   (0x1774, 0x177f); (0x17de, 0x17df); (0x17ea, 0x17ef); (0x17fa, 0x17ff); (0x180e, 0x180e);
   (0x181a, 0x181f); (0x1879, 0x187f); (0x18ab, 0x18af); (0x18f6, 0x18ff); (0x191f, 0x191f);
   (0x192c, 0x192f); (0x193c, 0x193f); (0x1941, 0x1943); (0x196e, 0x196f); (0x1975, 0x197f);
   (0x19ac, 0x19af); (0x19ca, 0x19cf); (0x19db, 0x19dd); (0x1a1c, 0x1a1d); (0x1a5f, 0x1a5f);
   (0x1a7d, 0x1a7e); (0x1a8a, 0x1a8f); (0x1a9a, 0x1a9f); (0x1aae, 0x1aaf); (0x1acf, 0x1aff);
   (0x1b4d, 0x1b4f); (0x1b7f, 0x1b7f); (0x1bf4, 0x1bfb); (0x1c38, 0x1c3a); (0x1c4a, 0x1c4c);
   (0x1c89, 0x1c8f); (0x1cbb, 0x1cbc); (0x1cc8, 0x1ccf); (0x1cfb, 0x1cff); (0x1f16, 0x1f17);
   (0x1f1e, 0x1f1f); (0x1f46, 0x1f47); (0x1f4e, 0x1f4f); (0x1f58, 0x1f58); (0x1f5a, 0x1f5a);
   (0x1f5c, 0x1f5c); (0x1f5e, 0x1f5e); (0x1f7e, 0x1f7f); (0x1fb5, 0x1fb5); (0x1fc5, 0x1fc5);
   (0x1fd4, 0x1fd5); (0x1fdc, 0x1fdc); (0x1ff0, 0x1ff1); (0x1ff5, 0x1ff5); (0x1fff, 0x200f);
   (0x2028, 0x202f); (0x205f, 0x206f); (0x2072, 0x2073); (0x208f, 0x208f); (0x209d, 0x209f);
   (0x20c1, 0x20cf); (0x20f1, 0x20ff); (0x218c, 0x218f); (0x2427, 0x243f); (0x244b, 0x245f);
   (0x2b74, 0x2b75); (0x2b96, 0x2b96); (0x2cf4, 0x2cf8); (0x2d26, 0x2d26); (0x2d28, 0x2d2c);
   (0x2d2e, 0x2d2f); (0x2d68, 0x2d6e); (0x2d71, 0x2d7e); (0x2d97, 0x2d9f); (0x2da7, 0x2da7);
   (0x2daf, 0x2daf); (0x2db7, 0x2db7); (0x2dbf, 0x2dbf); (0x2dc7, 0x2dc7); (0x2dcf, 0x2dcf);
   (0x2dd7, 0x2dd7); (0x2ddf, 0x2ddf); (0x2e5e, 0x2e7f); (0x2e9a, 0x2e9a); (0x2ef4, 0x2eff);
   (0x2fd6, 0x2fef); (0x2ffc, 0x3000); (0x3040, 0x3040); (0x3097, 0x3098); (0x3100, 0x3104);
   (0x3130, 0x3130); (0x318f, 0x318f); (0x31e4, 0x31ef); (0x321f, 0x321f); (0xa48d, 0xa48f);
   (0xa4c7, 0xa4cf); (0xa62c, 0xa63f); (0xa6f8, 0xa6ff); (0xa7cb, 0xa7cf); (0xa7d2, 0xa7d2);
   (0xa7d4, 0xa7d4); (0xa7da, 0xa7f1); (0xa82d, 0xa82f); (0xa83a, 0xa83f); (0xa878, 0xa87f);
   (0xa8c6, 0xa8cd); (0xa8da, 0xa8df); (0xa954, 0xa95e); (0xa97d, 0xa97f); (0xa9ce, 0xa9ce);
   (0xa9da, 0xa9dd); (0xa9ff, 0xa9ff); (0xaa37, 0xaa3f); (0xaa4e, 0xaa4f); (0xaa5a, 0xaa5b);
   (0xaac3, 0xaada); (0xaaf7, 0xab00); (0xab07, 0xab08); (0xab0f, 0xab10); (0xab17, 0xab1f);
   (0xab27, 0xab27); (0xab2f, 0xab2f); (0xab6c, 0xab6f); (0xabee, 0xabef); (0xabfa, 0xabff);
   (0xd7a4, 0xd7af); (0xd7c7, 0xd7ca); (0xd7fc, 0xf8ff); (0xfa6e, 0xfa6f); (0xfada, 0xfaff);
   (0xfb07, 0xfb12); (0xfb18, 0xfb1c); (0xfb37, 0xfb37); (0xfb3d, 0xfb3d); (0xfb3f, 0xfb3f);
   (0xfb42, 0xfb42); (0xfb45, 0xfb45); (0xfbc3, 0xfbd2); (0xfd90, 0xfd91); (0xfdc8, 0xfdce);
   (0xfdd0, 0xfdef); (0xfe1a, 0xfe1f); (0xfe53, 0xfe53); (0xfe67, 0xfe67); (0xfe6c, 0xfe6f);
   (0xfe75, 0xfe75); (0xfefd, 0xff00); (0xffbf, 0xffc1); (0xffc8, 0xffc9); (0xffd0, 0xffd1);
   (0xffd8, 0xffd9); (0xffdd, 0xffdf); (0xffe7, 0xffe7); (0xffef, 0xfffb); (0xfffe, 0xffff);
   (0x1000c, 0x1000c); (0x10027, 0x10027); (0x1003b, 0x1003b); (0x1003e, 0x1003e); (0x1004e, 0x1004f);
   (0x1005e, 0x1007f); (0x100fb, 0x100ff); (0x10103, 0x10106); (0x10134, 0x10136); (0x1018f, 0x1018f);
   (0x1019d, 0x1019f); (0x101a1, 0x101cf); (0x101fe, 0x1027f); (0x1029d, 0x1029f); (0x102d1, 0x102df);
   (0x102fc, 0x102ff); (0x10324, 0x1032c); (0x1034b, 0x1034f); (0x1037b, 0x1037f); (0x1039e, 0x1039e);
   (0x103c4, 0x103c7); (0x103d6, 0x103ff); (0x1049e, 0x1049f); (0x104aa, 0x104af); (0x104d4, 0x104d7);
   (0x104fc, 0x104ff); (0x10528, 0x1052f); (0x10564, 0x1056e); (0x1057b, 0x1057b); (0x1058b, 0x1058b);
   (0x10593, 0x10593); (0x10596, 0x10596); (0x105a2, 0x105a2); (0x105b2, 0x105b2); (0x105ba, 0x105ba);
   (0x105bd, 0x105ff); (0x10737, 0x1073f); (0x10756, 0x1075f); (0x10768, 0x1077f); (0x10786, 0x10786);
   (0x107b1, 0x107b1); (0x107bb, 0x107ff); (0x10806, 0x10807); (0x10809, 0x10809); (0x10836, 0x10836);
   (0x10839, 0x1083b); (0x1083d, 0x1083e); (0x10856, 0x10856); (0x1089f, 0x108a6); (0x108b0, 0x108df);
   (0x108f3, 0x108f3); (0x108f6, 0x108fa); (0x1091c, 0x1091e); (0x1093a, 0x1093e); (0x10940, 0x1097f);
   (0x109b8, 0x109bb); (0x109d0, 0x109d1); (0x10a04, 0x10a04); (0x10a07, 0x10a0b); (0x10a14, 0x10a14);
   (0x10a18, 0x10a18); (0x10a36, 0x10a37); (0x10a3b, 0x10a3e); (0x10a49, 0x10a4f); (0x10a59, 0x10a5f);
   (0x10aa0, 0x10abf); (0x10ae7, 0x10aea); (0x10af7, 0x10aff); (0x10b36, 0x10b38); (0x10b56, 0x10b57);
   (0x10b73, 0x10b77); (0x10b92, 0x10b98); (0x10b9d, 0x10ba8); (0x10bb0, 0x10bff); (0x10c49, 0x10c7f);
   (0x10cb3, 0x10cbf); (0x10cf3, 0x10cf9); (0x10d28, 0x10d2f); (0x10d3a, 0x10e5f); (0x10e7f, 0x10e7f);
   (0x10eaa, 0x10eaa); (0x10eae, 0x10eaf); (0x10eb2, 0x10eff); (0x10f28, 0x10f2f); (0x10f5a, 0x10f6f);
   (0x10f8a, 0x10faf); (0x10fcc, 0x10fdf); (0x10ff7, 0x10fff); (0x1104e, 0x11051); (0x11076, 0x1107e);
   (0x110bd, 0x110bd); (0x110c3, 0x110cf); (0x110e9, 0x110ef); (0x110fa, 0x110ff); (0x11135, 0x11135);
   (0x11148, 0x1114f); (0x11177, 0x1117f); (0x111e0, 0x111e0); (0x111f5, 0x111ff); (0x11212, 0x11212);
   (0x1123f, 0x1127f); (0x11287, 0x11287); (0x11289, 0x11289); (0x1128e, 0x1128e); (0x1129e, 0x1129e);
   (0x112aa, 0x112af); (0x112eb, 0x112ef); (0x112fa, 0x112ff); (0x11304, 0x11304); (0x1130d, 0x1130e);
   (0x11311, 0x11312); (0x11329, 0x11329); (0x11331, 0x11331); (0x11334, 0x11334); (0x1133a, 0x1133a);
   (0x11345, 0x11346); (0x11349, 0x1134a); (0x1134e, 0x1134f); (0x11351, 0x11356); (0x11358, 0x1135c);
   (0x11364, 0x11365); (0x1136d, 0x1136f); (0x11375, 0x113ff); (0x1145c, 0x1145c); (0x11462, 0x1147f);
   (0x114c8, 0x114cf); (0x114da, 0x1157f); (0x115b6, 0x115b7); (0x115de, 0x115ff); (0x11645, 0x1164f);
   (0x1165a, 0x1165f); (0x1166d, 0x1167f); (0x116ba, 0x116bf); (0x116ca, 0x116ff); (0x1171b, 0x1171c);
   (0x1172c, 0x1172f); (0x11747, 0x117ff); (0x1183c, 0x1189f); (0x118f3, 0x118fe); (0x11907, 0x11908);
   (0x1190a, 0x1190b); (0x11914, 0x11914); (0x11917, 0x11917); (0x11936, 0x11936); (0x11939, 0x1193a);
   (0x11947, 0x1194f); (0x1195a, 0x1199f); (0x119a8, 0x119a9); (0x119d8, 0x119d9); (0x119e5, 0x119ff);
   (0x11a48, 0x11a4f); (0x11aa3, 0x11aaf); (0x11af9, 0x11bff); (0x11c09, 0x11c09); (0x11c37, 0x11c37);
   (0x11c46, 0x11c4f); (0x11c6d, 0x11c6f); (0x11c90, 0x11c91); (0x11ca8, 0x11ca8); (0x11cb7, 0x11cff);
   (0x11d07, 0x11d07); (0x11d0a, 0x11d0a); (0x11d37, 0x11d39); (0x11d3b, 0x11d3b); (0x11d3e, 0x11d3e);
   (0x11d48, 0x11d4f); (0x11d5a, 0x11d5f); (0x11d66, 0x11d66); (0x11d69, 0x11d69); (0x11d8f, 0x11d8f);
   (0x11d92, 0x11d92); (0x11d99, 0x11d9f); (0x11daa, 0x11edf); (0x11ef9, 0x11faf); (0x11fb1, 0x11fbf);
   (0x11ff2, 0x11ffe); (0x1239a, 0x123ff); (0x1246f, 0x1246f); (0x12475, 0x1247f); (0x12544, 0x12f8f);
   (0x12ff3, 0x12fff); (0x1342f, 0x143ff); (0x14647, 0x167ff); (0x16a39, 0x16a3f); (0x16a5f, 0x16a5f);
   (0x16a6a, 0x16a6d); (0x16abf, 0x16abf); (0x16aca, 0x16acf); (0x16aee, 0x16aef); (0x16af6, 0x16aff);
   (0x16b46, 0x16b4f); (0x16b5a, 0x16b5a); (0x16b62, 0x16b62); (0x16b78, 0x16b7c); (0x16b90, 0x16e3f);
   (0x16e9b, 0x16eff); (0x16f4b, 0x16f4e); (0x16f88, 0x16f8e); (0x16fa0, 0x16fdf); (0x16fe5, 0x16fef);
   (0x16ff2, 0x16fff); (0x187f8, 0x187ff); (0x18cd6, 0x18cff); (0x18d09, 0x1afef); (0x1aff4, 0x1aff4);
   (0x1affc, 0x1affc); (0x1afff, 0x1afff); (0x1b123, 0x1b14f); (0x1b153, 0x1b163); (0x1b168, 0x1b16f);
   (0x1b2fc, 0x1bbff); (0x1bc6b, 0x1bc6f); (0x1bc7d, 0x1bc7f); (0x1bc89, 0x1bc8f); (0x1bc9a, 0x1bc9b);
   (0x1bca0, 0x1ceff); (0x1cf2e, 0x1cf2f); (0x1cf47, 0x1cf4f); (0x1cfc4, 0x1cfff); (0x1d0f6, 0x1d0ff);
   (0x1d127, 0x1d128); (0x1d173, 0x1d17a); (0x1d1eb, 0x1d1ff); (0x1d246, 0x1d2df); (0x1d2f4, 0x1d2ff);
   (0x1d357, 0x1d35f); (0x1d379, 0x1d3ff); (0x1d455, 0x1d455); (0x1d49d, 0x1d49d); (0x1d4a0, 0x1d4a1);
   (0x1d4a3, 0x1d4a4); (0x1d4a7, 0x1d4a8); (0x1d4ad, 0x1d4ad); (0x1d4ba, 0x1d4ba); (0x1d4bc, 0x1d4bc);
   (0x1d4c4, 0x1d4c4); (0x1d506, 0x1d506); (0x1d50b, 0x1d50c); (0x1d515, 0x1d515); (0x1d51d, 0x1d51d);
   (0x1d53a, 0x1d53a); (0x1d53f, 0x1d53f); (0x1d545, 0x1d545); (0x1d547, 0x1d549); (0x1d551, 0x1d551);
   (0x1d6a6, 0x1d6a7); (0x1d7cc, 0x1d7cd); (0x1da8c, 0x1da9a); (0x1daa0, 0x1daa0); (0x1dab0, 0x1deff);
   (0x1df1f, 0x1dfff); (0x1e007, 0x1e007); (0x1e019, 0x1e01a); (0x1e022, 0x1e022); (0x1e025, 0x1e025);
   (0x1e02b, 0x1e0ff); (0x1e12d, 0x1e12f); (0x1e13e, 0x1e13f); (0x1e14a, 0x1e14d); (0x1e150, 0x1e28f);
   (0x1e2af, 0x1e2bf); (0x1e2fa, 0x1e2fe); (0x1e300, 0x1e7df); (0x1e7e7, 0x1e7e7); (0x1e7ec, 0x1e7ec);
   (0x1e7ef, 0x1e7ef); (0x1e7ff, 0x1e7ff); (0x1e8c5, 0x1e8c6); (0x1e8d7, 0x1e8ff); (0x1e94c, 0x1e94f);
   (0x1e95a, 0x1e95d); (0x1e960, 0x1ec70); (0x1ecb5, 0x1ed00); (0x1ed3e, 0x1edff); (0x1ee04, 0x1ee04);
   (0x1ee20, 0x1ee20); (0x1ee23, 0x1ee23); (0x1ee25, 0x1ee26); (0x1ee28, 0x1ee28); (0x1ee33, 0x1ee33);
   (0x1ee38, 0x1ee38); (0x1ee3a, 0x1ee3a); (0x1ee3c, 0x1ee41); (0x1ee43, 0x1ee46); (0x1ee48, 0x1ee48);
   (0x1ee4a, 0x1ee4a); (0x1ee4c, 0x1ee4c); (0x1ee50, 0x1ee50); (0x1ee53, 0x1ee53); (0x1ee55, 0x1ee56);
   (0x1ee58, 0x1ee58); (0x1ee5a, 0x1ee5a); (0x1ee5c, 0x1ee5c); (0x1ee5e, 0x1ee5e); (0x1ee60, 0x1ee60);
   (0x1ee63, 0x1ee63); (0x1ee65, 0x1ee66); (0x1ee6b, 0x1ee6b); (0x1ee73, 0x1ee73); (0x1ee78, 0x1ee78);
   (0x1ee7d, 0x1ee7d); (0x1ee7f, 0x1ee7f); (0x1ee8a, 0x1ee8a); (0x1ee9c, 0x1eea0); (0x1eea4, 0x1eea4);
   (0x1eeaa, 0x1eeaa); (0x1eebc, 0x1eeef); (0x1eef2, 0x1efff); (0x1f02c, 0x1f02f); (0x1f094, 0x1f09f);
   (0x1f0af, 0x1f0b0); (0x1f0c0, 0x1f0c0); (0x1f0d0, 0x1f0d0); (0x1f0f6, 0x1f0ff); (0x1f1ae, 0x1f1e5);
   (0x1f203, 0x1f20f); (0x1f23c, 0x1f23f); (0x1f249, 0x1f24f); (0x1f252, 0x1f25f); (0x1f266, 0x1f2ff);
   (0x1f6d8, 0x1f6dc); (0x1f6ed, 0x1f6ef); (0x1f6fd, 0x1f6ff); (0x1f774, 0x1f77f); (0x1f7d9, 0x1f7df);
   (0x1f7ec, 0x1f7ef); (0x1f7f1, 0x1f7ff); (0x1f80c, 0x1f80f); (0x1f848, 0x1f84f); (0x1f85a, 0x1f85f);
   (0x1f888, 0x1f88f); (0x1f8ae, 0x1f8af); (0x1f8b2, 0x1f8ff); (0x1fa54, 0x1fa5f); (0x1fa6e, 0x1fa6f);
   (0x1fa75, 0x1fa77); (0x1fa7d, 0x1fa7f); (0x1fa87, 0x1fa8f); (0x1faad, 0x1faaf); (0x1fabb, 0x1fabf);
   (0x1fac6, 0x1facf); (0x1fada, 0x1fadf); (0x1fae8, 0x1faef); (0x1faf7, 0x1faff); (0x1fb93, 0x1fb93);
   (0x1fbcb, 0x1fbef); (0x1fbfa, 0x1ffff); (0x2a6e0, 0x2a6ff); (0x2b739, 0x2b73f); (0x2b81e, 0x2b81f);
   (0x2cea2, 0x2ceaf); (0x2ebe1, 0x2f7ff); (0x2fa1e, 0x2ffff); (0x3134b, 0xe00ff); (0xe01f0, 0x10ffff)].

(** The white space above U+007F *)
Definition space_ranges : list (Z * Z) :=
  [(0x85, 0x85); (0xa0, 0xa0); (0x1680, 0x1680); (0x2000, 0x200a);
   (0x2028, 0x2029); (0x202f, 0x202f); (0x205f, 0x205f); (0x3000, 0x3000)].

(** [cp] is in one of the ranges. *)
Fixpoint within (ranges : list (Z * Z)) (cp : Z) : bool :=
  match ranges with
  | [] => false
  | (lo, hi) :: ranges' => ((lo <=? cp) && (cp <=? hi)) || within ranges' cp
  end.

(** Where a table of moves sends [cp], if it does *)
Fixpoint moved (table : list (Z * Z * Z * Z)) (cp : Z) : option Z :=
  match table with
  | [] => None
  | (lo, hi, step, delta) :: table' =>
      if (lo <=? cp) && (cp <=? hi) && ((cp - lo) mod step =? 0) then Some (cp + delta)
      else moved table' cp
  end.

Fixpoint special (table : list (Z * list Z)) (cp : Z) : option (list Z) :=
  match table with
  | [] => None
  | (cp', form) :: table' => if cp =? cp' then Some form else special table' cp
  end.

(** The form of [cp] after a table of special forms and a table of moves;
    [None] when [cp] stays as it is. *)
Definition form (specials : list (Z * list Z)) (moves : list (Z * Z * Z * Z)) (cp : Z)
  : option (list Z) :=
  match special specials cp with
  | Some out => Some out
  | None => option_map (fun z => [z]) (moved moves cp)
  end.

(** The lower-case form of a code point above U+007F *)
Definition to_lower (cp : Z) : option (list Z) := form lower_special lower_ranges cp.

(** The title-case form of a code point above U+007F *)
Definition to_title (cp : Z) : option (list Z) := form title_special title_ranges cp.

(** A cased code point, for one that is not case-ignorable *)
Definition letter (cp : Z) : bool := within letter_ranges cp.

Definition ignorable (cp : Z) : bool := within ignorable_ranges cp.

Definition space (cp : Z) : bool := within space_ranges cp.

(** The value of a decimal digit above U+007F *)
Fixpoint digit_in (ranges : list (Z * Z)) (cp : Z) : option Z :=
  match ranges with
  | [] => None
  | (lo, hi) :: ranges' =>
      if (lo <=? cp) && (cp <=? hi) then Some ((cp - lo) mod 10) else digit_in ranges' cp
  end.

Definition decimal (cp : Z) : option Z := digit_in decimal_ranges cp.

(** [str.isprintable] of a code point above U+007F *)
Definition printable (cp : Z) : bool := negb (within unprintable_ranges cp).

End Unicode.

(** ** Texts: the UTF-8 bytes of a [str] *)

Module Str.

Definition dquote : string := String "034"%char EmptyString.
Definition squote : string := "'".
Definition nl : string := String "010"%char EmptyString.
Definition backslash : string := String "092"%char EmptyString.

Definition code (c : ascii) : Z := Z.of_nat (nat_of_ascii c).
Definition chr (z : Z) : ascii := ascii_of_nat (Z.to_nat z).

Definition between (lo hi : Z) (c : ascii) : bool :=
  (lo <=? code c) && (code c <=? hi).

Fixpoint rev_onto (s acc : string) : string :=
  match s with
  | EmptyString => acc
  | String c s' => rev_onto s' (String c acc)
  end.

Definition rev (s : string) : string := rev_onto s EmptyString.

Definition is_empty (s : string) : bool :=
  match s with EmptyString => true | _ => false end.

(** [s.startswith(p)] *)
Fixpoint startswith (p s : string) : bool :=
  match p, s with
  | EmptyString, _ => true
  | String a p', String b s' => Ascii.eqb a b && startswith p' s'
  | String _ _, EmptyString => false
  end.

(** [sub in s] *)
Fixpoint contains (sub s : string) : bool :=
  startswith sub s ||
  match s with
  | EmptyString => false
  | String _ s' => contains sub s'
  end.

Fixpoint drop (n : nat) (s : string) : string :=
  match n, s with
  | O, _ => s
  | S n', String _ s' => drop n' s'
  | S _, EmptyString => EmptyString
  end.

(** White space as [str.strip] and [int] see it.  One-byte code points:
    TAB..CR, FS..US and SPACE. *)
Definition space1 (c : ascii) : bool := between 9 13 c || between 28 32 c.

(** U+0085 and U+00A0. *)
Definition space2 (a b : ascii) : bool :=
  (code a =? 194) && ((code b =? 133) || (code b =? 160)).

(** U+1680, U+2000..U+200A, U+2028, U+2029, U+202F, U+205F, U+3000. *)
Definition space3 (a b c : ascii) : bool :=
  ((code a =? 225) && (code b =? 154) && (code c =? 128))
  || ((code a =? 226) && (code b =? 128)
      && (between 128 138 c || (code c =? 168) || (code c =? 169) || (code c =? 175)))
  || ((code a =? 226) && (code b =? 129) && (code c =? 159))
  || ((code a =? 227) && (code b =? 128) && (code c =? 128)).

(** [s.lstrip()]; with [back] set the bytes of [s] are read in reverse
    order, which is how [rstrip] uses it. *)
Fixpoint lstrip_gen (back : bool) (s : string) : string :=
  match s with
  | EmptyString => s
  | String a s1 =>
      if space1 a then lstrip_gen back s1
      else
        match s1 with
        | EmptyString => s
        | String b s2 =>
            if (if back then space2 b a else space2 a b) then lstrip_gen back s2
            else
              match s2 with
              | EmptyString => s
              | String c s3 =>
                  if (if back then space3 c b a else space3 a b c)
                  then lstrip_gen back s3
                  else s
              end
        end
  end.

Definition lstrip (s : string) : string := lstrip_gen false s.
Definition rstrip (s : string) : string := rev (lstrip_gen true (rev s)).

(** [s.strip()] *)
Definition strip (s : string) : string := lstrip (rstrip s).

Definition lower_char (c : ascii) : ascii :=
  if between 65 90 c then chr (code c + 32) else c.

Definition upper_char (c : ascii) : ascii :=
  if between 97 122 c then chr (code c - 32) else c.

(** A byte that continues a code point *)
Definition continuation (c : ascii) : bool := between 128 191 c.

Definition two (a b : ascii) : Z := (code a - 192) * 64 + (code b - 128).

Definition three (a b c : ascii) : Z :=
  ((code a - 224) * 64 + (code b - 128)) * 64 + (code c - 128).

Definition four (a b c d : ascii) : Z :=
  (((code a - 240) * 64 + (code b - 128)) * 64 + (code c - 128)) * 64 + (code d - 128).

(** The code points of a text in their order, each with its bytes.  A
    surrogate that stands alone is a code point of three bytes.  A byte that
    begins no code point, which no [str] holds, stands for itself with no
    code point. *)
Fixpoint codes (s : string) : list (option Z * string) :=
  match s with
  | EmptyString => []
  | String a s1 =>
      let stray := (None, String a EmptyString) :: codes s1 in
      if code a <? 128 then (Some (code a), String a EmptyString) :: codes s1
      else
        match s1 with
        | String b s2 =>
            if continuation b then
              if between 194 223 a
              then (Some (two a b), String a (String b EmptyString)) :: codes s2
              else
                match s2 with
                | String c s3 =>
                    if continuation c then
                      if between 224 239 a && (2048 <=? three a b c)
                      then (Some (three a b c),
                            String a (String b (String c EmptyString))) :: codes s3
                      else
                        match s3 with
                        | String d s4 =>
                            if continuation d && between 240 244 a
                               && (65536 <=? four a b c d) && (four a b c d <=? 1114111)
                            then (Some (four a b c d),
                                  String a (String b (String c (String d EmptyString))))
                                   :: codes s4
                            else stray
                        | EmptyString => stray
                        end
                    else stray
                | EmptyString => stray
                end
            else stray
        | EmptyString => stray
        end
  end.

(** The bytes of a code point *)
Definition encode (cp : Z) : string :=
  if cp <? 128 then String (chr cp) EmptyString
  else if cp <? 2048 then
    String (chr (192 + cp / 64)) (String (chr (128 + cp mod 64)) EmptyString)
  else if cp <? 65536 then
    String (chr (224 + cp / 4096))
      (String (chr (128 + (cp / 64) mod 64)) (String (chr (128 + cp mod 64)) EmptyString))
  else
    String (chr (240 + cp / 262144))
      (String (chr (128 + (cp / 4096) mod 64))
         (String (chr (128 + (cp / 64) mod 64))
            (String (chr (128 + cp mod 64)) EmptyString))).

Definition encode_all (l : list Z) : string :=
  fold_right (fun cp out => encode cp ++ out) EmptyString l.

(** After case-ignorable code points, if any, a cased one comes next. *)
Fixpoint letter_follows (l : list (option Z * string)) : bool :=
  match l with
  | [] => false
  | (None, _) :: _ => false
  | (Some cp, _) :: l' => if Unicode.ignorable cp then letter_follows l' else Unicode.letter cp
  end.

(** Whether a cased code point stands before the next one, case-ignorable
    ones left out, once [x] is read *)
Definition letter_before (before : bool) (x : option Z * string) : bool :=
  match x with
  | (Some cp, _) => if Unicode.ignorable cp then before else Unicode.letter cp
  | (None, _) => false
  end.

(** The lower-case form of one code point.  The capital sigma (U+03A3)
    becomes the final sigma (U+03C2) where [final] holds, else the small
    sigma (U+03C3). *)
Definition lower_code (final : bool) (x : option Z * string) : string :=
  match x with
  | (Some cp, bytes) =>
      if cp <? 128 then String (lower_char (chr cp)) EmptyString
      else if cp =? 931 then encode (if final then 962 else 963)
      else
        match Unicode.to_lower cp with
        | Some out => encode_all out
        | None => bytes
        end
  | (None, bytes) => bytes
  end.

(** The title-case form of one code point *)
Definition title_code (x : option Z * string) : string :=
  match x with
  | (Some cp, bytes) =>
      if cp <? 128 then String (upper_char (chr cp)) EmptyString
      else
        match Unicode.to_title cp with
        | Some out => encode_all out
        | None => bytes
        end
  | (None, bytes) => bytes
  end.

(** The lower-case form of the code points [l]; [before] tells whether a
    cased code point stands before them.  A capital sigma is final after a
    cased code point and not before one. *)
Fixpoint lower_codes (before : bool) (l : list (option Z * string)) : string :=
  match l with
  | [] => EmptyString
  | x :: l' =>
      lower_code (before && negb (letter_follows l')) x
      ++ lower_codes (letter_before before x) l'
  end.

(** [s.lower()] *)
Definition lower (s : string) : string := lower_codes false (codes s).

(** [s.capitalize()]: the first code point in its title-case form, the
    others in lower case *)
Definition capitalize (s : string) : string :=
  match codes s with
  | [] => EmptyString
  | x :: l' => title_code x ++ lower_codes (letter_before false x) l'
  end.

(** [sep.join(parts)] *)
Fixpoint join (sep : string) (parts : list string) : string :=
  match parts with
  | [] => EmptyString
  | [p] => p
  | p :: rest => p ++ sep ++ join sep rest
  end.

(** [s.split(sep)] for a one-character separator *)
Fixpoint split_onto (sep : ascii) (cur : string) (s : string) : list string :=
  match s with
  | EmptyString => [rev cur]
  | String c s' =>
      if Ascii.eqb c sep then rev cur :: split_onto sep EmptyString s'
      else split_onto sep (String c cur) s'
  end.

Definition split (sep : ascii) (s : string) : list string :=
  split_onto sep EmptyString s.

(** [s.replace(a, b)] for one-character [a] *)
Fixpoint replace_char (a : ascii) (b : string) (s : string) : string :=
  match s with
  | EmptyString => EmptyString
  | String c s' =>
      if Ascii.eqb c a then b ++ replace_char a b s'
      else String c (replace_char a b s')
  end.

(** [''.join(parts)] *)
Definition concat (parts : list string) : string :=
  fold_right append EmptyString parts.

(** [str(z)] for an [int] *)
Definition of_Z (z : Z) : string :=
  DecimalString.NilZero.string_of_int (Z.to_int z).

Definition is_digit (c : ascii) : bool := between 48 57 c.

(** The digits of a decimal literal as [int] accepts them: single
    underscores may separate digits. *)
Fixpoint digits_value (acc : Z) (after_digit : bool) (s : string) : option Z :=
  match s with
  | EmptyString => if after_digit then Some acc else None
  | String c s' =>
      if is_digit c then digits_value (10 * acc + (code c - 48)) true s'
      else if Ascii.eqb c "_" then
             if after_digit then digits_value acc false s' else None
           else None
  end.

(** A code point as [int] reads it: one below U+0080 as it is, white space
    above as a space, a decimal digit above as the ASCII digit of its value,
    anything else as a question mark. *)
Definition int_char (x : option Z * string) : ascii :=
  match x with
  | (Some cp, _) =>
      if cp <? 128 then chr cp
      else if Unicode.space cp then " "%char
      else
        match Unicode.decimal cp with
        | Some d => chr (48 + d)
        | None => "?"%char
        end
  | (None, _) => "?"%char
  end.

Definition int_text (s : string) : string :=
  fold_right (fun x out => String (int_char x) out) EmptyString (codes s).

(** The white space [int] skips at the ends: TAB..CR and SPACE *)
Definition int_space (c : ascii) : bool := between 9 13 c || (code c =? 32).

Fixpoint int_lstrip (s : string) : string :=
  match s with
  | EmptyString => s
  | String c s' => if int_space c then int_lstrip s' else s
  end.

(** [int(s)] for a [str]; [None] stands for [ValueError]. *)
Definition to_Z (s : string) : option Z :=
  match rev (int_lstrip (rev (int_lstrip (int_text s)))) with
  | String "-" ds => option_map Z.opp (digits_value 0 false ds)
  | String "+" ds => digits_value 0 false ds
  | ds => digits_value 0 false ds
  end.

End Str.

(** ** Shapes of code points and of their lower-case forms *)

Module Utf8.

(** A code point above U+007F with its bytes, or a byte that begins none *)
Definition wide (x : option Z * string) : Prop :=
  match x with
  | (Some cp, String c _) => 128 <= cp <= 1114111 /\ 128 <= Str.code c
  | (None, String c _) => 128 <= Str.code c
  | (_, EmptyString) => False
  end.

(** A byte that is not an ASCII character, or is [i] or [k] *)
Definition high (c : ascii) : Prop :=
  128 <= Str.code c \/ Str.code c = 105 \/ Str.code c = 107.

(** The first code point of a lower-case form: above U+007F, or [i], or
    [k] *)
Definition first_ok (z : Z) : bool :=
  ((128 <=? z) && (z <=? 1114111)) || (z =? 105) || (z =? 107).

(** An entry of a table of moves whose forms begin so *)
Definition move_ok (m : Z * Z * Z * Z) : bool :=
  let '(lo, hi, step, delta) := m in
  ((128 <=? lo + delta) && (hi + delta <=? 1114111))
  || ((lo =? hi) && first_ok (lo + delta)).

(** An entry of a table of special forms whose form begins so *)
Definition special_ok (m : Z * list Z) : bool :=
  match snd m with
  | z :: _ => first_ok z
  | [] => false
  end.

End Utf8.

(** ** Python floats (binary64) *)

Module PyFloat.

(** [bool(f)] *)
Definition truthy (f : float) : bool := negb (PrimFloat.eqb f 0%float).

(** [int(f)]: truncation toward zero; [None] stands for the [ValueError]
    of a NaN and the [OverflowError] of an infinity. *)
Definition to_Z (f : float) : option Z :=
  match Prim2SF f with
  | S754_zero _ => Some 0
  | S754_finite s m e =>
      let v := if 0 <=? e then Zpos m * 2 ^ e else Zpos m / 2 ^ (- e) in
      Some (if s then - v else v)
  | S754_infinity _ | S754_nan => None
  end.

(** The float nearest to [d * 10 ^ e10] (ties to even), as [float(text)]
    computes it for a decimal literal; [d] is not negative. *)
Definition of_decimal (neg : bool) (d e10 : Z) : float :=
  let mag :=
    if d =? 0 then S754_zero false
    else if 0 <=? e10 then binary_normalize 53 1024 (d * 10 ^ e10) 0 false
    else
      let den := 10 ^ (- e10) in
      let s := Z.max 0 (57 + Z.log2 den - Z.log2 d) in
      let q := (d * 2 ^ s) / den in
      let sticky := if (d * 2 ^ s) mod den =? 0 then 0 else 1 in
      binary_normalize 53 1024 (2 * q + sticky) (- s - 1) false in
  let f := SF2Prim mag in
  if neg then PrimFloat.opp f else f.

Definition cdiv (a b : Z) : Z := - ((- a) / b).

(** The decimals [D * 10 ^ q] that read back as the float [m * 2 ^ e]:
    the one nearest to it, if there is any. *)
Definition candidate (m : positive) (e q : Z) : option Z :=
  let x := 4 * Zpos m in
  let narrow := (Zpos m =? 2 ^ 52) && (-1074 <? e) in
  let lo := x - (if narrow then 1 else 2) in
  let hi := x + 2 in
  let closed := Z.even (Zpos m) in
  let up := 2 ^ Z.max (e - 2) 0 * 10 ^ Z.max (- q) 0 in
  let unit := 10 ^ Z.max q 0 * 2 ^ Z.max (- (e - 2)) 0 in
  let dmin := if closed then cdiv (lo * up) unit else (lo * up) / unit + 1 in
  let dmax := if closed then (hi * up) / unit else cdiv (hi * up) unit - 1 in
  if dmax <? dmin then None
  else
    let dc := (x * up) / unit in
    let twice := 2 * (x * up - dc * unit) in
    Some (if dc <? dmin then dmin
          else if dmax <? dc + 1 then dc
          else if twice <? unit then dc
          else if unit <? twice then dc + 1
          else if Z.even dc then dc else dc + 1).

Fixpoint shortest (fuel : nat) (m : positive) (e q : Z) : Z * Z :=
  match fuel with
  | O => (0, q)
  | S fuel' =>
      match candidate m e q with
      | Some d => (d, q)
      | None => shortest fuel' m e (q - 1)
      end
  end.

Fixpoint zeros (n : nat) : string :=
  match n with O => EmptyString | S n' => String "0" (zeros n') end.

Fixpoint take (n : nat) (s : string) : string :=
  match n, s with
  | S n', String c s' => String c (take n' s')
  | _, _ => EmptyString
  end.

(** The layout of [repr] for the digits [ds] with the decimal point after
    the first [decpt] of them. *)
Definition layout (ds : string) (decpt : Z) : string :=
  let n := Z.of_nat (String.length ds) in
  if (decpt <=? -4) || (16 <? decpt) then
    let ex := decpt - 1 in
    let mant :=
      match ds with
      | String c EmptyString => ds
      | String c rest => String c ("." ++ rest)
      | EmptyString => ds
      end in
    let exs := Str.of_Z (Z.abs ex) in
    mant ++ "e" ++ (if ex <? 0 then "-" else "+")
         ++ (if Z.abs ex <? 10 then "0" else "") ++ exs
  else if decpt <=? 0 then "0." ++ zeros (Z.to_nat (- decpt)) ++ ds
  else if n <=? decpt then ds ++ zeros (Z.to_nat (decpt - n)) ++ ".0"
  else take (Z.to_nat decpt) ds ++ "." ++ Str.drop (Z.to_nat decpt) ds.

(** [repr(f)], which is also [str(f)] *)
Definition repr (f : float) : string :=
  match Prim2SF f with
  | S754_nan => "nan"
  | S754_infinity s => if s then "-inf" else "inf"
  | S754_zero s => if s then "-0.0" else "0.0"
  | S754_finite s m e =>
      let q0 := (Z.log2 (Zpos m) + e + 1) * 30103 / 100000 + 2 in
      let '(d, q) := shortest 40 m e q0 in
      let ds := Str.of_Z d in
      (if s then "-" else "") ++ layout ds (Z.of_nat (String.length ds) + q)
  end.

End PyFloat.

(** ** Python values, as [json.loads] produces them *)

#[warnings="-register-all"]
Inductive pyval : Type :=
| PNone
| PBool (b : bool)
| PInt (z : Z)
| PFloat (f : float)
| PStr (s : string)
| PList (items : list pyval)
| PDict (entries : list (string * pyval)).

Definition pydict : Type := list (string * pyval).

(** The exceptions this code meets, by class. *)
Inductive exn_class : Type :=
| TypeError
| ValueError
| OverflowError
| AttributeError
| JSONDecodeError
| ValidationError.

(** The outcome of a call that may raise. *)
Inductive result (A : Type) : Type :=
| Ok (a : A)
| Raise (e : exn_class).

Arguments Ok {A} a.
Arguments Raise {A} e.

Definition bind {A B : Type} (r : result A) (k : A -> result B) : result B :=
  match r with
  | Ok a => k a
  | Raise e => Raise e
  end.

Notation "x <- r ;; k" := (bind r (fun x => k))
  (at level 61, r at next level, right associativity).

Module Py.

(** [bool(v)] *)
Definition truthy (v : pyval) : bool :=
  match v with
  | PNone => false
  | PBool b => b
  | PInt z => negb (z =? 0)
  | PFloat f => PyFloat.truthy f
  | PStr s => negb (Str.is_empty s)
  | PList l => match l with [] => false | _ => true end
  | PDict d => match d with [] => false | _ => true end
  end.

(** [a or b] *)
Definition or (a b : pyval) : pyval := if truthy a then a else b.

Definition hex_digit (z : Z) : ascii :=
  if z <? 10 then Str.chr (48 + z) else Str.chr (87 + z).

(** One character below U+0080 of a [str] inside its [repr], quoted with
    [q]. *)
Definition repr_char (q : ascii) (c : ascii) : string :=
  let n := Str.code c in
  if Ascii.eqb c "092" then Str.backslash ++ Str.backslash
  else if Ascii.eqb c q then Str.backslash ++ String q EmptyString
  else if n =? 10 then Str.backslash ++ "n"
  else if n =? 13 then Str.backslash ++ "r"
  else if n =? 9 then Str.backslash ++ "t"
  else if (n <? 32) || (n =? 127) then
    Str.backslash ++ "x"
      ++ String (hex_digit (n / 16)) (String (hex_digit (n mod 16)) EmptyString)
  else String c EmptyString.

(** [n] hexadecimal digits of [z] *)
Fixpoint hex (n : nat) (z : Z) : string :=
  match n with
  | O => EmptyString
  | S n' => hex n' (z / 16) ++ String (hex_digit (z mod 16)) EmptyString
  end.

(** The escape of a code point that is not printable *)
Definition escape (cp : Z) : string :=
  if cp <? 256 then Str.backslash ++ "x" ++ hex 2 cp
  else if cp <? 65536 then Str.backslash ++ "u" ++ hex 4 cp
  else Str.backslash ++ "U" ++ hex 8 cp.

(** One code point of a [str] inside its [repr] *)
Definition repr_code (q : ascii) (x : option Z * string) : string :=
  match x with
  | (Some cp, bytes) =>
      if cp <? 128 then repr_char q (Str.chr cp)
      else if Unicode.printable cp then bytes
      else escape cp
  | (None, bytes) =>
      match bytes with
      | String a _ => escape (Str.code a)
      | EmptyString => EmptyString
      end
  end.

Definition repr_chars (q : ascii) (s : string) : string :=
  fold_right (fun x out => repr_code q x ++ out) EmptyString (Str.codes s).

(** [repr(s)] for a [str]: single quotes, unless [s] holds a single quote
    and no double quote. *)
Definition repr_str (s : string) : string :=
  let q : ascii :=
    if Str.contains Str.squote s && negb (Str.contains Str.dquote s)
    then "034"%char else "'"%char in
  String q (repr_chars q s ++ String q EmptyString).

(** [repr(v)] *)
Fixpoint repr (v : pyval) : string :=
  match v with
  | PNone => "None"
  | PBool b => if b then "True" else "False"
  | PInt z => Str.of_Z z
  | PFloat f => PyFloat.repr f
  | PStr s => repr_str s
  | PList l => "[" ++ Str.join ", " (map repr l) ++ "]"
  | PDict d =>
      "{" ++ Str.join ", " (map (fun kv => repr_str (fst kv) ++ ": " ++ repr (snd kv)) d)
          ++ "}"
  end.

(** [str(v)] *)
Definition str (v : pyval) : string :=
  match v with
  | PStr s => s
  | _ => repr v
  end.

(** [int(v)] *)
Definition int (v : pyval) : result Z :=
  match v with
  | PBool b => Ok (if b then 1 else 0)
  | PInt z => Ok z
  | PFloat f =>
      match PyFloat.to_Z f with
      | Some z => Ok z
      | None =>
          match Prim2SF f with
          | S754_nan => Raise ValueError
          | _ => Raise OverflowError
          end
      end
  | PStr s =>
      match Str.to_Z s with
      | Some z => Ok z
      | None => Raise ValueError
      end
  | PNone | PList _ | PDict _ => Raise TypeError
  end.

Fixpoint lookup (k : string) (d : pydict) : option pyval :=
  match d with
  | [] => None
  | (k', v) :: d' => if String.eqb k k' then Some v else lookup k d'
  end.

(** [d.get(k)] *)
Definition get (d : pydict) (k : string) : pyval :=
  match lookup k d with
  | Some v => v
  | None => PNone
  end.

(** [d.get(k, default)] *)
Definition get_default (d : pydict) (k : string) (default : pyval) : pyval :=
  match lookup k d with
  | Some v => v
  | None => default
  end.

Definition is_str (s : string) (v : pyval) : bool :=
  match v with
  | PStr t => String.eqb s t
  | _ => false
  end.

(** [s in v] for a [str] [s] *)
Definition contains (s : string) (v : pyval) : result bool :=
  match v with
  | PStr t => Ok (Str.contains s t)
  | PList l => Ok (existsb (is_str s) l)
  | PDict d => Ok (match lookup s d with Some _ => true | None => false end)
  | PNone | PBool _ | PInt _ | PFloat _ => Raise TypeError
  end.

End Py.

(** ** Output normalizer: [_coerce_recipe_dict] *)

Module Normalizer.

(** The local helper [to_int(value, default)] *)
Definition to_int (value : pyval) (default : Z) : Z :=
  match Py.int value with
  | Ok z => z
  | Raise _ => default
  end.

Definition alt_keys : list string :=
  ["title_en"; "transliteration"; "name_en"; "english_title"; "recipe_name_en"].

(** [data.get("title") or data.get("name") or data.get("recipe_name") or "Recipe"] *)
Definition raw_title (data : pydict) : pyval :=
  Py.or (Py.or (Py.or (Py.get data "title") (Py.get data "name"))
               (Py.get data "recipe_name"))
        (PStr "Recipe").

(** The loop over [alt_keys]: the stripped text of the first value that is
    true, [None] when there is none. *)
Fixpoint find_alt (data : pydict) (keys : list string) : option string :=
  match keys with
  | [] => None
  | k :: keys' =>
      let v := Py.get data k in
      if Py.truthy v then Some (Str.strip (Py.str v)) else find_alt data keys'
  end.

(** [display_title] after the alternate title is considered. *)
Definition with_alt (raw : pyval) (alt : option string) : result pyval :=
  match alt with
  | None => Ok raw
  | Some a =>
      if Str.is_empty a then Ok raw
      else
        found <- Py.contains a raw ;;
        if found then Ok raw
        else Ok (PStr (Py.str raw ++ " (" ++ a ++ ")"))
  end.

(** [display_title] after the cuisine is considered. *)
Definition with_cuisine (display_title : pyval) (cuisine_val : pyval) : pyval :=
  if Py.truthy cuisine_val then
    let c := Str.strip (Py.str cuisine_val) in
    if Str.is_empty c then display_title
    else PStr (Py.str display_title ++ " (" ++ Str.capitalize c ++ ")")
  else display_title.

Definition display_title (data : pydict) : result pyval :=
  t <- with_alt (raw_title data) (find_alt data alt_keys) ;;
  Ok (with_cuisine t (Py.get data "cuisine")).

Definition servings (data : pydict) : pyval :=
  PInt (to_int (Py.get_default data "servings" (PInt 2)) 2).

(** [to_int(...) or None] *)
Definition total_time_minutes (data : pydict) : pyval :=
  let t :=
    to_int (Py.get_default data "total_time_minutes"
              (Py.get_default data "time_minutes" (PInt 0))) 0 in
  if t =? 0 then PNone else PInt t.

Definition ingredient_entry (name qty : pyval) : pyval :=
  PDict [("name", name); ("quantity", qty)].

(** [name] in one turn of the ingredients loop *)
Definition ingredient_name (item : pyval) : pyval :=
  match item with
  | PDict i =>
      Py.or (Py.or (Py.get i "name") (Py.get i "ingredient")) (PStr (Py.str item))
  | _ => PStr (Py.str item)
  end.

(** [qty] in one turn of the ingredients loop *)
Definition ingredient_quantity (item : pyval) : pyval :=
  match item with
  | PDict i => Py.or (Py.get i "quantity") (Py.get i "qty")
  | _ => PNone
  end.

(** One turn of the ingredients loop: what it appends to [norm_ings]. *)
Definition coerce_ingredient (item : pyval) : list pyval :=
  if Py.truthy (ingredient_name item)
  then [ingredient_entry (ingredient_name item) (ingredient_quantity item)]
  else [].

(** [data.get("ingredients") or data.get("ingredient_list") or []] *)
Definition source_ingredients (data : pydict) : pyval :=
  Py.or (Py.or (Py.get data "ingredients") (Py.get data "ingredient_list")) (PList []).

Definition norm_ings (data : pydict) : list pyval :=
  match source_ingredients data with
  | PList ings => flat_map coerce_ingredient ings
  | _ => []
  end.

Definition default_ingredient : pyval :=
  ingredient_entry (PStr "salt") (PStr "to taste").

(** [norm_ings or [{"name": "salt", "quantity": "to taste"}]] *)
Definition ingredients (data : pydict) : list pyval :=
  match norm_ings data with
  | [] => [default_ingredient]
  | l => l
  end.

Definition step_entry (number : Z) (instruction : pyval) : pyval :=
  PDict [("number", PInt number); ("instruction", instruction)].

(** [instruction] in one turn of the loop over a list of steps *)
Definition step_instruction (s : pyval) : pyval :=
  match s with
  | PDict d => Py.or (Py.or (Py.get d "instruction") (Py.get d "step")) (PStr (Py.str s))
  | _ => PStr (Py.str s)
  end.

(** [number] in one turn of the loop over a list of steps *)
Definition step_number (idx : Z) (s : pyval) : pyval :=
  match s with
  | PDict d => Py.or (Py.get d "number") (PInt idx)
  | _ => PInt idx
  end.

(** One turn of the loop over a list of steps; [int(number)] may raise. *)
Definition coerce_step (idx : Z) (s : pyval) : result (list pyval) :=
  if Py.truthy (step_instruction s) then
    n <- Py.int (step_number idx s) ;;
    Ok [step_entry n (step_instruction s)]
  else Ok [].

(** [for idx, s in enumerate(steps, start=idx)] *)
Fixpoint coerce_step_list (idx : Z) (steps : list pyval) : result (list pyval) :=
  match steps with
  | [] => Ok []
  | s :: steps' =>
      here <- coerce_step idx s ;;
      rest <- coerce_step_list (idx + 1) steps' ;;
      Ok (here ++ rest)%list
  end.

(** [[p.strip() for p in steps.split(".") if p.strip()]] *)
Definition sentences (steps : string) : list string :=
  map Str.strip
    (filter (fun p => negb (Str.is_empty (Str.strip p))) (Str.split "." steps)).

(** [for idx, p in enumerate(parts, start=idx)] *)
Fixpoint number_sentences (idx : Z) (parts : list string) : list pyval :=
  match parts with
  | [] => []
  | p :: parts' => step_entry idx (PStr p) :: number_sentences (idx + 1) parts'
  end.

(** [data.get("steps") or data.get("instructions") or []] *)
Definition source_steps (data : pydict) : pyval :=
  Py.or (Py.or (Py.get data "steps") (Py.get data "instructions")) (PList []).

Definition norm_steps (data : pydict) : result (list pyval) :=
  match source_steps data with
  | PList steps => coerce_step_list 1 steps
  | PStr steps =>
      if Str.is_empty (Str.strip steps) then Ok []
      else Ok (number_sentences 1 (sentences steps))
  | _ => Ok []
  end.

Definition default_step : pyval :=
  step_entry 1 (PStr "Mix ingredients and cook until done.").

(** [norm_steps or [{"number": 1, "instruction": ...}]] *)
Definition steps (data : pydict) : result (list pyval) :=
  l <- norm_steps data ;;
  Ok (match l with [] => [default_step] | _ => l end).

(** [_coerce_recipe_dict(data)] for a dictionary [data] *)
Definition coerce_dict (data : pydict) : result pydict :=
  title <- display_title data ;;
  sts <- steps data ;;
  Ok [("title", title);
      ("cuisine", Py.get data "cuisine");
      ("servings", servings data);
      ("total_time_minutes", total_time_minutes data);
      ("ingredients", PList (ingredients data));
      ("steps", PList sts);
      ("nutrition", Py.get data "nutrition");
      ("tips", Py.get data "tips")].

(** [_coerce_recipe_dict(data)]; a value without [.get] raises
    [AttributeError] at the first [data.get]. *)
Definition _coerce_recipe_dict (data : pyval) : result pydict :=
  match data with
  | PDict d => coerce_dict d
  | _ => Raise AttributeError
  end.

(** [k] is the first of [keys] whose value in [data] is present (true). *)
Definition first_present (data : pydict) (keys : list string) (k : string) : Prop :=
  exists before after,
    keys = (before ++ k :: after)%list
    /\ Forall (fun k' => Py.truthy (Py.get data k') = false) before
    /\ Py.truthy (Py.get data k) = true.

(** The value the time is read from: [total_time_minutes] when the key is
    there, else [time_minutes]. *)
Definition time_source (data : pydict) : option pyval :=
  match Py.lookup "total_time_minutes" data with
  | Some v => Some v
  | None => Py.lookup "time_minutes" data
  end.

Definition dal : pydict :=
  [("title", PStr "Dal"); ("title_en", PStr "Lentil Stew"); ("cuisine", PStr "punjabi")].


Definition timed : pydict :=
  [("title", PStr "Dal"); ("servings", PStr "4"); ("time_minutes", PFloat 0.5)].

Definition timed_out : pydict :=
  [("title", PStr "Dal");
   ("cuisine", PNone);
   ("servings", PInt 4);
   ("total_time_minutes", PNone);
   ("ingredients", PList [PDict [("name", PStr "salt"); ("quantity", PStr "to taste")]]);
   ("steps", PList [PDict [("number", PInt 1);
                           ("instruction", PStr "Mix ingredients and cook until done.")]]);
   ("nutrition", PNone);
   ("tips", PNone)].

Definition no_servings : pydict := [("title", PStr "Dal"); ("servings", PStr "-3")].

(** Texts outside ASCII: a cuisine that begins with an accented letter, and
    numbers written with Devanagari digits *)
Definition injera : pydict :=
  [("title", PStr "Injera"); ("cuisine", PStr "éthiopienne")].

Definition devanagari : pydict :=
  [("title", PStr "Dal"); ("servings", PStr "४"); ("total_time_minutes", PStr "३०")].

Definition devanagari_zero : pydict := [("title", PStr "Dal"); ("servings", PStr "०")].



Definition no_servings_out : pydict :=
  [("title", PStr "Dal");
   ("cuisine", PNone);
   ("servings", PInt (-3));
   ("total_time_minutes", PNone);
   ("ingredients", PList [PDict [("name", PStr "salt"); ("quantity", PStr "to taste")]]);
   ("steps", PList [PDict [("number", PInt 1);
                           ("instruction", PStr "Mix ingredients and cook until done.")]]);
   ("nutrition", PNone);
   ("tips", PNone)].

End Normalizer.

(** ** Recipe validator: the [Recipe] model of [schemas.py] *)

Module Validator.

(** pydantic's validator of an [int] field: an [int] is kept, any other
    value goes through [int(v)]. *)
Definition int_validator (v : pyval) : result Z :=
  match v with
  | PInt z => Ok z
  | _ =>
      match Py.int v with
      | Ok z => Ok z
      | Raise _ => Raise ValidationError
      end
  end.

(** The constraint [ge=bound] *)
Definition ge (bound z : Z) : result Z :=
  if bound <=? z then Ok z else Raise ValidationError.

(** [servings: int = Field(..., ge=1)] *)
Definition servings_field (data : pydict) : result Z :=
  match Py.lookup "servings" data with
  | None | Some PNone => Raise ValidationError
  | Some v => z <- int_validator v ;; ge 1 z
  end.

(** [total_time_minutes: Optional[int] = Field(None, ge=0)] *)
Definition total_time_minutes_field (data : pydict) : result (option Z) :=
  match Py.lookup "total_time_minutes" data with
  | None | Some PNone => Ok None
  | Some v => z <- int_validator v ;; z' <- ge 0 z ;; Ok (Some z')
  end.

Section Recipe.

(** The validated [title], [cuisine], [ingredients], [steps],
    [nutrition] and [tips], as pydantic's validators of [str], [float],
    lists and nested models produce them; [None] when one of them is
    refused. *)
Variable Rest : Type.
Variable rest_fields : pydict -> option Rest.

Record Recipe : Type := {
  servings : Z;
  total_time_minutes : option Z;
  rest : Rest
}.

(** Building a [Recipe] from the keys of [data]: every field is validated, and one refused field
    makes the call raise. *)
Definition validate (data : pydict) : result Recipe :=
  match servings_field data, total_time_minutes_field data, rest_fields data with
  | Ok s, Ok t, Some r =>
      Ok {| servings := s; total_time_minutes := t; rest := r |}
  | _, _, _ => Raise ValidationError
  end.

End Recipe.

End Validator.

(** ** The canonical recipe shape of the data model *)

Module Canonical.

Inductive opt_rel {A : Type} (R : A -> A -> Prop) : option A -> option A -> Prop :=
| opt_none : opt_rel R None None
| opt_some a b : R a b -> opt_rel R (Some a) (Some b).

(** Equality of values as [==] decides it: a value equals itself, lists
    are equal entry by entry, and dictionaries are equal when they bind the
    same keys to equal values, in whatever order. *)
#[warnings="-register-all"]
Inductive equal : pyval -> pyval -> Prop :=
| equal_same v : equal v v
| equal_list l1 l2 : Forall2 equal l1 l2 -> equal (PList l1) (PList l2)
| equal_dict d1 d2 :
    (forall k, opt_rel equal (Py.lookup k d1) (Py.lookup k d2)) ->
    equal (PDict d1) (PDict d2).

Definition optional (P : pyval -> Prop) (v : pyval) : Prop := v = PNone \/ P v.

Definition text (v : pyval) : Prop := exists s, v = PStr s.

Definition nonempty_text (v : pyval) : Prop := exists s, v = PStr s /\ s <> "".

Definition at_least (bound : Z) (v : pyval) : Prop := exists z, v = PInt z /\ bound <= z.

(** The keys of [d] are exactly [keys], each bound once. *)
Definition has_keys (d : pydict) (keys : list string) : Prop :=
  NoDup (map fst d) /\ forall k, In k (map fst d) <-> In k keys.

(** [{name: non-empty string, quantity: optional free-text string}] *)
Definition ingredient (v : pyval) : Prop :=
  exists e, v = PDict e
    /\ has_keys e ["name"; "quantity"]
    /\ nonempty_text (Py.get e "name")
    /\ optional text (Py.get e "quantity").

(** [{number: integer >= 1, instruction: non-empty string}] *)
Definition step (v : pyval) : Prop :=
  exists e, v = PDict e
    /\ has_keys e ["number"; "instruction"]
    /\ at_least 1 (Py.get e "number")
    /\ nonempty_text (Py.get e "instruction").

Definition fields : list string :=
  ["title"; "cuisine"; "servings"; "total_time_minutes";
   "ingredients"; "steps"; "nutrition"; "tips"].

(** A dictionary in the shape of [Recipe]: every field is there, an
    absent optional one as [None]. *)
Definition recipe (d : pydict) : Prop :=
  has_keys d fields
  /\ nonempty_text (Py.get d "title")
  /\ optional text (Py.get d "cuisine")
  /\ at_least 1 (Py.get d "servings")
  /\ optional (at_least 0) (Py.get d "total_time_minutes")
  /\ (exists l, Py.get d "ingredients" = PList l /\ l <> [] /\ Forall ingredient l)
  /\ (exists l, Py.get d "steps" = PList l /\ l <> [] /\ Forall step l)
  /\ optional (fun v => exists n, v = PDict n) (Py.get d "nutrition")
  /\ optional (fun v => exists l, v = PList l /\ Forall text l) (Py.get d "tips").

(** The cuisine adds nothing to the title: it is [None] or blank. *)
Definition plain_cuisine (d : pydict) : Prop :=
  Py.get d "cuisine" = PNone
  \/ exists c, Py.get d "cuisine" = PStr c /\ Str.strip c = "".

Definition nonzero_time (d : pydict) : Prop :=
  Py.get d "total_time_minutes" <> PInt 0.

Definition nonempty_quantities (d : pydict) : Prop :=
  forall l, Py.get d "ingredients" = PList l ->
    Forall (fun item => forall e, item = PDict e -> Py.get e "quantity" <> PStr "") l.

Definition canonical_dal (cuisine : pyval) (title : string) : pydict :=
  [("title", PStr title);
   ("cuisine", cuisine);
   ("servings", PInt 2);
   ("total_time_minutes", PInt 30);
   ("ingredients",
    PList [PDict [("name", PStr "lentils"); ("quantity", PStr "1 cup")]]);
   ("steps", PList [PDict [("number", PInt 1); ("instruction", PStr "boil")]]);
   ("nutrition", PNone);
   ("tips", PNone)].

End Canonical.

(** ** Model invoker: [_call_with_retries] *)

Module Invoker.

(** An exception object: its class, [str(e)], and whether it is an
    instance of [Exception]; [KeyboardInterrupt], [SystemExit] and the other
    classes that derive from [BaseException] alone are not. *)
Record exception : Type := {
  exn_class : string;
  exn_message : string;
  ordinary : bool
}.

(** [Exception(message)] *)
Definition Exception (message : string) : exception :=
  {| exn_class := "Exception"; exn_message := message; ordinary := true |}.

Definition value_error (message : string) : exception :=
  {| exn_class := "ValueError"; exn_message := message; ordinary := true |}.

Definition overflow_error (message : string) : exception :=
  {| exn_class := "OverflowError"; exn_message := message; ordinary := true |}.

Inductive outcome (V : Type) : Type :=
| Returns (v : V)
| Raises (e : exception).

Arguments Returns {V} v.
Arguments Raises {V} e.

(** What the invoker does to the outside, in order. *)
Inductive event (V : Type) : Type :=
| Called (o : outcome V)
| Slept (seconds : float).

Arguments Called {V} o.
Arguments Slept {V} seconds.

(** The test on [msg = str(e).lower()] that makes a failure transient. *)
Definition transient_message (msg : string) : bool :=
  Str.contains "429" msg
  || Str.contains "resource exhausted" msg
  || Str.contains "quota" msg
  || Str.contains "deadline exceeded" msg
  || Str.contains "timeout" msg.

Definition transient (e : exception) : bool :=
  transient_message (Str.lower (exn_message e)).

(** What [time.sleep(delay)] raises instead of sleeping: [ValueError] for a
    NaN and for a negative delay, [OverflowError] for a delay of more than
    2^63 nanoseconds in either direction.  (The limit a platform sets on a
    delay within that range, 292 years, is left out.) *)
Definition sleep_error (delay : float) : option exception :=
  if PrimFloat.is_nan delay
  then Some (value_error "Invalid value NaN (not a number)")
  else if (0x1p63 <? abs (delay * 1e9))%float
  then Some (overflow_error "timestamp too large to convert to C _PyTime_t")
  else if (delay <? 0)%float
  then Some (value_error "sleep length must be non-negative")
  else None.

Fixpoint range_from (lo : Z) (n : nat) : list Z :=
  match n with
  | O => []
  | S n' => lo :: range_from (lo + 1) n'
  end.

(** [range(lo, hi)] *)
Definition range (lo hi : Z) : list Z := range_from lo (Z.to_nat (hi - lo)).

Section Retries.

(** The state of the outside world, the call with its arguments bound, and
    what the passing of time does to the world. *)
Variables S V : Type.
Variable call_fn : S -> outcome V * S.
Variable pass : float -> S -> S.

Record world : Type := {
  outside : S;
  events : list (event V)
}.

(** The call of [call_fn] with its arguments *)
Definition call (w : world) : outcome V * world :=
  let (o, s) := call_fn (outside w) in
  (o, {| outside := s; events := (events w ++ [Called o])%list |}).

(** [time.sleep(delay)]: the exception it raises, if it does *)
Definition sleep (delay : float) (w : world) : option exception * world :=
  match sleep_error delay with
  | Some e => (Some e, w)
  | None =>
      (None, {| outside := pass delay (outside w);
                events := (events w ++ [Slept delay])%list |})
  end.

(** The [for attempt in ...] loop, followed by [raise last_exc].  The
    clause [except Exception] lets an exception of another kind through, and
    so does the handler with what [time.sleep] raises. *)
Fixpoint attempts_loop (attempts : list Z) (max_attempts : Z) (delay : float)
    (last_exc : exception) (w : world) : outcome V * world :=
  match attempts with
  | [] => (Raises last_exc, w)
  | attempt :: rest =>
      let (o, w1) := call w in
      match o with
      | Returns v => (Returns v, w1)
      | Raises e =>
          if ordinary e then
            if transient e then
              if attempt =? max_attempts then (Raises e, w1)
              else
                match sleep delay w1 with
                | (Some e', w2) => (Raises e', w2)
                | (None, w2) => attempts_loop rest max_attempts (delay * 2)%float e w2
                end
            else (Raises e, w1)
          else (Raises e, w1)
      end
  end.

(** [_call_with_retries] for the call [call_fn] with its arguments *)
Definition _call_with_retries (max_attempts : Z) (initial_delay : float)
    (w : world) : outcome V * world :=
  attempts_loop (range 1 (max_attempts + 1)) max_attempts initial_delay
    (Exception "Call failed after retries") w.

End Retries.

Arguments events {S V} w.
Arguments outside {S V} w.


(** The events of failed attempts, each followed by its sleep; the delay
    doubles from one sleep to the next. *)
Fixpoint retried {V : Type} (fails : list exception) (delay : float) : list (event V) :=
  match fails with
  | [] => []
  | e :: fails' => Called (Raises e) :: Slept delay :: retried fails' (delay * 2)%float
  end.

(** [delay, 2 * delay, 4 * delay, ...]: [n] delays *)
Fixpoint backoff (delay : float) (n : nat) : list float :=
  match n with
  | O => []
  | S n' => delay :: backoff (delay * 2)%float n'
  end.

(** [delay] doubled [n] times *)
Fixpoint doubled (delay : float) (n : nat) : float :=
  match n with
  | O => delay
  | S n' => doubled (delay * 2)%float n'
  end.

Definition sleeps {V : Type} (evs : list (event V)) : list float :=
  flat_map (fun ev => match ev with Slept d => [d] | Called _ => [] end) evs.

Definition attempts {V : Type} (evs : list (event V)) : nat :=
  length (filter (fun ev => match ev with Called _ => true | Slept _ => false end) evs).





End Invoker.

(** ** Prompt builder *)

Module PromptBuilder.

(** [DietaryPreference] of [schemas.py] *)
Record DietaryPreference : Type := {
  vegetarian : option bool;
  vegan : option bool;
  gluten_free : option bool;
  dairy_free : option bool;
  nut_free : option bool;
  low_carb : option bool;
  high_protein : option bool
}.

(** [RecipeFromTextRequest] of [schemas.py] *)
Record RecipeFromTextRequest : Type := {
  text_ingredients : list string;
  text_servings : option Z;
  text_dietary : option DietaryPreference;
  text_cuisine_hint : option string;
  text_cooking_time_limit_minutes : option Z;
  text_language : option string;
  text_variation : option bool
}.

(** [ImageRecipePreferences] of [schemas.py] *)
Record ImageRecipePreferences : Type := {
  image_servings : option Z;
  image_dietary : option DietaryPreference;
  image_cuisine_hint : option string;
  image_cooking_time_limit_minutes : option Z;
  image_language : option string;
  image_variation : option bool
}.

(** [RecipeFromPromptRequest] of [schemas.py] *)
Record RecipeFromPromptRequest : Type := {
  prompt_text : string;
  prompt_servings : option Z;
  prompt_language : option string;
  prompt_variation : option bool
}.

Definition script_instructions : list (string * string) :=
  [("gujarati", "Gujarati script (ગુજરાતી લિપિ) - use actual Gujarati Unicode characters, NOT transliteration");
   ("hindi", "Hindi script (देवनागरी) - use actual Devanagari Unicode characters, NOT transliteration");
   ("marathi", "Marathi script (देवनागरी) - use actual Devanagari Unicode characters, NOT transliteration");
   ("bengali", "Bengali script (বাংলা) - use actual Bengali Unicode characters, NOT transliteration");
   ("tamil", "Tamil script (தமிழ்) - use actual Tamil Unicode characters, NOT transliteration");
   ("telugu", "Telugu script (తెలుగు) - use actual Telugu Unicode characters, NOT transliteration");
   ("kannada", "Kannada script (ಕನ್ನಡ) - use actual Kannada Unicode characters, NOT transliteration");
   ("malayalam", "Malayalam script (മലയാളം) - use actual Malayalam Unicode characters, NOT transliteration");
   ("punjabi", "Punjabi script (ਪੰਜਾਬੀ) - use actual Gurmukhi Unicode characters, NOT transliteration")].

Fixpoint table_get (k : string) (table : list (string * string)) : option string :=
  match table with
  | [] => None
  | (k', v) :: table' => if String.eqb k k' then Some v else table_get k table'
  end.

(** [(language or "english").strip().lower()] *)
Definition target_language (language : option string) : string :=
  Str.lower (Str.strip
    (match language with
     | Some l => if Str.is_empty l then "english" else l
     | None => "english"
     end)).

Definition _language_instruction (language : option string) : string :=
  let target := target_language language in
  if Str.is_empty target then "english"
  else
    match table_get target script_instructions with
    | Some instruction => instruction
    | None => target
    end.

(** [if value:] for an optional string *)
Definition given_text (value : option string) : bool :=
  match value with
  | Some s => negb (Str.is_empty s)
  | None => false
  end.

(** [if value:] for an optional integer *)
Definition given_number (value : option Z) : bool :=
  match value with
  | Some z => negb (z =? 0)
  | None => false
  end.

Definition text_of (value : option string) : string :=
  match value with Some s => s | None => "None" end.

Definition number_of (value : option Z) : string :=
  match value with Some z => Str.of_Z z | None => "None" end.

(** [dietary.dict(exclude_none=True).items()] *)
Definition dietary_items (d : DietaryPreference) : list (string * bool) :=
  flat_map (fun kv : string * option bool =>
              match snd kv with Some v => [(fst kv, v)] | None => [] end)
    [("vegetarian", vegetarian d);
     ("vegan", vegan d);
     ("gluten_free", gluten_free d);
     ("dairy_free", dairy_free d);
     ("nut_free", nut_free d);
     ("low_carb", low_carb d);
     ("high_protein", high_protein d)].

(** The loop that collects [prefs] *)
Definition dietary_prefs (d : DietaryPreference) : list string :=
  flat_map (fun kv : string * bool => if snd kv then [Str.replace_char "_"%char " " (fst kv)] else [])
    (dietary_items d).

(** The part appended under [if payload.dietary:] *)
Definition dietary_part (dietary : option DietaryPreference) : list string :=
  match dietary with
  | Some d =>
      match dietary_prefs d with
      | [] => []
      | prefs => ["Dietary: " ++ Str.join ", " prefs ++ "." ++ Str.nl]
      end
  | None => []
  end.

(** [random.choice(variations)], for the index [drawn] by the random source *)
Definition choice (variations : list string) (drawn : nat) : string :=
  nth (Nat.modulo drawn (List.length variations)) variations "".

Definition variations : list string :=
  ["IMPORTANT: Generate a COMPLETELY DIFFERENT recipe variation. Use different cooking methods, spices, or preparation style. Make it unique from any previous recipe.";
   "IMPORTANT: Create a DISTINCT recipe variation. Try different flavor profiles, cooking techniques, or ingredient combinations. Ensure it's different from previous suggestions.";
   "IMPORTANT: Generate a UNIQUE recipe variation. Experiment with alternative spices, different cooking times, or varied preparation methods. Make it stand out as different.";
   "IMPORTANT: Provide a FRESH recipe variation. Use different spice combinations, alternative cooking methods, or unique presentation. Ensure variety and uniqueness."].

Definition prompt_variations : list string :=
  ["IMPORTANT: Generate a COMPLETELY DIFFERENT recipe variation. Use different cooking methods, spices, or preparation style.";
   "IMPORTANT: Create a DISTINCT recipe variation. Try different flavor profiles, cooking techniques, or ingredient combinations.";
   "IMPORTANT: Generate a UNIQUE recipe variation. Experiment with alternative spices, different cooking times, or varied preparation methods."].

(** The part appended under [if getattr(payload, 'variation', False):] *)
Definition variation_part (variation : option bool) (pool : list string) (drawn : nat)
  : list string :=
  match variation with
  | Some true => [choice pool drawn ++ Str.nl]
  | _ => []
  end.

Definition schema_part : string :=
  "Return JSON strictly in this schema: {" ++ Str.nl
  ++ "  'title': str, 'cuisine': str|null, 'servings': int, 'total_time_minutes': int|null," ++ Str.nl
  ++ "  'ingredients': [{ 'name': str, 'quantity': str|null }]," ++ Str.nl
  ++ "  'steps': [{ 'number': int, 'instruction': str }]," ++ Str.nl
  ++ "  'nutrition': { 'calories': int|null, 'protein_g': float|null, 'carbs_g': float|null, 'fat_g': float|null, 'fiber_g': float|null, 'sodium_mg': float|null }|null," ++ Str.nl
  ++ "  'tips': [str]|null" ++ Str.nl
  ++ "}" ++ Str.nl.

Definition when (b : bool) (part : string) : list string := if b then [part] else [].

(** The parts of [_build_text_prompt], in the order they are appended *)
Definition text_parts (payload : RecipeFromTextRequest) (drawn : nat) : list string :=
  List.concat
    [["You are ChefGPT, a culinary assistant for Indian audiences." ++ Str.nl;
      "Generate ONE practical recipe using ONLY the provided ingredients if possible." ++ Str.nl;
      "Respect dietary preferences and aim for balanced nutrition." ++ Str.nl;
      "Ingredients available: " ++ Str.join ", " (text_ingredients payload) ++ "." ++ Str.nl];
     when (given_text (text_cuisine_hint payload))
          ("Cuisine hint: " ++ text_of (text_cuisine_hint payload) ++ "." ++ Str.nl);
     when (given_number (text_servings payload))
          ("Target servings: " ++ number_of (text_servings payload) ++ "." ++ Str.nl);
     when (given_number (text_cooking_time_limit_minutes payload))
          ("Time limit: " ++ number_of (text_cooking_time_limit_minutes payload)
             ++ " minutes." ++ Str.nl);
     dietary_part (text_dietary payload);
     ["CRITICAL: Respond entirely in " ++ _language_instruction (text_language payload)
           ++ ". All text (title, ingredients, steps, tips) must be in the native script, NOT transliteration. Use proper Unicode characters for the language. Keep measurements practical." ++ Str.nl];
     variation_part (text_variation payload) variations drawn;
     [schema_part;
         "Only output valid JSON with double quotes, no markdown fences."]].

Definition _build_text_prompt (payload : RecipeFromTextRequest) (drawn : nat) : string :=
  Str.concat (text_parts payload drawn).

(** The parts of [_build_image_prompt] *)
Definition image_parts (preferences : ImageRecipePreferences) (drawn : nat) : list string :=
  List.concat
    [["You are ChefGPT. Identify ingredients visible in the image and propose ONE recipe with a specific descriptive title based on the dish you see." ++ Str.nl];
     when (given_text (image_cuisine_hint preferences))
          ("Cuisine hint: " ++ text_of (image_cuisine_hint preferences) ++ "." ++ Str.nl);
     when (given_number (image_servings preferences))
          ("Target servings: " ++ number_of (image_servings preferences) ++ "." ++ Str.nl);
     when (given_number (image_cooking_time_limit_minutes preferences))
          ("Time limit: " ++ number_of (image_cooking_time_limit_minutes preferences)
             ++ " minutes." ++ Str.nl);
     dietary_part (image_dietary preferences);
     ["CRITICAL: Respond entirely in " ++ _language_instruction (image_language preferences)
           ++ ". All text (title, ingredients, steps, tips) must be in the native script, NOT transliteration. Use proper Unicode characters for the language. Keep instructions concise." ++ Str.nl];
     variation_part (image_variation preferences) variations drawn;
     ["IMPORTANT: Generate a proper recipe title that describes the actual dish (e.g., 'Chicken Curry', 'Vegetable Biryani', 'Paneer Tikka'). Return strictly JSON with fields: title, ingredients, steps, cuisine, servings, total_time_minutes. Only JSON output."]].

Definition _build_image_prompt (preferences : ImageRecipePreferences) (drawn : nat) : string :=
  Str.concat (image_parts preferences drawn).

(** The parts of [_build_prompt_recipe_prompt] *)
Definition prompt_parts (payload : RecipeFromPromptRequest) (drawn : nat) : list string :=
  List.concat
    [["You are ChefGPT, a culinary assistant for Indian audiences." ++ Str.nl;
      "Generate ONE complete recipe based on the user's request." ++ Str.nl;
      "Include all ingredients, detailed steps, nutrition info, and helpful tips." ++ Str.nl;
      "User request: " ++ prompt_text payload ++ Str.nl];
     when (given_number (prompt_servings payload))
          ("Target servings: " ++ number_of (prompt_servings payload) ++ "." ++ Str.nl);
     ["CRITICAL: Respond entirely in " ++ _language_instruction (prompt_language payload)
           ++ ". All text (title, ingredients, steps, tips) must be in the native script, NOT transliteration. Use proper Unicode characters for the language." ++ Str.nl];
     variation_part (prompt_variation payload) prompt_variations drawn;
     [schema_part;
         "Only output valid JSON with double quotes, no markdown fences."]].

Definition _build_prompt_recipe_prompt (payload : RecipeFromPromptRequest) (drawn : nat)
  : string :=
  Str.concat (prompt_parts payload drawn).

Definition hindi_request : RecipeFromTextRequest :=
  {| text_ingredients := ["aloo"; "matar"];
     text_servings := Some 2;
     text_dietary := None;
     text_cuisine_hint := None;
     text_cooking_time_limit_minutes := None;
     text_language := Some "  Hindi ";
     text_variation := Some false |}.

End PromptBuilder.

(** ** [json.loads] *)

Module Json.

(** The outcome of scanning a value at the head of a text: the value and
    the text after it, a syntax error, or a scan cut short for lack of
    fuel. *)
Inductive scanned (A : Type) : Type :=
| Scanned (a : A) (rest : string)
| Invalid
| Exhausted.

Arguments Scanned {A} a rest.
Arguments Invalid {A}.
Arguments Exhausted {A}.

(** JSON white space: space, TAB, LF, CR *)
Definition is_ws (c : ascii) : bool :=
  let n := Str.code c in (n =? 32) || (n =? 9) || (n =? 10) || (n =? 13).

Fixpoint skip_ws (s : string) : string :=
  match s with
  | String c s' => if is_ws c then skip_ws s' else s
  | EmptyString => s
  end.

(** What a string literal holds: bytes taken as they are, and the 16-bit
    units of [\uXXXX] escapes. *)
Inductive item : Type :=
| Byte (c : ascii)
| Unit (u : Z).

Definition hex_value (c : ascii) : option Z :=
  let n := Str.code c in
  if Str.between 48 57 c then Some (n - 48)
  else if Str.between 97 102 c then Some (n - 87)
  else if Str.between 65 70 c then Some (n - 55)
  else None.

Definition hex4 (a b c d : ascii) : option Z :=
  match hex_value a, hex_value b, hex_value c, hex_value d with
  | Some x, Some y, Some z, Some w => Some (((x * 16 + y) * 16 + z) * 16 + w)
  | _, _, _, _ => None
  end.

Definition simple_escape (c : ascii) : option ascii :=
  let n := Str.code c in
  if n =? 34 then Some c
  else if n =? 92 then Some c
  else if n =? 47 then Some c
  else if n =? 98 then Some (Str.chr 8)
  else if n =? 102 then Some (Str.chr 12)
  else if n =? 110 then Some (Str.chr 10)
  else if n =? 114 then Some (Str.chr 13)
  else if n =? 116 then Some (Str.chr 9)
  else None.

Definition add_item (i : item) (r : option (list item * string))
  : option (list item * string) :=
  match r with
  | Some (items, rest) => Some (i :: items, rest)
  | None => None
  end.

(** The text of a string literal after its opening quote, up to the closing
    one. *)
Fixpoint scan_string (s : string) : option (list item * string) :=
  match s with
  | EmptyString => None
  | String c r =>
      if Str.code c =? 34 then Some ([], r)
      else if Str.code c =? 92 then
        match r with
        | EmptyString => None
        | String e r1 =>
            match simple_escape e with
            | Some b => add_item (Byte b) (scan_string r1)
            | None =>
                if Str.code e =? 117 then
                  match r1 with
                  | String h1 (String h2 (String h3 (String h4 r2))) =>
                      match hex4 h1 h2 h3 h4 with
                      | Some u => add_item (Unit u) (scan_string r2)
                      | None => None
                      end
                  | _ => None
                  end
                else None
            end
        end
      else if Str.code c <? 32 then None
      else add_item (Byte c) (scan_string r)
  end.

(** The UTF-8 bytes of a code point *)
Definition utf8 (cp : Z) : string :=
  let b (z : Z) := Str.chr z in
  if cp <? 128 then String (b cp) EmptyString
  else if cp <? 2048 then
    String (b (192 + cp / 64)) (String (b (128 + cp mod 64)) EmptyString)
  else if cp <? 65536 then
    String (b (224 + cp / 4096))
      (String (b (128 + (cp / 64) mod 64)) (String (b (128 + cp mod 64)) EmptyString))
  else
    String (b (240 + cp / 262144))
      (String (b (128 + (cp / 4096) mod 64))
         (String (b (128 + (cp / 64) mod 64)) (String (b (128 + cp mod 64)) EmptyString))).

(** The bytes of a string literal; a high surrogate followed by a low one
    is one code point. *)
Fixpoint encode (items : list item) : string :=
  match items with
  | [] => EmptyString
  | Byte c :: items' => String c (encode items')
  | Unit u :: items' =>
      match items' with
      | Unit u2 :: items'' =>
          if (55296 <=? u) && (u <=? 56319) && (56320 <=? u2) && (u2 <=? 57343)
          then utf8 (65536 + (u - 55296) * 1024 + (u2 - 56320)) ++ encode items''
          else utf8 u ++ encode items'
      | _ => utf8 u ++ encode items'
      end
  end.

(** A run of digits: its value, its length and the text after it *)
Fixpoint digits (acc : Z) (n : Z) (s : string) : Z * Z * string :=
  match s with
  | String c s' =>
      if Str.is_digit c then digits (10 * acc + (Str.code c - 48)) (n + 1) s'
      else (acc, n, s)
  | EmptyString => (acc, n, s)
  end.

(** The integer part: [0], or a digit from 1 to 9 and more digits *)
Definition integer_part (s : string) : option (Z * string) :=
  match s with
  | String c s' =>
      if Str.code c =? 48 then Some (0, s')
      else if Str.is_digit c then
        let '(v, _, rest) := digits 0 0 s in Some (v, rest)
      else None
  | EmptyString => None
  end.

(** The text after the character of code [n], when [s] begins with it *)
Definition head_is (n : Z) (s : string) : option string :=
  match s with
  | String c r => if Str.code c =? n then Some r else None
  | EmptyString => None
  end.

(** The fraction, if there is one: its digits' value and their number *)
Definition fraction_part (s : string) : option (Z * Z * string) :=
  match head_is 46 s with
  | Some s' =>
      let '(v, n, rest) := digits 0 0 s' in
      if n =? 0 then None else Some (v, n, rest)
  | None => None
  end.

(** The exponent, if there is one *)
Definition exponent_part (s : string) : option (Z * string) :=
  match s with
  | String c s' =>
      if (Str.code c =? 101) || (Str.code c =? 69) then
        let '(neg, s'') :=
          match head_is 45 s', head_is 43 s' with
          | Some r, _ => (true, r)
          | None, Some r => (false, r)
          | None, None => (false, s')
          end in
        let '(v, n, rest) := digits 0 0 s'' in
        if n =? 0 then None else Some (if neg then - v else v, rest)
      else None
  | EmptyString => None
  end.

(** A number literal: an [int] without fraction and exponent, else a
    [float]. *)
Definition scan_number (s : string) : scanned pyval :=
  let '(neg, s1) :=
    match head_is 45 s with
    | Some r => (true, r)
    | None => (false, s)
    end in
  match integer_part s1 with
  | None => Invalid
  | Some (i, s2) =>
      let '(f, fn, s3, has_f) :=
        match fraction_part s2 with
        | Some (v, n, rest) => (v, n, rest, true)
        | None => (0, 0, s2, false)
        end in
      let '(e, s4, has_e) :=
        match exponent_part s3 with
        | Some (v, rest) => (v, rest, true)
        | None => (0, s3, false)
        end in
      if has_f || has_e
      then Scanned (PFloat (PyFloat.of_decimal neg (i * 10 ^ fn + f) (e - fn))) s4
      else Scanned (PInt (if neg then - i else i)) s4
  end.

(** Binding [k] in a dictionary under construction: a later value replaces
    an earlier one in its place. *)
Fixpoint dict_set (d : pydict) (k : string) (v : pyval) : pydict :=
  match d with
  | [] => [(k, v)]
  | (k', v') :: d' =>
      if String.eqb k k' then (k', v) :: d' else (k', v') :: dict_set d' k v
  end.

Definition literal (word : string) (v : pyval) (s : string) : scanned pyval :=
  if Str.startswith word s then Scanned v (Str.drop (String.length word) s)
  else Invalid.

(** The scanner: a value at the head of [s]; the elements of an array after
    its first bracket; the members of an object from a key on. *)
Fixpoint scan_once (fuel : nat) (s : string) : scanned pyval :=
  match fuel with
  | O => Exhausted
  | S fuel' =>
      match s with
      | EmptyString => Invalid
      | String c r =>
          let n := Str.code c in
          if n =? 34 then
            match scan_string r with
            | Some (items, rest) => Scanned (PStr (encode items)) rest
            | None => Invalid
            end
          else if n =? 123 then
            match head_is 125 (skip_ws r) with
            | Some rest => Scanned (PDict []) rest
            | None => scan_members fuel' (skip_ws r) []
            end
          else if n =? 91 then
            match head_is 93 (skip_ws r) with
            | Some rest => Scanned (PList []) rest
            | None => scan_elements fuel' (skip_ws r) []
            end
          else if n =? 110 then literal "null" PNone s
          else if n =? 116 then literal "true" (PBool true) s
          else if n =? 102 then literal "false" (PBool false) s
          else if n =? 78 then literal "NaN" (PFloat nan) s
          else if n =? 73 then literal "Infinity" (PFloat infinity) s
          else if (n =? 45) && Str.startswith "-Infinity" s
               then literal "-Infinity" (PFloat neg_infinity) s
          else scan_number s
      end
  end

with scan_elements (fuel : nat) (s : string) (acc : list pyval) : scanned pyval :=
  match fuel with
  | O => Exhausted
  | S fuel' =>
      match scan_once fuel' s with
      | Scanned v r1 =>
          match head_is 93 (skip_ws r1), head_is 44 (skip_ws r1) with
          | Some rest, _ => Scanned (PList (List.rev (v :: acc))) rest
          | None, Some r2 => scan_elements fuel' (skip_ws r2) (v :: acc)
          | None, None => Invalid
          end
      | Invalid => Invalid
      | Exhausted => Exhausted
      end
  end

with scan_members (fuel : nat) (s : string) (acc : pydict) : scanned pyval :=
  match fuel with
  | O => Exhausted
  | S fuel' =>
      match head_is 34 s with
      | Some r =>
          match scan_string r with
          | Some (key, r1) =>
              match head_is 58 (skip_ws r1) with
              | Some r2 =>
                  match scan_once fuel' (skip_ws r2) with
                  | Scanned v r3 =>
                      let acc' := dict_set acc (encode key) v in
                      match head_is 125 (skip_ws r3), head_is 44 (skip_ws r3) with
                      | Some rest, _ => Scanned (PDict acc') rest
                      | None, Some r4 => scan_members fuel' (skip_ws r4) acc'
                      | None, None => Invalid
                      end
                  | Invalid => Invalid
                  | Exhausted => Exhausted
                  end
              | None => Invalid
              end
          | None => Invalid
          end
      | None => Invalid
      end
  end.

(** The fuel that [loads] gives the scanner for the text [s] *)
Definition fuel_for (s : string) : nat := 2 * String.length s + 2.

(** [json.loads(s)]; [None] stands for a scan cut short. *)
Definition loads_with (fuel : nat) (s : string) : option (result pyval) :=
  if Str.startswith (utf8 65279) s then Some (Raise JSONDecodeError)
  else
    match scan_once fuel (skip_ws s) with
    | Scanned v rest =>
        match skip_ws rest with
        | EmptyString => Some (Ok v)
        | _ => Some (Raise JSONDecodeError)
        end
    | Invalid => Some (Raise JSONDecodeError)
    | Exhausted => None
    end.

(** [json.loads(s)]; the fuel of [fuel_for] is never used up (see
    [JsonFacts.loads_total]). *)
Definition loads (s : string) : result pyval :=
  match loads_with (fuel_for s) s with
  | Some r => r
  | None => Raise JSONDecodeError
  end.

(** What is left after a value is shorter than the text scanned. *)
Definition shorter (s : string) (r : scanned pyval) : Prop :=
  match r with
  | Scanned _ rest => (String.length rest < String.length s)%nat
  | _ => True
  end.

End Json.

(** ** Output normalizer: [_extract_and_normalize_json] *)

Module Extract.

Definition fence : string := "```".

(** The text before the first fence in [s], for the lazy [[\s\S]*?] followed
    by the closing fence. *)
Fixpoint before_fence (s : string) : option string :=
  if Str.startswith fence s then Some EmptyString
  else
    match s with
    | EmptyString => None
    | String c s' => option_map (String c) (before_fence s')
    end.

Definition either (a b : Z) (c : ascii) : bool := (Str.code c =? a) || (Str.code c =? b).

(** The text after [json] in any case, as [re.IGNORECASE] matches it: the
    long s (U+017F) counts as an [s]. *)
Definition after_on (s : string) : option string :=
  match s with
  | String o r =>
      if either 111 79 o then
        match r with
        | String n rest => if either 110 78 n then Some rest else None
        | EmptyString => None
        end
      else None
  | EmptyString => None
  end.

Definition after_tag (s : string) : option string :=
  match s with
  | String j r =>
      if either 106 74 j then
        match r with
        | String s1 r1 =>
            if either 115 83 s1 then after_on r1
            else if Str.code s1 =? 197 then
              match r1 with
              | String s2 r2 => if Str.code s2 =? 191 then after_on r2 else None
              | EmptyString => None
              end
            else None
        | EmptyString => None
        end
      else None
  | EmptyString => None
  end.

(** The newline and the body up to the closing fence: group 1. *)
Definition fence_body (s : string) : option string :=
  match s with
  | String c body => if Str.code c =? 10 then before_fence body else None
  | EmptyString => None
  end.

(** A match of the fence pattern at the head of [s]: the optional tag is
    tried first, then left out. *)
Definition fence_at (s : string) : option string :=
  if Str.startswith fence s then
    let r := Str.drop 3 s in
    match
      match after_tag r with
      | Some r' => fence_body r'
      | None => None
      end
    with
    | Some body => Some body
    | None => fence_body r
    end
  else None.

(** [re.search] of the fence pattern, ignoring case: group 1 of the
    leftmost match. *)
Fixpoint fence_search (s : string) : option string :=
  match fence_at s with
  | Some body => Some body
  | None =>
      match s with
      | EmptyString => None
      | String _ s' => fence_search s'
      end
  end.

(** The text from the first opening brace on *)
Fixpoint from_brace (s : string) : option string :=
  match s with
  | EmptyString => None
  | String c s' => if Str.code c =? 123 then Some s else from_brace s'
  end.

(** [re.search] of a brace, anything, a brace, white space and the end:
    group 0 of the leftmost match. *)
Definition brace_search (s : string) : option string :=
  match from_brace s with
  | Some (String c rest as found) =>
      match Str.lstrip_gen true (Str.rev rest) with
      | String b _ => if Str.code b =? 125 then Some found else None
      | EmptyString => None
      end
  | _ => None
  end.

Definition closing (c : ascii) : bool := (Str.code c =? 93) || (Str.code c =? 125).

(** White space and a closing bracket are at the head of [s]. *)
Definition closes (s : string) : bool :=
  match Str.lstrip s with
  | String b _ => closing b
  | EmptyString => false
  end.

(** The bytes of white space at the head of [s] *)
Definition spaces (s : string) : nat := String.length s - String.length (Str.lstrip s).

(** [re.sub] of a comma, white space and a closing bracket by the bracket;
    [skip] bytes of matched white space are still to be left out. *)
Fixpoint drop_commas (skip : nat) (s : string) : string :=
  match s with
  | EmptyString => EmptyString
  | String c s' =>
      match skip with
      | S k => drop_commas k s'
      | O =>
          if (Str.code c =? 44) && closes s' then drop_commas (spaces s') s'
          else String c (drop_commas O s')
      end
  end.

Definition _extract_and_normalize_json (text : string) : result pyval :=
  let candidate := Str.strip text in
  let candidate :=
    match fence_search candidate with
    | Some body => Str.strip body
    | None => candidate
    end in
  let candidate :=
    match brace_search candidate with
    | Some found => found
    | None => candidate
    end in
  let candidate :=
    if Str.contains Str.squote candidate && negb (Str.contains Str.dquote candidate)
    then Str.replace_char "'" Str.dquote candidate
    else candidate in
  let candidate := drop_commas O candidate in
  Json.loads candidate.

(** The normalization of a model text, as the three generators run it:
    extraction, then coercion. *)
Definition normalize (text : string) : result pydict :=
  data <- _extract_and_normalize_json text ;;
  Normalizer._coerce_recipe_dict data.

(** The text [body] inside a fenced block, with or without a tag *)
Definition fenced (tag body : string) : string :=
  fence ++ tag ++ Str.nl ++ body ++ Str.nl ++ fence.

(** The same with the closing fence right after [body] *)
Definition fenced_tight (tag body : string) : string :=
  fence ++ tag ++ Str.nl ++ body ++ fence.

(** The last character of [s] is a backtick. *)
Fixpoint ends_with_backtick (s : string) : bool :=
  match s with
  | EmptyString => false
  | String c s' =>
      match s' with
      | EmptyString => Ascii.eqb c "`"
      | String _ _ => ends_with_backtick s'
      end
  end.

Definition quoted (s : string) : string := Str.dquote ++ s ++ Str.dquote.

(** A plain object *)
Definition dal_text : string :=
  "{" ++ quoted "title" ++ ":" ++ quoted "Dal" ++ "}".

(** An object whose title holds a fence *)
Definition fence_in_title : string :=
  "{" ++ quoted "title" ++ ":" ++ quoted "a```b" ++ "}".

(** An object whose only step has a number spelled out *)
Definition spelled_number : string :=
  "{" ++ quoted "title" ++ ":" ++ quoted "Dal" ++ ","
      ++ quoted "steps" ++ ":[{" ++ quoted "number" ++ ":" ++ quoted "one" ++ ","
      ++ quoted "instruction" ++ ":" ++ quoted "boil" ++ "}]}".

End Extract.

(** ** The shape of a coerced recipe *)

Module Coerced.

(** An entry of the coerced ingredients: a name that is present, and a
    quantity. *)
Definition ingredient_shape (e : pyval) : Prop :=
  exists name qty, e = PDict [("name", name); ("quantity", qty)] /\ Py.truthy name = true.

(** An entry of the coerced steps: an integer number and an instruction that
    is present. *)
Definition step_shape (e : pyval) : Prop :=
  exists n instruction,
    e = PDict [("number", PInt n); ("instruction", instruction)]
    /\ Py.truthy instruction = true.

(** [enumerate(items, start=idx)] *)
Fixpoint enumerate {A : Type} (idx : Z) (items : list A) : list (Z * A) :=
  match items with
  | [] => []
  | x :: items' => (idx, x) :: enumerate (idx + 1) items'
  end.

(** [not isinstance(v, dict)] *)
Definition plain (v : pyval) : bool :=
  match v with
  | PDict _ => false
  | _ => true
  end.

(** A step given as a dictionary whose [number] is present and is refused
    by [int] with the exception [e] *)
Definition bad_number (e : exn_class) (s : pyval) : Prop :=
  exists d, s = PDict d
            /\ Py.truthy (Py.get d "number") = true
            /\ Py.int (Py.get d "number") = Raise e.

Definition boil_and_serve : pydict :=
  [("title", PStr "Dal"); ("steps", PStr " Boil the dal.  Serve hot. ")].

Definition negative_time : pydict :=
  [("title", PStr "Dal"); ("total_time_minutes", PInt (-5))].

Definition negative_time_out : pydict :=
  [("title", PStr "Dal");
   ("cuisine", PNone);
   ("servings", PInt 2);
   ("total_time_minutes", PInt (-5));
   ("ingredients", PList [PDict [("name", PStr "salt"); ("quantity", PStr "to taste")]]);
   ("steps", PList [PDict [("number", PInt 1);
                           ("instruction", PStr "Mix ingredients and cook until done.")]]);
   ("nutrition", PNone);
   ("tips", PNone)].

End Coerced.

(** ** White space at the ends of a text *)

Module Whitespace.

(** No white space stands at the head of [s], read forward or backward. *)
Definition clear_head (back : bool) (s : string) : Prop :=
  match s with
  | EmptyString => True
  | String a s1 =>
      Str.space1 a = false
      /\ match s1 with
         | EmptyString => True
         | String b s2 =>
             (if back then Str.space2 b a else Str.space2 a b) = false
             /\ match s2 with
                | EmptyString => True
                | String c _ => (if back then Str.space3 c b a else Str.space3 a b c) = false
                end
         end
  end.

End Whitespace.

(** ** Request validators of [schemas.py] *)

Module Schemas.

(** The validator [normalize_ingredients] of [RecipeFromTextRequest]:
    [[item.strip() for item in v if item and item.strip()]] *)
Definition normalize_ingredients (v : list string) : list string :=
  map Str.strip
    (filter (fun item => negb (Str.is_empty item) && negb (Str.is_empty (Str.strip item)))
       v).

(** The field [ingredients: conlist(str, min_items=1)]: the length is
    checked on the list as it comes in, then the validator runs. *)
Definition ingredients_field (v : list string) : result (list string) :=
  match v with
  | [] => Raise ValidationError
  | _ => Ok (normalize_ingredients v)
  end.

(** The flags of a [DietaryPreference], in the order of its fields *)
Definition dietary_flags (d : PromptBuilder.DietaryPreference) : list (string * option bool) :=
  [("vegetarian", PromptBuilder.vegetarian d);
   ("vegan", PromptBuilder.vegan d);
   ("gluten_free", PromptBuilder.gluten_free d);
   ("dairy_free", PromptBuilder.dairy_free d);
   ("nut_free", PromptBuilder.nut_free d);
   ("low_carb", PromptBuilder.low_carb d);
   ("high_protein", PromptBuilder.high_protein d)].

(** The names of the flags that are set to [True] *)
Definition chosen (d : PromptBuilder.DietaryPreference) : list string :=
  map fst
    (filter (fun kv : string * option bool =>
               match snd kv with Some true => true | _ => false end)
       (dietary_flags d)).

End Schemas.

(** ** The repairs of the extraction *)

Module Repair.

(** A comma in [s] is followed by white space, if any, and a closing
    bracket: the pattern of the last repair matches somewhere in [s]. *)
Fixpoint trailing_comma (s : string) : bool :=
  match s with
  | EmptyString => false
  | String c s' => ((Str.code c =? 44) && Extract.closes s') || trailing_comma s'
  end.

(** Every byte of [s] is one of the one-byte white spaces. *)
Fixpoint blank (s : string) : bool :=
  match s with
  | EmptyString => true
  | String c s' => Str.space1 c && blank s'
  end.

(** [s] holds no comma. *)
Fixpoint comma_free (s : string) : bool :=
  match s with
  | EmptyString => true
  | String c s' => negb (Str.code c =? 44) && comma_free s'
  end.

End Repair.

(** ** The generators and their endpoints *)

Module Generator.

(** The exceptions that leave a generator or reach an endpoint: one of a
    class of [exn_class], a [RuntimeError], or an exception of the
    provider's library that is no instance of [Exception], as it was
    raised. *)
Inductive raised : Type :=
| Class (e : exn_class)
| RuntimeError
| Passed (e : Invoker.exception).

(** [isinstance(e, ValidationError)] *)
Definition is_validation_error (e : raised) : bool :=
  match e with
  | Class ValidationError => true
  | _ => false
  end.

(** [isinstance(e, ValueError)]: [json.JSONDecodeError] and pydantic's
    [ValidationError] are subclasses of [ValueError]. *)
Definition is_value_error (e : raised) : bool :=
  match e with
  | Class ValueError | Class JSONDecodeError | Class ValidationError => true
  | _ => false
  end.

(** What a call returns or raises *)
Inductive answer (A : Type) : Type :=
| Done (a : A)
| Fails (e : raised).

Arguments Done {A} a.
Arguments Fails {A} e.

(** What an endpoint answers: the response, or [HTTPException(status_code)];
    an exception that none of its handlers takes leaves it. *)
Inductive http (A : Type) : Type :=
| Response (a : A)
| HTTPException (status_code : Z)
| Unhandled (e : Invoker.exception).

Arguments Response {A} a.
Arguments HTTPException {A} status_code.
Arguments Unhandled {A} e.

(** [_get_api_key()], for the value [os.getenv] gives *)
Definition _get_api_key (env : option string) : answer string :=
  match env with
  | Some key => if Str.is_empty key then Fails RuntimeError else Done key
  | None => Fails RuntimeError
  end.

(** [0.9 if getattr(payload, 'variation', False) else 0.7], each the
    binary64 number nearest to the literal *)
Definition temperature (variation : option bool) : float :=
  match variation with
  | Some true => 0x1.ccccccccccccdp-1%float
  | _ => 0x1.6666666666666p-1%float
  end.

Section Generate.

(** The other fields of [Recipe], as in [Validator]. *)
Variable Rest : Type.
Variable rest_fields : pydict -> option Rest.

(** The provider's library.  [open_model api_key temperature] stands for
    the import of the library, [genai.configure] and
    [genai.GenerativeModel]; [generate_content model prompt] for the call of
    [model.generate_content] with the prompt and the request options, which
    acts on the state of the outside; [response_text] for the property
    [response.text]; each of them may raise. *)
Variables S Model Reply : Type.
Variable open_model : string -> float -> Invoker.outcome Model.
Variable generate_content : Model -> string -> S -> Invoker.outcome Reply * S.
Variable response_text : Reply -> Invoker.outcome string.
Variable pass : float -> S -> S.

(** The first [try] block of a generator: the text of the model's reply, or
    the exception raised on the way. *)
Definition ask (api_key prompt : string) (variation : option bool) (w : Invoker.world S Reply)
  : Invoker.outcome string * Invoker.world S Reply :=
  match open_model api_key (temperature variation) with
  | Invoker.Raises e => (Invoker.Raises e, w)
  | Invoker.Returns model =>
      let (o, w1) :=
        Invoker._call_with_retries S Reply (generate_content model prompt) pass 4 1%float w in
      match o with
      | Invoker.Returns response => (response_text response, w1)
      | Invoker.Raises e => (Invoker.Raises e, w1)
      end
  end.

(** The second [try] block: extraction, coercion and validation, any
    exception turned into a [ValueError]. *)
Definition parse (text : string) : answer (Validator.Recipe Rest) :=
  match
    (data <- Extract._extract_and_normalize_json text ;;
     data <- Normalizer._coerce_recipe_dict data ;;
     Validator.validate Rest rest_fields data)
  with
  | Ok recipe => Done recipe
  | Raise _ => Fails (Class ValueError)
  end.

(** The body the generators share, after the prompt is built.  The clause
    [except Exception] of the first [try] block turns an instance of
    [Exception] into a [ValueError] and lets any other exception through. *)
Definition generate (api_key prompt : string) (variation : option bool)
    (w : Invoker.world S Reply) : answer (Validator.Recipe Rest) * Invoker.world S Reply :=
  match ask api_key prompt variation w with
  | (Invoker.Raises e, w1) =>
      if Invoker.ordinary e then (Fails (Class ValueError), w1) else (Fails (Passed e), w1)
  | (Invoker.Returns text, w1) => (parse text, w1)
  end.

(** [generate_recipe_from_text(payload)] *)
Definition generate_recipe_from_text (env : option string)
    (payload : PromptBuilder.RecipeFromTextRequest) (drawn : nat) (w : Invoker.world S Reply)
  : answer (Validator.Recipe Rest) * Invoker.world S Reply :=
  match _get_api_key env with
  | Fails e => (Fails e, w)
  | Done api_key =>
      generate api_key (PromptBuilder._build_text_prompt payload drawn)
        (PromptBuilder.text_variation payload) w
  end.

(** [generate_recipe_from_prompt(payload)] *)
Definition generate_recipe_from_prompt (env : option string)
    (payload : PromptBuilder.RecipeFromPromptRequest) (drawn : nat) (w : Invoker.world S Reply)
  : answer (Validator.Recipe Rest) * Invoker.world S Reply :=
  match _get_api_key env with
  | Fails e => (Fails e, w)
  | Done api_key =>
      generate api_key (PromptBuilder._build_prompt_recipe_prompt payload drawn)
        (PromptBuilder.prompt_variation payload) w
  end.

(** The [try] statement of the endpoints [recipe_from_text] and
    [recipe_from_prompt] of [main.py], around the generator's answer *)
Definition respond (a : answer (Validator.Recipe Rest)) : http (Validator.Recipe Rest) :=
  match a with
  | Done recipe => Response recipe
  | Fails (Passed e) => Unhandled e
  | Fails e =>
      if is_validation_error e then HTTPException 422
      else if is_value_error e then HTTPException 400
      else HTTPException 500
  end.

(** The endpoint [recipe_from_text], once the user is authenticated *)
Definition recipe_from_text (env : option string)
    (payload : PromptBuilder.RecipeFromTextRequest) (drawn : nat) (w : Invoker.world S Reply)
  : http (Validator.Recipe Rest) * Invoker.world S Reply :=
  let (a, w1) := generate_recipe_from_text env payload drawn w in (respond a, w1).

(** The endpoint [recipe_from_prompt], once the user is authenticated *)
Definition recipe_from_prompt (env : option string)
    (payload : PromptBuilder.RecipeFromPromptRequest) (drawn : nat) (w : Invoker.world S Reply)
  : http (Validator.Recipe Rest) * Invoker.world S Reply :=
  let (a, w1) := generate_recipe_from_prompt env payload drawn w in (respond a, w1).

End Generate.

(** What a run of a generator does to the outside: at most four calls of
    the model, with sleeps of 1, 2 and 4 seconds between them. *)
Definition bounded {S V : Type} (w w1 : Invoker.world S V) : Prop :=
  exists new k,
    Invoker.events w1 = (Invoker.events w ++ new)%list
    /\ (k <= 3)%nat /\ (Invoker.attempts new <= 4)%nat
    /\ Invoker.sleeps new = firstn k [1; 2; 4]%float.

(** A provider that answers at once with an object whose servings are 0 *)
Definition no_servings_reply : unit -> Invoker.outcome string * unit :=
  fun s => (Invoker.Returns ("{" ++ Extract.quoted "title" ++ ":" ++ Extract.quoted "Dal" ++ "," ++ Extract.quoted "servings" ++ ":0}"), s).

End Generator.

(** ** The store of users, sessions and saved recipes: [database.py], [auth.py] *)

Module Store.

(** A row of the table [users] *)
Record user : Type := {
  user_id : Z;
  email : string;
  password_hash : string;
  name : string;
  user_created_at : string;
  is_active : bool
}.

(** A row of the table [sessions] *)
Record session : Type := {
  session_id : Z;
  session_user_id : Z;
  session_token : string;
  expires_at : string;
  session_created_at : string
}.

(** A row of the table [saved_recipes] *)
Record saved_recipe : Type := {
  recipe_id : Z;
  recipe_user_id : Z;
  recipe_title : string;
  recipe_data : string;
  recipe_created_at : string
}.

(** The database file: the rows of each table in the order of their
    insertion, and for each table the largest id it has given out (the
    table [sqlite_sequence] of [AUTOINCREMENT]). *)
Record database : Type := {
  users : list user;
  users_seq : Z;
  sessions : list session;
  sessions_seq : Z;
  saved_recipes : list saved_recipe;
  saved_recipes_seq : Z
}.

(** The file after [init_db] on a new path *)
Definition empty : database :=
  {| users := []; users_seq := 0;
     sessions := []; sessions_seq := 0;
     saved_recipes := []; saved_recipes_seq := 0 |}.

(** The id [INTEGER PRIMARY KEY AUTOINCREMENT] gives a new row: one more
    than the largest id of the table and than the largest ever given. *)
Definition next_id (seq : Z) (ids : list Z) : Z := fold_right Z.max seq ids + 1.

(** The dictionary [{"id": row[0], "email": row[1], "name": row[2]}] *)
Definition user_dict (u : user) : pydict :=
  [("id", PInt (user_id u)); ("email", PStr (email u)); ("name", PStr (name u))].

(** [dict(row)] for the columns [id, recipe_title, recipe_data,
    created_at] *)
Definition recipe_dict (r : saved_recipe) : pydict :=
  [("id", PInt (recipe_id r));
   ("recipe_title", PStr (recipe_title r));
   ("recipe_data", PStr (recipe_data r));
   ("created_at", PStr (recipe_created_at r))].

(** What a function of [auth.py] returns, or the status of the
    [HTTPException] it raises *)
Inductive http (A : Type) : Type :=
| Returned (a : A)
| HTTPException (status_code : Z).

Arguments Returned {A} a.
Arguments HTTPException {A} status_code.

Section Database.

(** [hashlib.sha256(password.encode()).hexdigest()] *)
Variable sha256 : string -> string.

Definition hash_password (password : string) : string := sha256 password.

(** [create_user]: the [INSERT], or [False] when the email is in the table
    ([UNIQUE]); [now] is [CURRENT_TIMESTAMP]. *)
Definition create_user (now : string) (email' password name' : string) (db : database)
  : bool * database :=
  if existsb (fun u => String.eqb (email u) email') (users db) then (false, db)
  else
    let id := next_id (users_seq db) (map user_id (users db)) in
    (true,
     {| users := users db ++ [{| user_id := id; email := email';
                                 password_hash := hash_password password; name := name';
                                 user_created_at := now; is_active := true |}];
        users_seq := id;
        sessions := sessions db; sessions_seq := sessions_seq db;
        saved_recipes := saved_recipes db; saved_recipes_seq := saved_recipes_seq db |}).

(** The [SELECT] of [verify_user]: the first row with the email and the
    hash of the password that is active *)
Definition matching_user (email' password : string) (db : database) : option user :=
  find (fun u => String.eqb (email u) email'
                 && String.eqb (password_hash u) (hash_password password)
                 && is_active u)
    (users db).

(** [verify_user] *)
Definition verify_user (email' password : string) (db : database) : option pydict :=
  option_map user_dict (matching_user email' password db).

(** [create_session], for the token [secrets.token_urlsafe] gives and the
    time of expiry; [None] stands for the [IntegrityError] of a token that
    is in the table ([UNIQUE]). *)
Definition create_session (token expires now : string) (user_id' : Z) (db : database)
  : option (string * database) :=
  if existsb (fun s => String.eqb (session_token s) token) (sessions db) then None
  else
    let id := next_id (sessions_seq db) (map session_id (sessions db)) in
    Some (token,
          {| users := users db; users_seq := users_seq db;
             sessions := sessions db ++ [{| session_id := id; session_user_id := user_id';
                                            session_token := token; expires_at := expires;
                                            session_created_at := now |}];
             sessions_seq := id;
             saved_recipes := saved_recipes db;
             saved_recipes_seq := saved_recipes_seq db |}).

(** The rows of [users u JOIN sessions s ON u.id = s.user_id] that the
    [WHERE] clause of [get_user_by_session] keeps; [now] is
    [datetime('now')], compared as text. *)
Definition session_users (token now : string) (db : database) : list user :=
  flat_map
    (fun s =>
       if String.eqb (session_token s) token && String.ltb now (expires_at s)
       then filter (fun u => (user_id u =? session_user_id s) && is_active u) (users db)
       else [])
    (sessions db).

(** [get_user_by_session] *)
Definition get_user_by_session (token now : string) (db : database) : option pydict :=
  option_map user_dict (hd_error (session_users token now db)).

(** [delete_session] *)
Definition delete_session (token : string) (db : database) : database :=
  {| users := users db; users_seq := users_seq db;
     sessions := filter (fun s => negb (String.eqb (session_token s) token)) (sessions db);
     sessions_seq := sessions_seq db;
     saved_recipes := saved_recipes db; saved_recipes_seq := saved_recipes_seq db |}.

(** [save_recipe]: the text must parse as JSON, else [ValueError]; the id
    of the new row is returned. *)
Definition save_recipe (now : string) (user_id' : Z) (title data : string) (db : database)
  : result (Z * database) :=
  match Json.loads data with
  | Raise JSONDecodeError => Raise ValueError
  | Raise e => Raise e
  | Ok _ =>
      let id := next_id (saved_recipes_seq db) (map recipe_id (saved_recipes db)) in
      Ok (id,
          {| users := users db; users_seq := users_seq db;
             sessions := sessions db; sessions_seq := sessions_seq db;
             saved_recipes :=
               saved_recipes db ++ [{| recipe_id := id; recipe_user_id := user_id';
                                       recipe_title := title; recipe_data := data;
                                       recipe_created_at := now |}];
             saved_recipes_seq := id |})
  end.

(** The [WHERE id = ? AND user_id = ?] of [get_recipe] and [delete_recipe] *)
Definition owned (recipe_id' user_id' : Z) (r : saved_recipe) : bool :=
  (recipe_id r =? recipe_id') && (recipe_user_id r =? user_id').

(** [get_recipe] *)
Definition get_recipe (recipe_id' user_id' : Z) (db : database) : option pydict :=
  option_map recipe_dict (find (owned recipe_id' user_id') (saved_recipes db)).

(** [delete_recipe]: [cursor.rowcount > 0] and the file after the [DELETE] *)
Definition delete_recipe (recipe_id' user_id' : Z) (db : database) : bool * database :=
  (existsb (owned recipe_id' user_id') (saved_recipes db),
   {| users := users db; users_seq := users_seq db;
      sessions := sessions db; sessions_seq := sessions_seq db;
      saved_recipes := filter (fun r => negb (owned recipe_id' user_id' r)) (saved_recipes db);
      saved_recipes_seq := saved_recipes_seq db |}).

(** The endpoint [delete_recipe] of [main.py], for the user who is
    authenticated: the message, or the status 404 *)
Definition delete_recipe_endpoint (recipe_id' user_id' : Z) (db : database)
  : http string * database :=
  let (success, db1) := delete_recipe recipe_id' user_id' db in
  if success then (Returned "Recipe deleted successfully", db1)
  else (HTTPException 404, db1).

(** *** [auth.py] *)

(** [get_current_user] for the cookie [session_token] *)
Definition get_current_user (session_token' : option string) (now : string) (db : database)
  : option pydict :=
  match session_token' with
  | None => None
  | Some token => if Str.is_empty token then None else get_user_by_session token now db
  end.

(** [require_auth] *)
Definition require_auth (session_token' : option string) (now : string) (db : database)
  : http pydict :=
  match get_current_user session_token' now db with
  | Some u => Returned u
  | None => HTTPException 401
  end.

(** [logout_user]: the file after it (the cookie is deleted in any case) *)
Definition logout_user (session_token' : option string) (db : database) : database :=
  match session_token' with
  | None => db
  | Some token => if Str.is_empty token then db else delete_session token db
  end.

(** [login_user], for the token and the time of expiry of the new
    session: the user and the value of the cookie that is set, or the status
    401; [None] stands for the [IntegrityError] of [create_session]. *)
Definition login_user (token expires now : string) (email' password : string)
    (db : database) : option (http (pydict * string)) * database :=
  match matching_user email' password db with
  | None => (Some (HTTPException 401), db)
  | Some u =>
      match create_session token expires now (user_id u) db with
      | None => (None, db)
      | Some (cookie, db1) => (Some (Returned (user_dict u, cookie)), db1)
      end
  end.

(** The endpoint [signup] of [main.py]: the dictionary handed to
    [UserResponse], or the status 400; [None] stands for the [TypeError]
    of [UserResponse] applied to [None]. *)
Definition signup (now : string) (email' password name' : string) (db : database)
  : option (http pydict) * database :=
  let (success, db1) := create_user now email' password name' db in
  if success then
    match verify_user email' password db1 with
    | Some u => (Some (Returned u), db1)
    | None => (None, db1)
    end
  else (Some (HTTPException 400), db1).

End Database.

(** The ids of a table are pairwise distinct ([PRIMARY KEY]), and so are
    the emails of the users and the tokens of the sessions ([UNIQUE]). *)
Definition consistent (db : database) : Prop :=
  NoDup (map user_id (users db))
  /\ NoDup (map email (users db))
  /\ NoDup (map session_id (sessions db))
  /\ NoDup (map session_token (sessions db))
  /\ NoDup (map recipe_id (saved_recipes db)).

(** No id of a table is larger than the largest the table has given out. *)
Definition sequenced (db : database) : Prop :=
  Forall (fun u => user_id u <= users_seq db) (users db)
  /\ Forall (fun s => session_id s <= sessions_seq db) (sessions db)
  /\ Forall (fun r => recipe_id r <= saved_recipes_seq db) (saved_recipes db).

(** Every saved recipe is a text that parses as JSON. *)
Definition parsable (db : database) : Prop :=
  Forall (fun r => exists v, Json.loads (recipe_data r) = Ok v) (saved_recipes db).


(** A file with one user and one recipe of that user *)
Definition one_recipe : database :=
  {| users := [{| user_id := 1; email := "asha@example.com"; password_hash := "hash";
                  name := "Asha"; user_created_at := "2024-01-01 10:00:00";
                  is_active := true |}];
     users_seq := 1;
     sessions := []; sessions_seq := 0;
     saved_recipes := [{| recipe_id := 1; recipe_user_id := 1; recipe_title := "Dal";
                          recipe_data := "{}";
                          recipe_created_at := "2024-01-01 10:05:00" |}];
     saved_recipes_seq := 1 |}.

End Store.

(** * Part II.  Properties *)

(** ** Properties of the output normalizer *)

Module NormalizerFacts.
Import Normalizer.

Lemma find_alt_first data keys k :
  first_present data keys k ->
  find_alt data keys = Some (Str.strip (Py.str (Py.get data k))).
Proof.
  intros (before & after & -> & Hb & Hk).
  induction Hb as [|k' before Hk' _ IH]; simpl.
  - now rewrite Hk.
  - now rewrite Hk'.
Qed.

Lemma find_alt_none data keys :
  Forall (fun k => Py.truthy (Py.get data k) = false) keys ->
  find_alt data keys = None.
Proof.
  induction 1 as [|k keys Hk _ IH]; simpl; [reflexivity|].
  now rewrite Hk.
Qed.

Lemma contains_empty t : Str.contains "" t = true.
Proof. destruct t; reflexivity. Qed.

Lemma is_empty_true s : Str.is_empty s = true -> s = "".
Proof. destruct s; [reflexivity | discriminate]. Qed.

Lemma with_alt_str t a :
  with_alt (PStr t) (Some a)
  = Ok (PStr (if Str.contains a t then t else t ++ " (" ++ a ++ ")")).
Proof.
  unfold with_alt. destruct (Str.is_empty a) eqn:E.
  - apply is_empty_true in E. subst a. now rewrite contains_empty.
  - simpl. now destruct (Str.contains a t).
Qed.

Lemma coerce_dict_title data r :
  coerce_dict data = Ok r ->
  exists title, display_title data = Ok title /\ Py.lookup "title" r = Some title.
Proof.
  unfold coerce_dict. destruct (display_title data) as [title|e]; simpl; [|discriminate].
  destruct (steps data) as [sts|e]; simpl; [|discriminate].
  intros [= <-]. now exists title.
Qed.

(** C5.  The dictionary with title "Dal", [title_en] "Lentil Stew" and
    cuisine "punjabi" is coerced to the title "Dal (Lentil Stew) (Punjabi)".
    In general, for a primary title that is the string [t], the coerced
    title is [t], followed by the stripped text [a] of the first present
    alternate-title key in parentheses exactly when [a] is not a substring
    of [t], followed by the capitalized stripped text of a present cuisine
    in parentheses. *)
Theorem coerced_title :
  (exists r, _coerce_recipe_dict (PDict dal) = Ok r
             /\ Py.lookup "title" r = Some (PStr "Dal (Lentil Stew) (Punjabi)"))
  /\ forall data t,
      raw_title data = PStr t ->
      exists base suffix,
        display_title data = Ok (PStr (base ++ suffix))
        /\ (forall r, _coerce_recipe_dict (PDict data) = Ok r ->
                      Py.lookup "title" r = Some (PStr (base ++ suffix)))
        /\ (forall k, first_present data alt_keys k ->
              let a := Str.strip (Py.str (Py.get data k)) in
              base = if Str.contains a t then t else t ++ " (" ++ a ++ ")")
        /\ (Forall (fun k => Py.truthy (Py.get data k) = false) alt_keys -> base = t)
        /\ (let c := Str.strip (Py.str (Py.get data "cuisine")) in
            if Py.truthy (Py.get data "cuisine") && negb (Str.is_empty c)
            then suffix = " (" ++ Str.capitalize c ++ ")"
            else suffix = "").
Proof.
  split.
  - eexists. split; reflexivity.
  - intros data t Ht.
    pose (base := match find_alt data alt_keys with
                  | Some a => if Str.contains a t then t else t ++ " (" ++ a ++ ")"
                  | None => t
                  end).
    pose (c := Str.strip (Py.str (Py.get data "cuisine"))).
    pose (suffix := if Py.truthy (Py.get data "cuisine") && negb (Str.is_empty c)
                    then " (" ++ Str.capitalize c ++ ")" else "").
    assert (Hd : display_title data = Ok (PStr (base ++ suffix))).
    { unfold display_title. rewrite Ht.
      assert (Ha : with_alt (PStr t) (find_alt data alt_keys) = Ok (PStr base)).
      { unfold base. destruct (find_alt data alt_keys) as [a|]; [apply with_alt_str | reflexivity]. }
      rewrite Ha. simpl. unfold with_cuisine, suffix. fold c.
      destruct (Py.truthy (Py.get data "cuisine")); simpl.
      - destruct (Str.is_empty c); simpl; [|reflexivity].
        f_equal. f_equal. clear. induction base; simpl; congruence.
      - f_equal. f_equal. clear. induction base; simpl; congruence. }
    exists base, suffix. repeat split.
    + exact Hd.
    + intros r Hr. simpl in Hr. apply coerce_dict_title in Hr.
      destruct Hr as (title & Hd' & Hl). congruence.
    + intros k Hk. unfold base. now rewrite (find_alt_first _ _ _ Hk).
    + intros Hnone. unfold base. now rewrite (find_alt_none _ _ Hnone).
    + fold c. unfold suffix.
      destruct (Py.truthy (Py.get data "cuisine") && negb (Str.is_empty c)); reflexivity.
Qed.

Lemma coerced_title_witness :
  exists base suffix,
    display_title dal = Ok (PStr (base ++ suffix))
    /\ (forall r, _coerce_recipe_dict (PDict dal) = Ok r ->
                  Py.lookup "title" r = Some (PStr (base ++ suffix)))
    /\ (forall k, first_present dal alt_keys k ->
          let a := Str.strip (Py.str (Py.get dal k)) in
          base = if Str.contains a "Dal" then "Dal" else "Dal" ++ " (" ++ a ++ ")")
    /\ (Forall (fun k => Py.truthy (Py.get dal k) = false) alt_keys -> base = "Dal")
    /\ (let c := Str.strip (Py.str (Py.get dal "cuisine")) in
        if Py.truthy (Py.get dal "cuisine") && negb (Str.is_empty c)
        then suffix = " (" ++ Str.capitalize c ++ ")"
        else suffix = "").
Proof. apply (proj2 coerced_title dal "Dal"). reflexivity. Defined.

(** The cuisine "éthiopienne" is capitalized to "Éthiopienne". *)
Lemma accented_cuisine :
  exists r, _coerce_recipe_dict (PDict injera) = Ok r
            /\ Py.lookup "title" r = Some (PStr "Injera (Éthiopienne)").
Proof. eexists. split; vm_compute; reflexivity. Qed.

(** *** Ingredients *)

Lemma app_nonempty_r s t : t <> "" -> s ++ t <> "".
Proof. destruct s; simpl; [auto | discriminate]. Qed.

Lemma app_nonempty_l s t : s <> "" -> s ++ t <> "".
Proof. destruct s; simpl; [congruence | discriminate]. Qed.

Lemma of_Z_nonempty z : Str.of_Z z <> "".
Proof.
  unfold Str.of_Z. destruct (Z.to_int z) as [d|d]; simpl; [|discriminate].
  destruct d; simpl; discriminate.
Qed.

Lemma layout_nonempty ds decpt : PyFloat.layout ds decpt <> "".
Proof.
  unfold PyFloat.layout.
  destruct ((decpt <=? -4) || (16 <? decpt)).
  - apply app_nonempty_r. discriminate.
  - destruct (decpt <=? 0); [discriminate|].
    destruct (Z.of_nat (String.length ds) <=? decpt).
    + apply app_nonempty_r, app_nonempty_r. discriminate.
    + apply app_nonempty_r. discriminate.
Qed.

Lemma float_repr_nonempty f : PyFloat.repr f <> "".
Proof.
  unfold PyFloat.repr. destruct (Prim2SF f) as [s|s| |s m e].
  - destruct s; discriminate.
  - destruct s; discriminate.
  - discriminate.
  - destruct (PyFloat.shortest _ _ _ _) as [d q].
    apply app_nonempty_r, layout_nonempty.
Qed.

Lemma repr_nonempty v : Py.repr v <> "".
Proof.
  destruct v; simpl; try discriminate.
  - destruct b; discriminate.
  - apply of_Z_nonempty.
  - apply float_repr_nonempty.
Qed.

Lemma str_empty v : Py.str v = "" <-> v = PStr "".
Proof.
  split; [|now intros ->].
  destruct v; simpl; intros H; try (now apply repr_nonempty in H).
  - now apply (repr_nonempty PNone) in H.
  - now apply (repr_nonempty (PBool b)) in H.
  - now apply (repr_nonempty (PInt z)) in H.
  - now apply (repr_nonempty (PFloat f)) in H.
  - now subst.
  - now apply (repr_nonempty (PList items)) in H.
  - now apply (repr_nonempty (PDict entries)) in H.
Qed.

Lemma truthy_or a b : Py.truthy (Py.or a b) = Py.truthy a || Py.truthy b.
Proof. unfold Py.or. destruct (Py.truthy a) eqn:E; simpl; [exact E | reflexivity]. Qed.







(** *** Fallback entries *)

Lemma coerce_dict_steps data r :
  coerce_dict data = Ok r ->
  exists sts, steps data = Ok sts /\ Py.lookup "steps" r = Some (PList sts).
Proof.
  unfold coerce_dict. destruct (display_title data) as [title|e]; simpl; [|discriminate].
  destruct (steps data) as [sts|e]; simpl; [|discriminate].
  intros [= <-]. now exists sts.
Qed.



Lemma get_absent data k : Py.lookup k data = None -> Py.get data k = PNone.
Proof. unfold Py.get. now intros ->. Qed.



(** *** Servings and total time *)

Lemma coerce_dict_numbers data r :
  coerce_dict data = Ok r ->
  Py.lookup "servings" r = Some (servings data)
  /\ Py.lookup "total_time_minutes" r = Some (total_time_minutes data).
Proof.
  unfold coerce_dict. destruct (display_title data) as [title|e]; simpl; [|discriminate].
  destruct (steps data) as [sts|e]; simpl; [|discriminate].
  intros [= <-]. now split.
Qed.

(** C9.  In a coerced dictionary [servings] is [int] of the source value,
    and 2 when that conversion fails or the key is missing;
    [total_time_minutes] is [int] of the source value ([time_minutes] when
    the key [total_time_minutes] is missing), and [None] when the
    conversion fails, when no source is there, and when the outcome is 0. *)
Theorem coerced_numbers (data r : pydict) :
  _coerce_recipe_dict (PDict data) = Ok r ->
  (exists s, Py.lookup "servings" r = Some (PInt s)
     /\ (forall v z, Py.lookup "servings" data = Some v -> Py.int v = Ok z -> s = z)
     /\ (forall v e, Py.lookup "servings" data = Some v -> Py.int v = Raise e -> s = 2)
     /\ (Py.lookup "servings" data = None -> s = 2))
  /\ (exists t, Py.lookup "total_time_minutes" r = Some t
     /\ (forall v z, time_source data = Some v -> Py.int v = Ok z -> z <> 0 -> t = PInt z)
     /\ (forall v, time_source data = Some v -> Py.int v = Ok 0 -> t = PNone)
     /\ (forall v e, time_source data = Some v -> Py.int v = Raise e -> t = PNone)
     /\ (time_source data = None -> t = PNone)).
Proof.
  intros Hr. simpl in Hr. apply coerce_dict_numbers in Hr as [Hs Ht]. split.
  - exists (to_int (Py.get_default data "servings" (PInt 2)) 2).
    split; [exact Hs|]. unfold Py.get_default, to_int. repeat split.
    + intros v z -> Hz. now rewrite Hz.
    + intros v e -> He. now rewrite He.
    + now intros ->.
  - exists (total_time_minutes data). split; [exact Ht|].
    assert (Hsrc : forall v, time_source data = Some v ->
              Py.get_default data "total_time_minutes"
                (Py.get_default data "time_minutes" (PInt 0)) = v).
    { unfold time_source, Py.get_default. intros v.
      destruct (Py.lookup "total_time_minutes" data); [congruence|].
      now intros ->. }
    unfold total_time_minutes, to_int. repeat split.
    + intros v z Hv Hz Hnz. rewrite (Hsrc v Hv), Hz.
      destruct (z =? 0) eqn:E; [|reflexivity]. apply Z.eqb_eq in E. contradiction.
    + intros v Hv Hz. now rewrite (Hsrc v Hv), Hz.
    + intros v e Hv He. now rewrite (Hsrc v Hv), He.
    + unfold time_source, Py.get_default.
      destruct (Py.lookup "total_time_minutes" data); [discriminate|].
      now intros ->.
Qed.

Lemma coerced_numbers_witness :
  (exists s, Py.lookup "servings" timed_out = Some (PInt s)
     /\ (forall v z, Py.lookup "servings" timed = Some v -> Py.int v = Ok z -> s = z)
     /\ (forall v e, Py.lookup "servings" timed = Some v -> Py.int v = Raise e -> s = 2)
     /\ (Py.lookup "servings" timed = None -> s = 2))
  /\ (exists t, Py.lookup "total_time_minutes" timed_out = Some t
     /\ (forall v z, time_source timed = Some v -> Py.int v = Ok z -> z <> 0 -> t = PInt z)
     /\ (forall v, time_source timed = Some v -> Py.int v = Ok 0 -> t = PNone)
     /\ (forall v e, time_source timed = Some v -> Py.int v = Raise e -> t = PNone)
     /\ (time_source timed = None -> t = PNone)).
Proof. apply (coerced_numbers timed). reflexivity. Defined.

(** [int] reads the decimal digits of every script, and white space around
    them but for the separators U+001C to U+001F. *)
Lemma int_of_text :
  Py.int (PStr "४") = Ok 4 /\ Py.int (PStr "३०") = Ok 30 /\ Py.int (PStr "०") = Ok 0
  /\ Py.int (PStr "　1 ") = Ok 1
  /\ Py.int (PStr (String "028" "1")) = Raise ValueError.
Proof. repeat split; vm_compute; reflexivity. Qed.

(** Servings "४" and a time "३०" are coerced to 4 and 30. *)
Lemma devanagari_numbers :
  exists r, _coerce_recipe_dict (PDict devanagari) = Ok r
            /\ Py.lookup "servings" r = Some (PInt 4)
            /\ Py.lookup "total_time_minutes" r = Some (PInt 30).
Proof. eexists. repeat split; vm_compute; reflexivity. Qed.

(** C10.  The default 2 replaces the source servings only when [int]
    fails on it.  A source value that [int] turns into a number below 1 is
    handed on as it is: the coerced dictionary holds that number, and the
    validation of [Recipe], whatever it makes of the other fields, refuses
    the dictionary. *)
Theorem servings_below_one (Rest : Type) (rest_fields : pydict -> option Rest)
    (data r : pydict) (v : pyval) :
  Py.lookup "servings" data = Some v ->
  _coerce_recipe_dict (PDict data) = Ok r ->
  Py.lookup "servings" r
  = Some (PInt (match Py.int v with Ok z => z | Raise _ => 2 end))
  /\ forall z, Py.int v = Ok z -> z < 1 ->
       Py.lookup "servings" r = Some (PInt z)
       /\ Validator.servings_field r = Raise ValidationError
       /\ Validator.validate Rest rest_fields r = Raise ValidationError.
Proof.
  intros Hv Hr. simpl in Hr. apply coerce_dict_numbers in Hr as [Hs _].
  assert (Hs' : Py.lookup "servings" r
                = Some (PInt (match Py.int v with Ok z => z | Raise _ => 2 end))).
  { rewrite Hs. unfold servings, to_int, Py.get_default. now rewrite Hv. }
  split; [exact Hs'|].
  intros z Hz Hlt. rewrite Hz in Hs'.
  assert (Hf : Validator.servings_field r = Raise ValidationError).
  { unfold Validator.servings_field. rewrite Hs'. simpl.
    unfold Validator.ge. destruct (1 <=? z) eqn:E; [|reflexivity].
    apply Z.leb_le in E. lia. }
  repeat split; [exact Hs' | exact Hf |].
  unfold Validator.validate. now rewrite Hf.
Qed.

Lemma servings_below_one_witness :
  Py.lookup "servings" no_servings_out = Some (PInt (-3))
  /\ Validator.servings_field no_servings_out = Raise ValidationError
  /\ Validator.validate unit (fun _ => Some tt) no_servings_out = Raise ValidationError.
Proof.
  apply (proj2 (servings_below_one unit (fun _ => Some tt)
                  no_servings no_servings_out (PStr "-3") eq_refl eq_refl) (-3)).
  - reflexivity.
  - lia.
Defined.

(** Servings "०" are coerced to 0, which the validation refuses. *)
Lemma devanagari_zero_refused :
  exists r, _coerce_recipe_dict (PDict devanagari_zero) = Ok r
            /\ Py.lookup "servings" r = Some (PInt 0)
            /\ Validator.servings_field r = Raise ValidationError.
Proof. eexists. repeat split; vm_compute; reflexivity. Qed.

(** *** Canonical dictionaries *)

Import Canonical.

Lemma lookup_none k (d : pydict) : ~ In k (map fst d) -> Py.lookup k d = None.
Proof.
  induction d as [|[k' v] d IH]; simpl; [reflexivity|].
  intros H. destruct (String.eqb_spec k k') as [->|Hne].
  - exfalso. apply H. now left.
  - apply IH. intros Hin. apply H. now right.
Qed.

Lemma lookup_in k (d : pydict) : In k (map fst d) -> Py.lookup k d = Some (Py.get d k).
Proof.
  unfold Py.get. induction d as [|[k' v] d IH]; simpl; [contradiction|].
  intros [->|Hin].
  - now rewrite String.eqb_refl.
  - destruct (String.eqb k k'); [reflexivity | now apply IH].
Qed.

Lemma get_other d keys k : has_keys d keys -> ~ In k keys -> Py.get d k = PNone.
Proof.
  intros [_ Hk] Hn. apply get_absent, lookup_none. now rewrite Hk.
Qed.

Lemma lookup_field d keys k :
  has_keys d keys -> In k keys -> Py.lookup k d = Some (Py.get d k).
Proof. intros [_ Hk] Hin. apply lookup_in. now apply Hk. Qed.

(** Two dictionaries over the same keys are equal when their values are. *)
Lemma equal_by_keys (r d : pydict) keys :
  map fst r = keys -> has_keys d keys ->
  Forall (fun k => equal (Py.get r k) (Py.get d k)) keys ->
  equal (PDict r) (PDict d).
Proof.
  intros Hr Hd Hall. apply equal_dict. intros k.
  destruct (in_dec string_dec k keys) as [Hin|Hout].
  - rewrite (lookup_in k r) by now rewrite Hr.
    rewrite (lookup_field d keys k Hd Hin).
    apply opt_some. rewrite Forall_forall in Hall. now apply Hall.
  - rewrite (lookup_none k r) by now rewrite Hr.
    rewrite (lookup_none k d) by (destruct Hd as [_ Hk]; now rewrite Hk).
    apply opt_none.
Qed.

Lemma or_present a b : Py.truthy a = true -> Py.or a b = a.
Proof. unfold Py.or. now intros ->. Qed.

Lemma truthy_nonempty s : s <> "" -> Py.truthy (PStr s) = true.
Proof. destruct s; simpl; congruence. Qed.

Ltac each_key := repeat first [apply Forall_nil | apply Forall_cons].

Ltac absent_key :=
  simpl; intros Hin; repeat destruct Hin as [Hin|Hin]; try discriminate Hin; exact Hin.

Lemma canonical_ingredient item :
  ingredient item ->
  (forall e, item = PDict e -> Py.get e "quantity" <> PStr "") ->
  exists entry, coerce_ingredient item = [entry] /\ equal entry item.
Proof.
  intros (e & -> & Hkeys & (n & Hn & Hne) & Hq) Hnq.
  specialize (Hnq e eq_refl).
  assert (Hname : ingredient_name (PDict e) = PStr n).
  { unfold ingredient_name. rewrite Hn.
    now rewrite !(or_present (PStr n)) by now apply truthy_nonempty. }
  assert (Hqty : ingredient_quantity (PDict e) = Py.get e "quantity").
  { unfold ingredient_quantity. destruct Hq as [Hq|(q & Hq)].
    - rewrite Hq. unfold Py.or. simpl.
      apply (get_other e _ "qty" Hkeys). absent_key.
    - rewrite Hq in *. apply or_present, truthy_nonempty. congruence. }
  exists (ingredient_entry (PStr n) (Py.get e "quantity")). split.
  - unfold coerce_ingredient. rewrite Hname, Hqty.
    now rewrite truthy_nonempty.
  - apply (equal_by_keys _ e ["name"; "quantity"]); [reflexivity | exact Hkeys |].
    each_key; simpl; [rewrite Hn|]; apply equal_same.
Qed.

Lemma canonical_ingredients l :
  Forall ingredient l ->
  Forall (fun item => forall e, item = PDict e -> Py.get e "quantity" <> PStr "") l ->
  exists l', flat_map coerce_ingredient l = l' /\ Forall2 equal l' l.
Proof.
  induction 1 as [|item l Hitem _ IH]; intros Hq.
  - exists []. split; [reflexivity | constructor].
  - inversion Hq as [|? ? Hq1 Hq2]; subst.
    destruct (canonical_ingredient item Hitem Hq1) as (entry & He & Heq).
    destruct (IH Hq2) as (l' & Hl & Hl2).
    exists (entry :: l'). split.
    + simpl. now rewrite He, Hl.
    + now constructor.
Qed.

Lemma canonical_step idx s :
  step s -> exists entry, coerce_step idx s = Ok [entry] /\ equal entry s.
Proof.
  intros (e & -> & Hkeys & (n & Hn & Hge) & (ins & Hi & Hne)).
  assert (Hins : step_instruction (PDict e) = PStr ins).
  { unfold step_instruction. rewrite Hi.
    now rewrite !(or_present (PStr ins)) by now apply truthy_nonempty. }
  assert (Hnum : step_number idx (PDict e) = PInt n).
  { unfold step_number. rewrite Hn. apply or_present. simpl.
    destruct (n =? 0) eqn:E; [|reflexivity]. apply Z.eqb_eq in E. lia. }
  exists (step_entry n (PStr ins)). split.
  - unfold coerce_step. rewrite Hins, Hnum.
    now rewrite truthy_nonempty.
  - apply (equal_by_keys _ e ["number"; "instruction"]); [reflexivity | exact Hkeys |].
    each_key; simpl; [rewrite Hn | rewrite Hi]; apply equal_same.
Qed.

Lemma canonical_steps l :
  Forall step l ->
  forall idx, exists l', coerce_step_list idx l = Ok l' /\ Forall2 equal l' l.
Proof.
  induction 1 as [|s l Hs _ IH]; intros idx.
  - exists []. split; [reflexivity | constructor].
  - destruct (canonical_step idx s Hs) as (entry & He & Heq).
    destruct (IH (idx + 1)) as (l' & Hl & Hl2).
    exists (entry :: l'). split.
    + simpl. now rewrite He, Hl.
    + now constructor.
Qed.

Lemma Forall2_nonempty {A B} (R : A -> B -> Prop) l' l :
  Forall2 R l' l -> l <> [] -> l' <> [].
Proof. destruct 1; [contradiction | discriminate]. Qed.

Lemma canonical_title d :
  recipe d -> plain_cuisine d -> display_title d = Ok (Py.get d "title").
Proof.
  intros (Hkeys & (t & Ht & Hne) & _) Hc.
  unfold display_title, raw_title. rewrite Ht.
  rewrite !(or_present (PStr t)) by now apply truthy_nonempty.
  rewrite find_alt_none.
  - simpl. f_equal. unfold with_cuisine.
    destruct Hc as [Hc|(c & Hc & Hblank)]; rewrite Hc; simpl; [reflexivity|].
    rewrite Hblank. now destruct (negb (Str.is_empty c)).
  - each_key; rewrite (get_other d fields); trivial; absent_key.
Qed.

(** C2, as amended.  A dictionary in the canonical recipe shape (every
    field there, non-empty title, names and instructions, non-empty lists
    of ingredients and steps) whose cuisine is [None] or blank, whose
    total time is not 0 and whose ingredient quantities are not the empty
    string is coerced to an equal dictionary. *)
Theorem coerce_canonical (d : pydict) :
  recipe d -> plain_cuisine d -> nonzero_time d -> nonempty_quantities d ->
  exists r, _coerce_recipe_dict (PDict d) = Ok r /\ equal (PDict r) (PDict d).
Proof.
  intros Hrec Hc Ht Hq.
  pose proof (canonical_title d Hrec Hc) as Htitle.
  destruct Hrec as (Hkeys & _ & _ & (sv & Hsv & Hsv1) & Htime & (il & Hil & Hil0 & Hila)
                    & (sl & Hsl & Hsl0 & Hsla) & _ & _).
  destruct (canonical_ingredients il Hila (Hq il Hil)) as (il' & Hil' & Hil2).
  destruct (canonical_steps sl Hsla 1) as (sl' & Hsl' & Hsl2).
  assert (Hings : ingredients d = il').
  { unfold ingredients, norm_ings, source_ingredients. rewrite Hil.
    rewrite !(or_present (PList il)) by (destruct il; [contradiction | reflexivity]).
    rewrite Hil'. pose proof (Forall2_nonempty _ _ _ Hil2 Hil0).
    now destruct il'. }
  assert (Hsteps : steps d = Ok sl').
  { unfold steps, norm_steps, source_steps. rewrite Hsl.
    rewrite !(or_present (PList sl)) by (destruct sl; [contradiction | reflexivity]).
    rewrite Hsl'. simpl. pose proof (Forall2_nonempty _ _ _ Hsl2 Hsl0).
    now destruct sl'. }
  assert (Hserv : servings d = Py.get d "servings").
  { unfold servings, Py.get_default.
    rewrite (lookup_field d fields) by (trivial; simpl; tauto).
    now rewrite Hsv. }
  assert (Htm : total_time_minutes d = Py.get d "total_time_minutes").
  { unfold total_time_minutes, Py.get_default.
    rewrite (lookup_field d fields "total_time_minutes") by (trivial; simpl; tauto).
    destruct Htime as [Hn|(m & Hm & Hm0)].
    - now rewrite Hn.
    - rewrite Hm in *. unfold to_int. simpl.
      destruct (m =? 0) eqn:E; [|reflexivity].
      apply Z.eqb_eq in E. subst m. now destruct Ht. }
  eexists. split.
  - simpl. unfold coerce_dict. rewrite Htitle, Hsteps. simpl. reflexivity.
  - apply (equal_by_keys _ d fields); [reflexivity | exact Hkeys |].
    each_key; simpl; try apply equal_same.
    + rewrite Hserv. apply equal_same.
    + rewrite Htm. apply equal_same.
    + rewrite Hings, Hil. now apply equal_list.
    + rewrite Hsl. now apply equal_list.
Qed.

Ltac keys_ok :=
  split;
  [ repeat (apply NoDup_cons; [absent_key|]); apply NoDup_nil
  | intros k; apply iff_refl ].

Lemma canonical_dal_recipe cuisine title :
  optional text cuisine -> canonical_dal cuisine title = canonical_dal cuisine "Dal" ->
  recipe (canonical_dal cuisine title).
Proof.
  intros Hc [= ->]. unfold recipe.
  split; [keys_ok|]. split; [exists "Dal"; now split|]. split; [exact Hc|].
  split; [exists 2; split; [reflexivity | lia]|].
  split; [right; exists 30; split; [reflexivity | lia]|].
  split.
  { eexists. split; [reflexivity|]. split; [discriminate|].
    each_key. eexists. split; [reflexivity|]. split; [keys_ok|].
    split; [exists "lentils"; now split | right; now exists "1 cup"]. }
  split.
  { eexists. split; [reflexivity|]. split; [discriminate|].
    each_key. eexists. split; [reflexivity|]. split; [keys_ok|].
    split; [exists 1; split; [reflexivity | lia] | exists "boil"; now split]. }
  split; now left.
Qed.

Lemma canonical_dal_plain : plain_cuisine (canonical_dal PNone "Dal").
Proof. now left. Qed.

Lemma canonical_dal_time cuisine : nonzero_time (canonical_dal cuisine "Dal").
Proof. discriminate. Qed.

Lemma canonical_dal_quantities cuisine : nonempty_quantities (canonical_dal cuisine "Dal").
Proof.
  intros l [= <-]. each_key. intros e [= <-]. discriminate.
Qed.

Lemma coerce_canonical_witness :
  exists r, _coerce_recipe_dict (PDict (canonical_dal PNone "Dal")) = Ok r
            /\ equal (PDict r) (PDict (canonical_dal PNone "Dal")).
Proof.
  exact (coerce_canonical (canonical_dal PNone "Dal")
           (canonical_dal_recipe PNone "Dal" (or_introl eq_refl) eq_refl)
           canonical_dal_plain
           (canonical_dal_time PNone)
           (canonical_dal_quantities PNone)).
Defined.

(** C2 fails as stated: the canonical dictionary with title "Dal" and
    cuisine "punjabi" is coerced to one with the title "Dal (Punjabi)". *)
Lemma coerce_canonical_changes_title :
  recipe (canonical_dal (PStr "punjabi") "Dal")
  /\ _coerce_recipe_dict (PDict (canonical_dal (PStr "punjabi") "Dal"))
     = Ok (canonical_dal (PStr "punjabi") "Dal (Punjabi)")
  /\ ~ equal (PDict (canonical_dal (PStr "punjabi") "Dal (Punjabi)"))
             (PDict (canonical_dal (PStr "punjabi") "Dal")).
Proof.
  split; [|split].
  - apply canonical_dal_recipe; [right; now exists "punjabi" | reflexivity].
  - reflexivity.
  - intros H. inversion H as [ | | d1 d2 Hk].
    specialize (Hk "title"). simpl in Hk.
    inversion Hk as [|a b Hab]. inversion Hab.
Qed.


End NormalizerFacts.


(** ** Properties of the model invoker *)

Module InvokerFacts.
Import Invoker.


Lemma doubled_next delay k : doubled (delay * 2)%float k = doubled delay (Datatypes.S k).
Proof. reflexivity. Qed.

Section Facts.

Variables S V : Type.
Variable call_fn : S -> outcome V * S.
Variable pass : float -> S -> S.

Local Abbreviation world := (world S V).
Local Abbreviation call := (call S V call_fn).
Local Abbreviation sleep := (sleep S V pass).
Local Abbreviation attempts_loop := (attempts_loop S V call_fn pass).
Local Abbreviation _call_with_retries := (_call_with_retries S V call_fn pass).

Lemma call_events w :
  events (snd (call w)) = (events w ++ [Called (fst (call w))])%list.
Proof. unfold Invoker.call. now destruct (call_fn (outside w)). Qed.

Lemma call_eq w o s :
  call_fn (outside w) = (o, s) ->
  call w = (o, {| outside := s; events := (events w ++ [Called o])%list |}).
Proof. unfold Invoker.call. now intros ->. Qed.



(** The loop from attempt [a], with [n] more attempts after it: a run of
    failures that are retried, each followed by its sleep, and one last
    call; the loop hands on the outcome of that call, unless the call fails
    transiently before the last attempt and [time.sleep] refuses the
    delay. *)
Lemma attempts_loop_spec max_attempts n :
  forall a delay last_exc w,
    a + Z.of_nat n = max_attempts ->
    exists fails final,
      events (snd (attempts_loop (range_from a (Datatypes.S n)) max_attempts delay last_exc w))
      = (events w ++ retried fails delay ++ [Called final])%list
      /\ Forall (fun e => ordinary e = true /\ transient e = true) fails
      /\ (length fails <= n)%nat
      /\ (forall k, (k < length fails)%nat -> sleep_error (doubled delay k) = None)
      /\ (exists s s1, call_fn s = (final, s1))
      /\ (fst (attempts_loop (range_from a (Datatypes.S n)) max_attempts delay last_exc w)
          = final
          /\ (forall e, final = Raises e -> ordinary e = true -> transient e = true ->
                length fails = n)
          \/ exists e e',
               final = Raises e /\ ordinary e = true /\ transient e = true
               /\ (length fails < n)%nat
               /\ sleep_error (doubled delay (length fails)) = Some e'
               /\ fst (attempts_loop (range_from a (Datatypes.S n)) max_attempts delay
                         last_exc w) = Raises e').
Proof.
  induction n as [|n IH]; intros a delay last_exc w Ha.
  - cbn [range_from Invoker.attempts_loop].
    destruct (call_fn (outside w)) as [o s1] eqn:Hc. rewrite (call_eq w _ _ Hc).
    cbv beta iota. exists [], o. cbn [retried app length].
    assert (Hres : forall x : outcome V * world,
               events (snd x) = (events w ++ [Called o])%list -> fst x = o ->
               events (snd x) = (events w ++ [Called o])%list
               /\ Forall (fun e => ordinary e = true /\ transient e = true) []
               /\ (0 <= 0)%nat
               /\ (forall k, (k < 0)%nat -> sleep_error (doubled delay k) = None)
               /\ (exists s s1, call_fn s = (o, s1))
               /\ (fst x = o
                   /\ (forall e, o = Raises e -> ordinary e = true -> transient e = true ->
                         0%nat = 0%nat)
                   \/ exists e e',
                        o = Raises e /\ ordinary e = true /\ transient e = true
                        /\ (0 < 0)%nat
                        /\ sleep_error (doubled delay 0) = Some e'
                        /\ fst x = Raises e')).
    { intros x Hx1 Hx2. split; [exact Hx1|]. split; [constructor|]. split; [lia|].
      split; [intros k Hk; lia|]. split; [now exists (outside w), s1|].
      left. now split. }
    assert (Heq : (a =? max_attempts) = true) by (apply Z.eqb_eq; lia).
    rewrite Heq.
    destruct o as [v|e]; [now apply Hres|].
    destruct (ordinary e); [|now apply Hres].
    destruct (transient e); now apply Hres.
  - change (range_from a (Datatypes.S (Datatypes.S n)))
      with (a :: range_from (a + 1) (Datatypes.S n)).
    remember (range_from (a + 1) (Datatypes.S n)) as rest eqn:Hrest.
    cbn [Invoker.attempts_loop]. subst rest.
    destruct (call_fn (outside w)) as [o s1] eqn:Hc. rewrite (call_eq w _ _ Hc).
    cbv beta iota.
    set (w1 := {| outside := s1; events := (events w ++ [Called o])%list |}).
    assert (Hend : (forall e, o = Raises e -> ordinary e = true -> transient e = true ->
                      False) ->
               exists fails final,
                 events w1 = (events w ++ retried fails delay ++ [Called final])%list
                 /\ Forall (fun e => ordinary e = true /\ transient e = true) fails
                 /\ (length fails <= Datatypes.S n)%nat
                 /\ (forall k, (k < length fails)%nat -> sleep_error (doubled delay k) = None)
                 /\ (exists s s1, call_fn s = (final, s1))
                 /\ (o = final
                     /\ (forall e, final = Raises e -> ordinary e = true ->
                           transient e = true -> length fails = Datatypes.S n)
                     \/ exists e e',
                          final = Raises e /\ ordinary e = true /\ transient e = true
                          /\ (length fails < Datatypes.S n)%nat
                          /\ sleep_error (doubled delay (length fails)) = Some e'
                          /\ o = Raises e')).
    { intros Hno. exists [], o. cbn [retried app length].
      split; [reflexivity|]. split; [constructor|]. split; [lia|].
      split; [intros k Hk; lia|]. split; [now exists (outside w), s1|].
      left. split; [reflexivity|]. intros e He Ho Ht. now destruct (Hno e He Ho Ht). }
    destruct o as [v|e].
    + cbn [fst snd]. apply Hend. discriminate.
    + destruct (ordinary e) eqn:Ho.
      2:{ cbn [fst snd]. apply Hend. intros e' [= <-] Ho' _. congruence. }
      destruct (transient e) eqn:Ht.
      2:{ cbn [fst snd]. apply Hend. intros e' [= <-] _ Ht'. congruence. }
      clear Hend.
      assert (Hne : (a =? max_attempts) = false) by (apply Z.eqb_neq; lia).
      rewrite Hne. unfold Invoker.sleep.
      destruct (sleep_error delay) as [e'|] eqn:Hs.
      * cbn [fst snd]. exists [], (Raises e). cbn [retried app length].
        split; [reflexivity|]. split; [constructor|]. split; [lia|].
        split; [intros k Hk; lia|]. split; [now exists (outside w), s1|].
        right. exists e, e'. repeat split; auto with arith.
      * destruct (IH (a + 1) (delay * 2)%float e
                    {| outside := pass delay (outside w1);
                       events := (events w1 ++ [Slept delay])%list |})
          as (fails & final & He & Hf & Hl & Hsl & Hcall & Hr); [lia|].
        exists (e :: fails), final. split; [|split; [|split; [|split; [|split]]]].
        -- rewrite He. cbn [events retried w1]. rewrite <- !app_assoc.
           reflexivity.
        -- constructor; [now split | exact Hf].
        -- cbn [length]. lia.
        -- intros [|k] Hk; [exact Hs|]. cbn [doubled]. apply Hsl.
           cbn [length] in Hk. lia.
        -- exact Hcall.
        -- destruct Hr as [[Hr Hlast]|(e1 & e2 & Hfin & Ho1 & Ht1 & Hlt & Hs1 & Hr)].
           ++ left. split; [exact Hr|]. intros e1 He1 Ho1 Ht1. cbn [length].
              f_equal. now apply (Hlast e1).
           ++ right. exists e1, e2. cbn [length doubled].
              repeat split; auto. lia.
Qed.


Lemma sleeps_retried fails delay (final : outcome V) :
  sleeps (retried fails delay ++ [Called final]) = backoff delay (length fails).
Proof.
  revert delay. induction fails as [|e fails IH]; intros delay; simpl; [reflexivity|].
  f_equal. apply IH.
Qed.

Lemma attempts_retried fails delay (final : outcome V) :
  attempts (retried fails delay ++ [Called final]) = Datatypes.S (length fails).
Proof.
  unfold attempts. revert delay.
  induction fails as [|e fails IH]; intros delay; simpl; [reflexivity|].
  f_equal. apply IH.
Qed.


End Facts.



End InvokerFacts.

(** ** Properties of byte strings *)

Module StrFacts.

Lemma append_nil_r s : s ++ "" = s.
Proof. induction s; simpl; congruence. Qed.

Lemma append_assoc s t u : (s ++ t) ++ u = s ++ (t ++ u).
Proof. induction s; simpl; congruence. Qed.

Lemma startswith_iff p s :
  Str.startswith p s = true <-> exists post, s = p ++ post.
Proof.
  revert s. induction p as [|a p IH]; intros s; simpl.
  - split; [intros _; now exists s | reflexivity].
  - destruct s as [|b s].
    + split; [discriminate | intros [post H]; discriminate].
    + rewrite andb_true_iff, IH. split.
      * intros [Hab [post ->]]. apply Ascii.eqb_eq in Hab. subst. now exists post.
      * intros [post [= -> ->]]. split; [apply Ascii.eqb_refl | now exists post].
Qed.

(** [sub in s] holds exactly when [s] is some text, [sub], some text. *)
Lemma contains_iff sub s :
  Str.contains sub s = true <-> exists pre post, s = pre ++ sub ++ post.
Proof.
  induction s as [|c s IH].
  - simpl. rewrite orb_false_r, startswith_iff. split.
    + intros [post ->]. now exists "", post.
    + intros (pre & post & H). destruct pre; [now exists post | discriminate].
  - cbn [Str.contains]. rewrite orb_true_iff, startswith_iff, IH. split.
    + intros [[post ->]|(pre & post & ->)].
      * now exists "", post.
      * now exists (String c pre), post.
    + intros (pre & post & H). destruct pre as [|c' pre].
      * left. now exists post.
      * right. injection H as -> ->. now exists pre, post.
Qed.

Lemma contains_refl s : Str.contains s s = true.
Proof. apply contains_iff. exists "", "". simpl. now rewrite append_nil_r. Qed.

Lemma contains_trans a b c :
  Str.contains a b = true -> Str.contains b c = true -> Str.contains a c = true.
Proof.
  rewrite !contains_iff. intros (p1 & q1 & ->) (p2 & q2 & ->).
  exists (p2 ++ p1), (q1 ++ q2). now rewrite !append_assoc.
Qed.

Lemma contains_middle pre s post : Str.contains s (pre ++ s ++ post) = true.
Proof. apply contains_iff. now exists pre, post. Qed.

Lemma contains_concat sub part parts :
  In part parts -> Str.contains sub part = true ->
  Str.contains sub (Str.concat parts) = true.
Proof.
  intros Hin Hsub. apply contains_trans with part; [exact Hsub|].
  clear Hsub. induction parts as [|p parts IH]; [contradiction|].
  simpl. destruct Hin as [->|Hin].
  - apply contains_iff. now exists "", (Str.concat parts).
  - apply contains_iff. apply IH, contains_iff in Hin as (pre & post & ->).
    exists (p ++ pre), post. now rewrite append_assoc.
Qed.

Lemma rev_onto_app s acc : Str.rev_onto s acc = Str.rev s ++ acc.
Proof.
  unfold Str.rev. revert acc. induction s as [|c s IH]; intros acc; simpl; [reflexivity|].
  rewrite IH, (IH (String c "")), append_assoc. reflexivity.
Qed.

Lemma rev_cons c s : Str.rev (String c s) = Str.rev s ++ String c "".
Proof. unfold Str.rev at 1. simpl. apply rev_onto_app. Qed.

Lemma rev_app s t : Str.rev (s ++ t) = Str.rev t ++ Str.rev s.
Proof.
  induction s as [|c s IH]; simpl.
  - now rewrite append_nil_r.
  - now rewrite !rev_cons, IH, append_assoc.
Qed.

Lemma rev_involutive s : Str.rev (Str.rev s) = s.
Proof.
  induction s as [|c s IH]; [reflexivity|].
  now rewrite rev_cons, rev_app, IH.
Qed.

(** [lstrip] leaves a suffix of its argument. *)
Lemma lstrip_gen_suffix back s : exists pre, s = pre ++ Str.lstrip_gen back s.
Proof.
  assert (H : forall n s, (String.length s <= n)%nat ->
                          exists pre, s = pre ++ Str.lstrip_gen back s).
  { clear s. induction n as [|n IH]; intros s Hlen.
    - destruct s; [now exists "" | simpl in Hlen; lia].
    - destruct s as [|a s1]; [now exists ""|]. simpl in Hlen.
      cbn [Str.lstrip_gen]. destruct (Str.space1 a).
      + destruct (IH s1) as [pre Hpre]; [lia|].
        exists (String a pre). simpl. now rewrite <- Hpre.
      + destruct s1 as [|b s2]; [now exists ""|]. simpl in Hlen.
        destruct (if back then Str.space2 b a else Str.space2 a b).
        * destruct (IH s2) as [pre Hpre]; [lia|].
          exists (String a (String b pre)). simpl. now rewrite <- Hpre.
        * destruct s2 as [|c s3]; [now exists ""|]. simpl in Hlen.
          destruct (if back then Str.space3 c b a else Str.space3 a b c).
          -- destruct (IH s3) as [pre Hpre]; [lia|].
             exists (String a (String b (String c pre))). simpl. now rewrite <- Hpre.
          -- now exists "". }
  now apply (H (String.length s)).
Qed.

(** [strip] leaves a part of its argument. *)
Lemma strip_infix s : exists pre post, s = pre ++ Str.strip s ++ post.
Proof.
  unfold Str.strip, Str.lstrip, Str.rstrip.
  destruct (lstrip_gen_suffix true (Str.rev s)) as [post Hpost].
  destruct (lstrip_gen_suffix false (Str.rev (Str.lstrip_gen true (Str.rev s))))
    as [pre Hpre].
  exists pre, (Str.rev post).
  rewrite <- append_assoc, <- Hpre, <- rev_app, <- Hpost.
  now rewrite rev_involutive.
Qed.

Lemma contains_strip sub s :
  Str.contains sub (Str.strip s) = true -> Str.contains sub s = true.
Proof.
  intros H. apply contains_trans with (Str.strip s); [exact H|].
  apply contains_iff. apply strip_infix.
Qed.

(** A newline at the end is stripped with the rest. *)
Lemma strip_newline s : Str.strip (s ++ Str.nl) = Str.strip s.
Proof.
  unfold Str.strip, Str.rstrip. now rewrite rev_app.
Qed.

End StrFacts.

(** ** Case mapping *)

Module CaseFacts.
Import Utf8.


Lemma code_range c : 0 <= Str.code c < 256.
Proof.
  unfold Str.code. pose proof (nat_ascii_bounded c). lia.
Qed.

Lemma code_chr z : 0 <= z < 256 -> Str.code (Str.chr z) = z.
Proof.
  intros H. unfold Str.code, Str.chr.
  rewrite nat_ascii_embedding by lia. lia.
Qed.

Lemma chr_code c : Str.chr (Str.code c) = c.
Proof.
  unfold Str.code, Str.chr. rewrite Nat2Z.id. apply ascii_nat_embedding.
Qed.

Lemma codes_cons a s :
  exists x l, Str.codes (String a s) = x :: l
    /\ (if Str.code a <? 128
        then x = (Some (Str.code a), String a "") /\ l = Str.codes s
        else wide x).
Proof.
  pose proof (code_range a) as Ra.
  cbn [Str.codes]. destruct (Str.code a <? 128) eqn:Ea.
  - eexists _, _. split; [reflexivity|]. split; reflexivity.
  - apply Z.ltb_ge in Ea. cbv zeta.
    repeat match goal with
    | |- context [match ?t with EmptyString => _ | String _ _ => _ end] =>
        is_var t; destruct t
    | |- context [if ?b then _ else _] => destruct b eqn:?
    end;
    eexists _, _; (split; [reflexivity|]); cbn [wide]; try exact Ea;
    (split; [|exact Ea]);
    unfold Str.continuation, Str.between, Str.two, Str.three, Str.four in *;
    repeat match goal with
    | H : _ && _ = true |- _ => apply andb_prop in H as [? ?]
    | H : (_ <=? _) = true |- _ => apply Z.leb_le in H
    end;
    repeat match goal with a : ascii |- _ => pose proof (code_range a); revert a end;
    intros; lia.
Qed.

Lemma encode_head z :
  128 <= z <= 1114111 ->
  exists c r, Str.encode z = String c r /\ 128 <= Str.code c.
Proof.
  intros H. unfold Str.encode.
  destruct (z <? 128) eqn:E1; [apply Z.ltb_lt in E1; lia|].
  destruct (z <? 2048) eqn:E2; [|destruct (z <? 65536) eqn:E3];
    eexists _, _; (split; [reflexivity|]);
    try apply Z.ltb_lt in E2; try apply Z.ltb_lt in E3;
    try apply Z.ltb_ge in E2; try apply Z.ltb_ge in E3;
    rewrite code_chr; Z.to_euclidean_division_equations; lia.
Qed.

Lemma moved_ok table cp z :
  forallb move_ok table = true -> Unicode.moved table cp = Some z ->
  first_ok z = true.
Proof.
  induction table as [|[[[lo hi] step] delta] table IH]; [discriminate|].
  cbn [forallb Unicode.moved]. intros H Hm. apply andb_prop in H as [H1 H2].
  destruct ((lo <=? cp) && (cp <=? hi) && ((cp - lo) mod step =? 0)) eqn:E;
    [|now apply IH].
  injection Hm as <-. apply andb_prop in E as [E _].
  apply andb_prop in E as [Ea Eb]. apply Z.leb_le in Ea, Eb.
  unfold move_ok in H1. apply orb_prop in H1 as [H1|H1].
  - apply andb_prop in H1 as [Hc Hd]. apply Z.leb_le in Hc, Hd.
    unfold first_ok. replace (128 <=? cp + delta) with true by (symmetry; apply Z.leb_le; lia).
    replace (cp + delta <=? 1114111) with true by (symmetry; apply Z.leb_le; lia).
    reflexivity.
  - apply andb_prop in H1 as [Hc Hd]. apply Z.eqb_eq in Hc.
    replace cp with lo by lia. exact Hd.
Qed.

Lemma special_first table cp out :
  forallb special_ok table = true -> Unicode.special table cp = Some out ->
  exists z out', out = z :: out' /\ first_ok z = true.
Proof.
  induction table as [|[k v] table IH]; [discriminate|].
  cbn [forallb Unicode.special]. intros H Hm. apply andb_prop in H as [H1 H2].
  destruct (cp =? k); [|now apply IH].
  injection Hm as <-. unfold special_ok in H1. cbn [snd] in H1.
  destruct v as [|z v]; [discriminate|]. now exists z, v.
Qed.

Lemma to_lower_first cp out :
  Unicode.to_lower cp = Some out ->
  exists z out', out = z :: out' /\ first_ok z = true.
Proof.
  unfold Unicode.to_lower, Unicode.form. intros H.
  destruct (Unicode.special Unicode.lower_special cp) as [o|] eqn:E.
  - injection H as <-. eapply special_first; [|exact E]. vm_compute. reflexivity.
  - destruct (Unicode.moved Unicode.lower_ranges cp) as [z|] eqn:Em; [|discriminate].
    injection H as <-. exists z, []. split; [reflexivity|].
    eapply moved_ok; [|exact Em]. vm_compute. reflexivity.
Qed.

Lemma encode_first z :
  first_ok z = true -> exists c r, Str.encode z = String c r /\ high c.
Proof.
  unfold first_ok. intros H. apply orb_prop in H as [H|H];
    [apply orb_prop in H as [H|H]|].
  - apply andb_prop in H as [Ha Hb]. apply Z.leb_le in Ha, Hb.
    destruct (encode_head z ltac:(lia)) as (c & r & E & Hc).
    exists c, r. split; [exact E | now left].
  - apply Z.eqb_eq in H. subst z. eexists _, _. split; [reflexivity|].
    right. now left.
  - apply Z.eqb_eq in H. subst z. eexists _, _. split; [reflexivity|].
    right. now right.
Qed.

Lemma lower_code_wide final x :
  wide x -> exists c out, Str.lower_code final x = String c out /\ high c.
Proof.
  destruct x as [[cp|] [|c bytes]]; cbn [wide]; try contradiction.
  - intros [Hcp Hc]. cbn [Str.lower_code].
    destruct (cp <? 128) eqn:E1; [apply Z.ltb_lt in E1; lia|].
    destruct (cp =? 931).
    + destruct final; eexists _, _; (split; [reflexivity|]); left;
        vm_compute; discriminate.
    + destruct (Unicode.to_lower cp) as [out|] eqn:E.
      * destruct (to_lower_first _ _ E) as (z & out' & -> & Hz).
        destruct (encode_first _ Hz) as (c' & r & Ee & Hh).
        cbn [Str.encode_all fold_right]. rewrite Ee. cbn [append].
        now eexists _, _.
      * exists c, bytes. split; [reflexivity | now left].
  - intros Hc. exists c, bytes. split; [reflexivity | now left].
Qed.

(** The lower-case form of a text begins with an ASCII character other
    than [i] and [k] only where the text begins with that character or its
    capital. *)
Lemma lower_first before a s x w :
  Str.code x < 128 -> Str.code x <> 105 -> Str.code x <> 107 ->
  Str.lower_codes before (Str.codes (String a s)) = String x w ->
  Str.lower_char a = x
  /\ exists before', Str.lower_codes before' (Str.codes s) = w.
Proof.
  intros H1 H2 H3 H. destruct (codes_cons a s) as (y & l & E & Hy).
  rewrite E in H. cbn [Str.lower_codes] in H.
  destruct (Str.code a <? 128) eqn:Ea.
  - destruct Hy as [-> ->]. cbn [Str.lower_code] in H. rewrite Ea, chr_code in H.
    cbn [append] in H. injection H as Hx Hw. split; [exact Hx|].
    eexists. exact Hw.
  - destruct (lower_code_wide (before && negb (Str.letter_follows l)) y Hy)
      as (c & out & Ec & Hc).
    rewrite Ec in H. cbn [append] in H. injection H as -> _.
    unfold high in Hc. lia.
Qed.

Lemma lower_empty before s :
  Str.lower_codes before (Str.codes s) = "" -> s = "".
Proof.
  destruct s as [|a s]; [reflexivity|]. intros H. exfalso.
  destruct (codes_cons a s) as (y & l & E & Hy).
  rewrite E in H. cbn [Str.lower_codes] in H.
  destruct (Str.code a <? 128) eqn:Ea.
  - destruct Hy as [-> ->]. cbn [Str.lower_code] in H. rewrite Ea in H.
    discriminate H.
  - destruct (lower_code_wide (before && negb (Str.letter_follows l)) y Hy)
      as (c & out & Ec & Hc).
    rewrite Ec in H. discriminate H.
Qed.

(** The final sigma, the dotted capital I, a digraph and the sharp s *)
Lemma case_examples :
  Str.lower "ΟΔΟΣ" = "οδος" /\ Str.lower "ΣΑΣ ΣΑΣ." = "σας σας."
  /\ Str.lower "İstanbul" = "i̇stanbul"
  /\ Str.capitalize "ǆungla" = "ǅungla" /\ Str.capitalize "ßen" = "Ssen"
  /\ Str.capitalize "éthiopienne" = "Éthiopienne".
Proof. repeat split; vm_compute; reflexivity. Qed.

End CaseFacts.

(** ** Properties of the prompt builder *)

Module PromptBuilderFacts.
Import PromptBuilder StrFacts CaseFacts.








(** Languages written outside ASCII: "FRANÇAIS" gives "français", and
    "Kannada" written with the Kelvin sign (U+212A) and followed by an
    ideographic space gives the directive of Kannada. *)
Lemma language_outside_ascii :
  _language_instruction (Some "FRANÇAIS") = "français"
  /\ _language_instruction (Some "Kannada　") = _language_instruction (Some "kannada")
  /\ table_get "kannada" script_instructions
     = Some (_language_instruction (Some "Kannada　")).
Proof. repeat split; vm_compute; reflexivity. Qed.

End PromptBuilderFacts.

(** ** Properties of the extraction *)

Module ExtractFacts.
Import Extract StrFacts CaseFacts.

Lemma space1_backtick : Str.space1 "`" = false.
Proof. reflexivity. Qed.

Lemma space2_backtick_l b : Str.space2 "`" b = false.
Proof. reflexivity. Qed.

Lemma space2_backtick_r b : Str.space2 b "`" = false.
Proof.
  unfold Str.space2. change (Str.code "`") with 96.
  change (96 =? 133) with false. change (96 =? 160) with false.
  apply andb_false_r.
Qed.

Lemma space3_backtick_l b c : Str.space3 "`" b c = false.
Proof. reflexivity. Qed.

Lemma space3_backtick_r c b : Str.space3 c b "`" = false.
Proof.
  unfold Str.space3, Str.between. change (Str.code "`") with 96.
  change (96 =? 128) with false. change (128 <=? 96) with false.
  change (96 =? 168) with false. change (96 =? 169) with false.
  change (96 =? 175) with false. change (96 =? 159) with false.
  simpl. now rewrite !andb_false_r.
Qed.

(** A text that begins with a backtick has no white space to strip there. *)
Lemma lstrip_backtick back r :
  Str.lstrip_gen back (String "`" r) = String "`" r.
Proof.
  cbn [Str.lstrip_gen]. rewrite space1_backtick.
  destruct r as [|b r]; [reflexivity|].
  assert (H2 : (if back then Str.space2 b "`" else Str.space2 "`" b) = false).
  { destruct back; [apply space2_backtick_r | apply space2_backtick_l]. }
  rewrite H2. destruct r as [|c r]; [reflexivity|].
  assert (H3 : (if back then Str.space3 c b "`" else Str.space3 "`" b c) = false).
  { destruct back; [apply space3_backtick_r | apply space3_backtick_l]. }
  now rewrite H3.
Qed.

Lemma strip_between_backticks w r1 r2 :
  w = String "`" r1 -> Str.rev w = String "`" r2 -> Str.strip w = w.
Proof.
  intros H1 H2. unfold Str.strip, Str.rstrip, Str.lstrip.
  rewrite H2, lstrip_backtick, <- H2, rev_involutive, H1.
  apply lstrip_backtick.
Qed.

Lemma strip_fenced tag body : Str.strip (fenced tag body) = fenced tag body.
Proof.
  eapply strip_between_backticks.
  - reflexivity.
  - unfold fenced.
    replace (fence ++ tag ++ Str.nl ++ body ++ Str.nl ++ fence)
      with ((fence ++ tag ++ Str.nl ++ body ++ Str.nl) ++ fence)
      by now rewrite !append_assoc.
    rewrite rev_app. reflexivity.
Qed.

Lemma startswith_fence_nl s t :
  Str.startswith fence (s ++ String "010" t) = Str.startswith fence s.
Proof.
  unfold fence.
  destruct s as [|a [|b [|c s]]]; cbn [append Str.startswith];
    rewrite ?andb_false_r; reflexivity.
Qed.

Lemma nl_app t : Str.nl ++ t = String "010" t.
Proof. reflexivity. Qed.

(** Without a fence in [body], the first fence after it is the closing one. *)
Lemma before_closing_fence body :
  Str.contains fence body = false ->
  before_fence (body ++ Str.nl ++ fence) = Some (body ++ Str.nl).
Proof.
  rewrite nl_app.
  induction body as [|c body IH]; intros H; [reflexivity|].
  cbn [Str.contains] in H. apply orb_false_elim in H as [H1 H2].
  pose proof (startswith_fence_nl (String c body) fence) as E.
  cbn [append before_fence] in *. rewrite E, H1, (IH H2). reflexivity.
Qed.

Lemma fence_search_none s : Str.contains fence s = false -> fence_search s = None.
Proof.
  induction s as [|c s IH]; intros H; [reflexivity|].
  cbn [Str.contains] in H. apply orb_false_elim in H as [H1 H2].
  cbn [fence_search]. unfold fence_at. rewrite H1. now apply IH.
Qed.

Lemma lower_j c : Str.lower_char c = "j"%char -> either 106 74 c = true.
Proof.
  destruct c as [[|] [|] [|] [|] [|] [|] [|] [|]]; intros H;
    try reflexivity; vm_compute in H; discriminate H.
Qed.
Lemma lower_s c : Str.lower_char c = "s"%char -> either 115 83 c = true.
Proof.
  destruct c as [[|] [|] [|] [|] [|] [|] [|] [|]]; intros H;
    try reflexivity; vm_compute in H; discriminate H.
Qed.
Lemma lower_o c : Str.lower_char c = "o"%char -> either 111 79 c = true.
Proof.
  destruct c as [[|] [|] [|] [|] [|] [|] [|] [|]]; intros H;
    try reflexivity; vm_compute in H; discriminate H.
Qed.
Lemma lower_n c : Str.lower_char c = "n"%char -> either 110 78 c = true.
Proof.
  destruct c as [[|] [|] [|] [|] [|] [|] [|] [|]]; intros H;
    try reflexivity; vm_compute in H; discriminate H.
Qed.

(** A tag that reads [json] in lower case is matched whole. *)
Lemma after_tag_json tag rest :
  Str.lower tag = "json" -> after_tag (tag ++ rest) = Some rest.
Proof.
  unfold Str.lower. intros H.
  destruct tag as [|c1 tag]; [discriminate H|].
  apply lower_first in H as [H1 [b1 H]]; [|vm_compute; first [reflexivity | discriminate] ..].
  destruct tag as [|c2 tag]; [discriminate H|].
  apply lower_first in H as [H2 [b2 H]]; [|vm_compute; first [reflexivity | discriminate] ..].
  destruct tag as [|c3 tag]; [discriminate H|].
  apply lower_first in H as [H3 [b3 H]]; [|vm_compute; first [reflexivity | discriminate] ..].
  destruct tag as [|c4 tag]; [discriminate H|].
  apply lower_first in H as [H4 [b4 H]]; [|vm_compute; first [reflexivity | discriminate] ..].
  apply lower_empty in H. subst tag. cbn [append after_tag after_on].
  now rewrite (lower_j _ H1), (lower_s _ H2), (lower_o _ H3), (lower_n _ H4).
Qed.

(** Without a fence in [body] and without a backtick at its end, the first
    fence in [body] followed by a fence is that one. *)
Lemma before_tight_fence body :
  Str.contains fence body = false -> ends_with_backtick body = false ->
  before_fence (body ++ fence) = Some body.
Proof.
  induction body as [|c body IH]; intros H He; [reflexivity|].
  cbn [Str.contains] in H. apply orb_false_elim in H as [H1 H2].
  assert (Hs : Str.startswith fence (String c body ++ fence) = false).
  { destruct body as [|d [|e [|f body]]].
    - cbn [append Str.startswith fence ends_with_backtick] in He |- *.
      now rewrite Ascii.eqb_sym, He.
    - cbn [append Str.startswith fence ends_with_backtick] in He |- *.
      rewrite (Ascii.eqb_sym "`" d), He. now destruct (Ascii.eqb "`" c).
    - cbn [append Str.startswith fence ends_with_backtick] in He |- *.
      rewrite (Ascii.eqb_sym "`" e), He.
      now destruct (Ascii.eqb "`" c), (Ascii.eqb "`" d).
    - exact H1. }
  assert (He' : ends_with_backtick body = false).
  { destruct body; [reflexivity | exact He]. }
  cbn [append before_fence] in *. rewrite Hs, (IH H2 He'). reflexivity.
Qed.

Lemma fence_at_after tag text body :
  tag = "" \/ Str.lower tag = "json" ->
  before_fence text = Some body ->
  fence_at (fence ++ tag ++ Str.nl ++ text) = Some body.
Proof.
  intros Htag Hbody. unfold fence_at.
  change (Str.startswith fence (fence ++ ?x)) with true.
  cbn [fence append Str.startswith Str.drop].
  assert (Hb : fence_body (Str.nl ++ text) = Some body) by exact Hbody.
  destruct Htag as [->|Htag].
  - cbn [append]. now rewrite Hb.
  - now rewrite (after_tag_json _ _ Htag), Hb.
Qed.

Lemma fence_search_unfold s :
  fence_search s
  = match fence_at s with
    | Some body => Some body
    | None => match s with EmptyString => None | String _ s' => fence_search s' end
    end.
Proof. destruct s; reflexivity. Qed.

Lemma strip_fenced_tight tag body :
  Str.strip (fenced_tight tag body) = fenced_tight tag body.
Proof.
  eapply strip_between_backticks.
  - reflexivity.
  - unfold fenced_tight.
    replace (fence ++ tag ++ Str.nl ++ body ++ fence)
      with ((fence ++ tag ++ Str.nl ++ body) ++ fence)
      by now rewrite !append_assoc.
    rewrite rev_app. reflexivity.
Qed.

Lemma fence_search_stripped body :
  Str.contains fence body = false -> fence_search (Str.strip body) = None.
Proof.
  intros Hbody. apply fence_search_none.
  destruct (Str.contains fence (Str.strip body)) eqn:E; [|reflexivity].
  apply contains_strip in E. congruence.
Qed.

(** C6, as amended.  A text without a fence in it, wrapped in a fenced
    block (with the tag [json] in any case, or with no tag), is normalized
    as the text itself is; the closing fence may stand on a line of its own
    or, when the text does not end with a backtick, right after the text. *)
Theorem fenced_text_same (tag body : string) :
  tag = "" \/ Str.lower tag = "json" ->
  Str.contains fence body = false ->
  _extract_and_normalize_json (fenced tag body) = _extract_and_normalize_json body
  /\ normalize (fenced tag body) = normalize body
  /\ (ends_with_backtick body = false ->
      _extract_and_normalize_json (fenced_tight tag body)
      = _extract_and_normalize_json body
      /\ normalize (fenced_tight tag body) = normalize body).
Proof.
  intros Htag Hbody.
  pose proof (fence_search_stripped body Hbody) as Hs.
  assert (He : _extract_and_normalize_json (fenced tag body)
               = _extract_and_normalize_json body).
  { unfold _extract_and_normalize_json.
    rewrite strip_fenced, fence_search_unfold. unfold fenced.
    rewrite (fence_at_after tag _ (body ++ Str.nl) Htag)
      by now apply before_closing_fence.
    now rewrite strip_newline, Hs. }
  split; [exact He|]. split; [unfold normalize; now rewrite He|].
  intros Hend.
  assert (Ht : _extract_and_normalize_json (fenced_tight tag body)
               = _extract_and_normalize_json body).
  { unfold _extract_and_normalize_json.
    rewrite strip_fenced_tight, fence_search_unfold. unfold fenced_tight.
    rewrite (fence_at_after tag _ body Htag) by now apply before_tight_fence.
    now rewrite Hs. }
  split; [exact Ht|]. unfold normalize. now rewrite Ht.
Qed.

Lemma fenced_text_same_witness :
  normalize (fenced "json" dal_text) = normalize dal_text
  /\ normalize (fenced_tight "JSON" dal_text) = normalize dal_text.
Proof.
  split.
  - exact (proj1 (proj2 (fenced_text_same "json" dal_text (or_intror eq_refl) eq_refl))).
  - exact (proj2 (proj2 (proj2 (fenced_text_same "JSON" dal_text (or_intror eq_refl)
                                  eq_refl)) eq_refl)).
Defined.

(** C6 fails as stated: the object with the title [a```b] is valid JSON and
    is normalized to a recipe, and inside a fenced block it is cut at the
    fence in the title and no longer parses. *)
Lemma fence_in_title_differs :
  Json.loads fence_in_title = Ok (PDict [("title", PStr "a```b")])
  /\ (exists r, normalize fence_in_title = Ok r
                /\ Py.lookup "title" r = Some (PStr "a```b"))
  /\ normalize (fenced "json" fence_in_title) = Raise JSONDecodeError.
Proof.
  split; [|split].
  - vm_compute. reflexivity.
  - eexists. split; vm_compute; reflexivity.
  - vm_compute. reflexivity.
Qed.

(** The answer "Sure! Here's the recipe: {...}" of the specification: the
    object at the end is extracted and coerced. *)
Example prose_before_object :
  normalize
    ("Sure! Here's the recipe: {" ++ quoted "title" ++ ":" ++ quoted "Dal" ++ ","
       ++ quoted "servings" ++ ":2," ++ quoted "ingredients" ++ ":[{" ++ quoted "name"
       ++ ":" ++ quoted "lentils" ++ "}]," ++ quoted "steps" ++ ":[" ++ quoted "boil"
       ++ "," ++ quoted "serve" ++ "]}")
  = Ok [("title", PStr "Dal");
        ("cuisine", PNone);
        ("servings", PInt 2);
        ("total_time_minutes", PNone);
        ("ingredients", PList [PDict [("name", PStr "lentils"); ("quantity", PNone)]]);
        ("steps", PList [PDict [("number", PInt 1); ("instruction", PStr "boil")];
                         PDict [("number", PInt 2); ("instruction", PStr "serve")]]);
        ("nutrition", PNone);
        ("tips", PNone)].
Proof. vm_compute. reflexivity. Qed.

(** C3 on the code: a JSON object is found and parsed, and the coercion
    raises [ValueError] at [int(number)] for the step number "one". *)
Theorem spelled_number_raises :
  _extract_and_normalize_json spelled_number
  = Ok (PDict [("title", PStr "Dal");
               ("steps", PList [PDict [("number", PStr "one");
                                       ("instruction", PStr "boil")]])])
  /\ normalize spelled_number = Raise ValueError.
Proof. split; vm_compute; reflexivity. Qed.

End ExtractFacts.

(** ** Properties of the JSON scanner *)

Module JsonFacts.
Import Json.
Local Open Scope nat_scope.

Lemma skip_ws_length s : String.length (skip_ws s) <= String.length s.
Proof.
  induction s as [|c s IH]; simpl; [lia|].
  destruct (is_ws c); simpl; lia.
Qed.

Lemma head_is_length n s r :
  head_is n s = Some r -> String.length s = S (String.length r).
Proof.
  destruct s as [|c s]; simpl; [discriminate|].
  destruct (Str.code c =? n)%Z; [now intros [= ->] | discriminate].
Qed.

Lemma add_item_some i r items rest :
  add_item i r = Some (items, rest) ->
  exists items', r = Some (items', rest).
Proof.
  destruct r as [[items' rest']|]; simpl; [|discriminate].
  intros [= <- <-]. now exists items'.
Qed.

Lemma scan_string_length s items rest :
  scan_string s = Some (items, rest) -> String.length rest < String.length s.
Proof.
  assert (H : forall n s items rest, String.length s <= n ->
              scan_string s = Some (items, rest) ->
              String.length rest < String.length s).
  { clear. induction n as [|n IH]; intros s items rest Hlen.
    - destruct s; [discriminate | simpl in Hlen; lia].
    - destruct s as [|c r]; [discriminate|]. simpl in Hlen. cbn [scan_string].
      destruct (Str.code c =? 34)%Z; [intros [= <- <-]; simpl; lia|].
      destruct (Str.code c =? 92)%Z.
      + destruct r as [|e r1]; [discriminate|]. simpl in Hlen.
        destruct (simple_escape e).
        * intros H. apply add_item_some in H as [items' H].
          apply IH in H; simpl; lia.
        * destruct (Str.code e =? 117)%Z; [|discriminate].
          destruct r1 as [|h1 [|h2 [|h3 [|h4 r2]]]]; try discriminate.
          simpl in Hlen.
          destruct (hex4 h1 h2 h3 h4); [|discriminate].
          intros H. apply add_item_some in H as [items' H].
          apply IH in H; simpl; lia.
      + destruct (Str.code c <? 32)%Z; [discriminate|].
        intros H. apply add_item_some in H as [items' H].
        apply IH in H; simpl; lia. }
  now apply (H (String.length s)).
Qed.

Lemma digits_length s : forall acc n,
  String.length (snd (digits acc n s)) <= String.length s.
Proof.
  induction s as [|c s IH]; intros acc n; simpl; [lia|].
  destruct (Str.is_digit c); [|simpl; lia].
  etransitivity; [apply IH | lia].
Qed.

Lemma integer_part_length s v rest :
  integer_part s = Some (v, rest) -> String.length rest < String.length s.
Proof.
  destruct s as [|c s]; [discriminate|]. unfold integer_part.
  destruct (Str.code c =? 48)%Z; [intros [= <- <-]; simpl; lia|].
  destruct (Str.is_digit c) eqn:E; [|discriminate].
  cbn [digits]. rewrite E.
  pose proof (digits_length s (10 * 0 + (Str.code c - 48))%Z (0 + 1)%Z) as H.
  destruct (digits _ _ s) as [[v' k] rest']. simpl in H.
  intros [= <- <-]. simpl. lia.
Qed.

Lemma fraction_part_length s v n rest :
  fraction_part s = Some (v, n, rest) -> String.length rest <= String.length s.
Proof.
  unfold fraction_part. destruct (head_is 46 s) as [s'|] eqn:E; [|discriminate].
  apply head_is_length in E.
  pose proof (digits_length s' 0%Z 0%Z) as H.
  destruct (digits 0 0 s') as [[v' k] rest']. simpl in H.
  destruct (k =? 0)%Z; [discriminate|]. intros [= <- <- <-]. lia.
Qed.

Lemma exponent_part_length s v rest :
  exponent_part s = Some (v, rest) -> String.length rest <= String.length s.
Proof.
  destruct s as [|c s']; [discriminate|]. unfold exponent_part.
  destruct ((Str.code c =? 101)%Z || (Str.code c =? 69)%Z); [|discriminate].
  assert (Hs : forall neg s'',
             (match head_is 45 s', head_is 43 s' with
              | Some r, _ => (true, r)
              | None, Some r => (false, r)
              | None, None => (false, s')
              end) = (neg, s'') -> String.length s'' <= String.length s').
  { intros neg s''. destruct (head_is 45 s') as [r|] eqn:E1.
    - apply head_is_length in E1. intros [= <- <-]. lia.
    - destruct (head_is 43 s') as [r|] eqn:E2.
      + apply head_is_length in E2. intros [= <- <-]. lia.
      + intros [= <- <-]. lia. }
  destruct (match head_is 45 s', head_is 43 s' with
            | Some r, _ => (true, r)
            | None, Some r => (false, r)
            | None, None => (false, s')
            end) as [neg s''] eqn:E.
  specialize (Hs neg s'' eq_refl).
  pose proof (digits_length s'' 0%Z 0%Z) as H.
  destruct (digits 0 0 s'') as [[v' k] rest']. simpl in H.
  destruct (k =? 0)%Z; [discriminate|]. intros [= <- <-]. simpl. lia.
Qed.

Lemma scan_number_shorter s : shorter s (scan_number s).
Proof.
  unfold scan_number.
  assert (Hs : forall neg s1,
             (match head_is 45 s with Some r => (true, r) | None => (false, s) end)
             = (neg, s1) -> String.length s1 <= String.length s).
  { intros neg s1. destruct (head_is 45 s) as [r|] eqn:E.
    - apply head_is_length in E. intros [= <- <-]. lia.
    - intros [= <- <-]. lia. }
  destruct (match head_is 45 s with Some r => (true, r) | None => (false, s) end)
    as [neg s1] eqn:E.
  specialize (Hs neg s1 eq_refl).
  destruct (integer_part s1) as [[i s2]|] eqn:Ei; [|exact I].
  apply integer_part_length in Ei.
  destruct (fraction_part s2) as [[[f fn] s3]|] eqn:Ef.
  - apply fraction_part_length in Ef.
    destruct (exponent_part s3) as [[e s4]|] eqn:Ee.
    + apply exponent_part_length in Ee. simpl. lia.
    + simpl. lia.
  - destruct (exponent_part s2) as [[e s4]|] eqn:Ee.
    + apply exponent_part_length in Ee. simpl. lia.
    + simpl. lia.
Qed.

Lemma startswith_length p s :
  Str.startswith p s = true -> String.length p <= String.length s.
Proof.
  revert s. induction p as [|a p IH]; intros s; simpl; [lia|].
  destruct s as [|b s]; [discriminate|].
  intros H. apply andb_true_iff in H as [_ H]. apply IH in H. simpl. lia.
Qed.

Lemma drop_length k s : String.length (Str.drop k s) = String.length s - k.
Proof.
  revert s. induction k as [|k IH]; intros s; simpl; [lia|].
  destruct s as [|c s]; simpl; [reflexivity | apply IH].
Qed.

Lemma literal_shorter word v s :
  word <> "" -> shorter s (literal word v s).
Proof.
  intros Hw. unfold literal. destruct (Str.startswith word s) eqn:E; [|exact I].
  apply startswith_length in E. simpl. rewrite drop_length.
  destruct word; [congruence | simpl in *; lia].
Qed.

Ltac head_case H :=
  match goal with
  | |- context [head_is ?n ?s] =>
      let r := fresh "r" in
      destruct (head_is n s) as [r|] eqn:H; [apply head_is_length in H|]
  end.

Lemma scan_shorter fuel :
  (forall s, shorter s (scan_once fuel s))
  /\ (forall s acc, shorter s (scan_elements fuel s acc))
  /\ (forall s acc, shorter s (scan_members fuel s acc)).
Proof.
  induction fuel as [|fuel (IHo & IHe & IHm)]; [repeat split; intros; exact I|].
  split; [|split].
  - intros s. destruct s as [|c r]; [exact I|]. cbn [scan_once].
    destruct (Str.code c =? 34)%Z.
    { destruct (scan_string r) as [[items rest]|] eqn:E; [|exact I].
      apply scan_string_length in E. simpl. lia. }
    pose proof (skip_ws_length r) as Hr.
    destruct (Str.code c =? 123)%Z.
    { head_case E; [simpl; lia|].
      specialize (IHm (skip_ws r) []).
      destruct (scan_members fuel (skip_ws r) []); simpl in *; try exact I. lia. }
    destruct (Str.code c =? 91)%Z.
    { head_case E; [simpl; lia|].
      specialize (IHe (skip_ws r) []).
      destruct (scan_elements fuel (skip_ws r) []); simpl in *; try exact I. lia. }
    repeat match goal with
           | |- context [if ?b then _ else _] =>
               destruct b; [apply literal_shorter; discriminate|]
           end.
    apply scan_number_shorter.
  - intros s acc. cbn [scan_elements].
    specialize (IHo s). destruct (scan_once fuel s) as [v r1| |]; try exact I.
    simpl in IHo. pose proof (skip_ws_length r1) as Hr.
    head_case E1; [simpl; lia|].
    head_case E2; [|exact I].
    pose proof (skip_ws_length r) as Hr2.
    specialize (IHe (skip_ws r) (v :: acc)).
    destruct (scan_elements fuel (skip_ws r) (v :: acc)); simpl in *; try exact I. lia.
  - intros s acc. cbn [scan_members].
    head_case E0; [|exact I].
    destruct (scan_string r) as [[key r1]|] eqn:Ek; [|exact I].
    apply scan_string_length in Ek. pose proof (skip_ws_length r1) as Hr1.
    head_case E1; [|exact I].
    pose proof (skip_ws_length r0) as Hr0.
    specialize (IHo (skip_ws r0)).
    destruct (scan_once fuel (skip_ws r0)) as [v r3| |]; try exact I.
    simpl in IHo. pose proof (skip_ws_length r3) as Hr3.
    cbv zeta.
    head_case E2; [simpl; lia|].
    head_case E3; [|exact I].
    pose proof (skip_ws_length r2) as Hr2.
    specialize (IHm (skip_ws r2) (dict_set acc (encode key) v)).
    destruct (scan_members fuel (skip_ws r2) _); simpl in *; try exact I. lia.
Qed.

Lemma scan_number_alive s : scan_number s <> Exhausted.
Proof.
  unfold scan_number.
  destruct (match head_is 45 s with Some r => (true, r) | None => (false, s) end)
    as [neg s1].
  destruct (integer_part s1) as [[i s2]|]; [|discriminate].
  destruct (fraction_part s2) as [[[f fn] s3]|];
    [destruct (exponent_part s3) as [[e s4]|] | destruct (exponent_part s2) as [[e s4]|]];
    simpl; try discriminate;
    match goal with |- context [if ?b then _ else _] => destruct b end; discriminate.
Qed.

Lemma literal_alive word v s : literal word v s <> Exhausted.
Proof. unfold literal. destruct (Str.startswith word s); discriminate. Qed.

(** With two units of fuel for every character, and one or two more, the
    scanner is never cut short. *)
Lemma scan_alive fuel :
  (forall s, 2 * String.length s + 1 <= fuel -> scan_once fuel s <> Exhausted)
  /\ (forall s acc, 2 * String.length s + 2 <= fuel ->
                    scan_elements fuel s acc <> Exhausted)
  /\ (forall s acc, 2 * String.length s + 2 <= fuel ->
                    scan_members fuel s acc <> Exhausted).
Proof.
  induction fuel as [|fuel (IHo & IHe & IHm)]; [repeat split; intros; lia|].
  split; [|split].
  - intros s Hf. destruct s as [|c r]; [discriminate|]. simpl in Hf. cbn [scan_once].
    destruct (Str.code c =? 34)%Z.
    { destruct (scan_string r) as [[items rest]|]; discriminate. }
    pose proof (skip_ws_length r) as Hr.
    destruct (Str.code c =? 123)%Z.
    { head_case E; [discriminate|]. apply IHm. lia. }
    destruct (Str.code c =? 91)%Z.
    { head_case E; [discriminate|]. apply IHe. lia. }
    repeat match goal with
           | |- context [if ?b then _ else _] =>
               destruct b; [apply literal_alive|]
           end.
    apply scan_number_alive.
  - intros s acc Hf. cbn [scan_elements].
    pose proof (proj1 (scan_shorter fuel) s) as Hs.
    specialize (IHo s). destruct (scan_once fuel s) as [v r1| |];
      [|discriminate | exfalso; apply IHo; [lia | reflexivity]].
    simpl in Hs. pose proof (skip_ws_length r1) as Hr.
    head_case E1; [discriminate|].
    head_case E2; [|discriminate].
    pose proof (skip_ws_length r) as Hr2.
    apply IHe. lia.
  - intros s acc Hf. cbn [scan_members].
    head_case E0; [|discriminate].
    destruct (scan_string r) as [[key r1]|] eqn:Ek; [|discriminate].
    apply scan_string_length in Ek. pose proof (skip_ws_length r1) as Hr1.
    head_case E1; [|discriminate].
    pose proof (skip_ws_length r0) as Hr0.
    pose proof (proj1 (scan_shorter fuel) (skip_ws r0)) as Hs.
    specialize (IHo (skip_ws r0)).
    destruct (scan_once fuel (skip_ws r0)) as [v r3| |];
      [|discriminate | exfalso; apply IHo; [lia | reflexivity]].
    simpl in Hs. pose proof (skip_ws_length r3) as Hr3.
    cbv zeta.
    head_case E2; [discriminate|].
    head_case E3; [|discriminate].
    pose proof (skip_ws_length r2) as Hr2.
    apply IHm. lia.
Qed.

(** [loads] always comes to an answer: the fuel it gives is enough. *)
Theorem loads_total s : loads_with (fuel_for s) s <> None.
Proof.
  unfold loads_with, fuel_for.
  destruct (Str.startswith (utf8 65279) s); [discriminate|].
  pose proof (skip_ws_length s) as Hs.
  pose proof (proj1 (scan_alive (2 * String.length s + 2)) (skip_ws s)) as H.
  destruct (scan_once (2 * String.length s + 2) (skip_ws s)) as [v rest| |].
  - destruct (skip_ws rest); discriminate.
  - discriminate.
  - exfalso. apply H; [lia | reflexivity].
Qed.

(** [loads s] is the answer of the scanner. *)
Corollary loads_answer s : loads_with (fuel_for s) s = Some (loads s).
Proof.
  unfold loads. pose proof (loads_total s) as H.
  destruct (loads_with (fuel_for s) s); [reflexivity | contradiction].
Qed.

End JsonFacts.

(** ** Properties of [strip] and of case mapping *)

Module StripFacts.
Import Whitespace StrFacts.

Lemma clear_head_fixed back s : clear_head back s -> Str.lstrip_gen back s = s.
Proof.
  destruct s as [|a [|b [|c s]]]; cbn [clear_head Str.lstrip_gen].
  - reflexivity.
  - now intros [-> _].
  - now intros [-> [-> _]].
  - now intros [-> [-> ->]].
Qed.

(** What [lstrip] leaves has no white space at its head. *)
Lemma lstrip_gen_clear back s : clear_head back (Str.lstrip_gen back s).
Proof.
  assert (H : forall n s, (String.length s <= n)%nat ->
                          clear_head back (Str.lstrip_gen back s)).
  { clear s. induction n as [|n IH]; intros s Hlen.
    - destruct s; [exact I | simpl in Hlen; lia].
    - destruct s as [|a s1]; [exact I|]. simpl in Hlen.
      cbn [Str.lstrip_gen]. destruct (Str.space1 a) eqn:E1; [apply IH; lia|].
      destruct s1 as [|b s2]; [now split|]. simpl in Hlen.
      destruct (if back then Str.space2 b a else Str.space2 a b) eqn:E2; [apply IH; lia|].
      destruct s2 as [|c s3]; [now repeat split|]. simpl in Hlen.
      destruct (if back then Str.space3 c b a else Str.space3 a b c) eqn:E3;
        [apply IH; lia|].
      now repeat split. }
  now apply (H (String.length s)).
Qed.

(** A text that begins a text with a clear head has a clear head. *)
Lemma clear_head_prefix back u v : clear_head back (u ++ v) -> clear_head back u.
Proof.
  destruct u as [|a [|b [|c u]]]; cbn [append clear_head]; tauto.
Qed.

Lemma lstrip_idempotent back s :
  Str.lstrip_gen back (Str.lstrip_gen back s) = Str.lstrip_gen back s.
Proof. apply clear_head_fixed, lstrip_gen_clear. Qed.

(** [s.strip().strip() == s.strip()] *)
Lemma strip_idempotent s : Str.strip (Str.strip s) = Str.strip s.
Proof.
  unfold Str.strip, Str.lstrip, Str.rstrip.
  set (x := Str.rev (Str.lstrip_gen true (Str.rev s))).
  destruct (lstrip_gen_suffix false x) as [p Hp].
  assert (Hx : clear_head true (Str.rev x)).
  { unfold x. rewrite rev_involutive. apply lstrip_gen_clear. }
  assert (Hy : clear_head true (Str.rev (Str.lstrip_gen false x))).
  { apply clear_head_prefix with (Str.rev p). rewrite <- rev_app, <- Hp. exact Hx. }
  rewrite (clear_head_fixed true _ Hy), rev_involutive.
  apply lstrip_idempotent.
Qed.


(** A one-character text is in [a ++ b] when it is in [a] or in [b]. *)
Lemma contains_char_app c a b :
  Str.contains (String c "") (a ++ b)
  = Str.contains (String c "") a || Str.contains (String c "") b.
Proof.
  induction a as [|x a IH].
  - simpl. destruct b; simpl; now rewrite ?andb_false_r.
  - cbn [append Str.contains Str.startswith]. rewrite IH.
    destruct (Ascii.eqb c x); simpl; [reflexivity|].
    reflexivity.
Qed.

Lemma contains_char_rev c s :
  Str.contains (String c "") (Str.rev s) = Str.contains (String c "") s.
Proof.
  induction s as [|x s IH]; [reflexivity|].
  rewrite rev_cons, contains_char_app, IH.
  cbn [Str.contains Str.startswith]. 
  destruct (Ascii.eqb c x); simpl; now rewrite ?orb_true_r, ?orb_false_r.
Qed.

(** *** Bytes that are no part of white space: the printable ASCII *)

Lemma space1_plain c : 33 <= Str.code c < 128 -> Str.space1 c = false.
Proof.
  intros H. unfold Str.space1, Str.between.
  replace (Str.code c <=? 13) with false by (symmetry; apply Z.leb_gt; lia).
  replace (Str.code c <=? 32) with false by (symmetry; apply Z.leb_gt; lia).
  now rewrite !andb_false_r.
Qed.

Lemma eqb_plain c k : 33 <= Str.code c < 128 -> 128 <= k -> (Str.code c =? k) = false.
Proof. intros H Hk. apply Z.eqb_neq. lia. Qed.

Lemma space2_plain_l a b : 33 <= Str.code a < 128 -> Str.space2 a b = false.
Proof. intros H. unfold Str.space2. rewrite (eqb_plain a 194 H); [reflexivity | lia]. Qed.

Lemma space2_plain_r a b : 33 <= Str.code b < 128 -> Str.space2 a b = false.
Proof.
  intros H. unfold Str.space2.
  rewrite (eqb_plain b 133 H), (eqb_plain b 160 H) by lia. apply andb_false_r.
Qed.

Lemma space3_plain_l a b c : 33 <= Str.code a < 128 -> Str.space3 a b c = false.
Proof.
  intros H. unfold Str.space3.
  rewrite (eqb_plain a 225 H), (eqb_plain a 226 H), (eqb_plain a 227 H) by lia. reflexivity.
Qed.

Lemma space3_plain_m a b c : 33 <= Str.code b < 128 -> Str.space3 a b c = false.
Proof.
  intros H. unfold Str.space3.
  rewrite (eqb_plain b 154 H), (eqb_plain b 128 H), (eqb_plain b 129 H) by lia.
  now rewrite !andb_false_r.
Qed.

Lemma space3_plain_r a b c : 33 <= Str.code c < 128 -> Str.space3 a b c = false.
Proof.
  intros H. unfold Str.space3, Str.between.
  rewrite (eqb_plain c 128 H), (eqb_plain c 168 H), (eqb_plain c 169 H), (eqb_plain c 175 H),
    (eqb_plain c 159 H) by lia.
  replace (128 <=? Str.code c) with false by (symmetry; apply Z.leb_gt; lia).
  now rewrite !andb_false_r.
Qed.


(** A text that begins with such a byte has no white space to strip there. *)
Lemma lstrip_plain back c r :
  33 <= Str.code c < 128 -> Str.lstrip_gen back (String c r) = String c r.
Proof.
  intros H. cbn [Str.lstrip_gen]. rewrite (space1_plain c H).
  destruct r as [|b r]; [reflexivity|].
  assert (H2 : (if back then Str.space2 b c else Str.space2 c b) = false).
  { destruct back; [now apply space2_plain_r | now apply space2_plain_l]. }
  rewrite H2. destruct r as [|d r]; [reflexivity|].
  assert (H3 : (if back then Str.space3 d b c else Str.space3 c b d) = false).
  { destruct back; [now apply space3_plain_r | now apply space3_plain_l]. }
  now rewrite H3.
Qed.

(** White space is stripped from a text up to a byte of that kind at the
    latest. *)
Lemma lstrip_before_plain back c r : 33 <= Str.code c < 128 ->
  forall prose, exists skipped kept,
    prose = skipped ++ kept
    /\ Str.lstrip_gen back (prose ++ String c r) = kept ++ String c r.
Proof.
  intros Hc.
  assert (H : forall n prose, (String.length prose <= n)%nat ->
            exists skipped kept,
              prose = skipped ++ kept
              /\ Str.lstrip_gen back (prose ++ String c r) = kept ++ String c r).
  { induction n as [|n IH]; intros prose Hlen.
    - destruct prose; [|simpl in Hlen; lia].
      exists "", "". split; [reflexivity|]. now apply lstrip_plain.
    - destruct prose as [|a p1].
      { exists "", "". split; [reflexivity|]. now apply lstrip_plain. }
      simpl in Hlen. cbn [append Str.lstrip_gen].
      destruct (Str.space1 a).
      { destruct (IH p1) as (sk & kept & Hp & Hl); [lia|].
        exists (String a sk), kept. split; [simpl; now rewrite <- Hp | exact Hl]. }
      destruct p1 as [|b p2].
      { cbn [append].
        assert (E2 : (if back then Str.space2 c a else Str.space2 a c) = false).
        { destruct back; [now apply space2_plain_l | now apply space2_plain_r]. }
        rewrite E2. exists "", (String a ""). split; [reflexivity|].
        destruct r as [|d r]; [reflexivity|].
        assert (E3 : (if back then Str.space3 d c a else Str.space3 a c d) = false).
        { destruct back; now apply space3_plain_m. }
        now rewrite E3. }
      simpl in Hlen. cbn [append].
      destruct (if back then Str.space2 b a else Str.space2 a b).
      { destruct (IH p2) as (sk & kept & Hp & Hl); [lia|].
        exists (String a (String b sk)), kept.
        split; [simpl; now rewrite <- Hp | exact Hl]. }
      destruct p2 as [|d p3].
      { cbn [append].
        assert (E3 : (if back then Str.space3 c b a else Str.space3 a b c) = false).
        { destruct back; [now apply space3_plain_l | now apply space3_plain_r]. }
        rewrite E3. now exists "", (String a (String b "")). }
      simpl in Hlen. cbn [append].
      destruct (if back then Str.space3 d b a else Str.space3 a b d).
      { destruct (IH p3) as (sk & kept & Hp & Hl); [lia|].
        exists (String a (String b (String d sk))), kept.
        split; [simpl; now rewrite <- Hp | exact Hl]. }
      now exists "", (String a (String b (String d p3))). }
  intros prose. now apply (H (String.length prose)).
Qed.

End StripFacts.

(** ** Further properties of the coercion *)

Module CoercionFacts.
Import Normalizer NormalizerFacts StrFacts StripFacts Coerced.

Lemma truthy_raw_title data : Py.truthy (raw_title data) = true.
Proof. unfold raw_title. rewrite !truthy_or. apply orb_true_r. Qed.

Lemma with_alt_truthy raw alt t :
  Py.truthy raw = true -> with_alt raw alt = Ok t -> Py.truthy t = true.
Proof.
  intros Hraw. unfold with_alt. destruct alt as [a|]; [|now intros [= <-]].
  destruct (Str.is_empty a); [now intros [= <-]|].
  destruct (Py.contains a raw) as [found|e]; simpl; [|discriminate].
  destruct found; intros [= <-]; [exact Hraw|].
  apply truthy_nonempty, app_nonempty_r. discriminate.
Qed.

Lemma with_cuisine_truthy t c :
  Py.truthy t = true -> Py.truthy (with_cuisine t c) = true.
Proof.
  intros Ht. unfold with_cuisine. destruct (Py.truthy c); [|exact Ht].
  destruct (Str.is_empty _); [exact Ht|].
  apply truthy_nonempty, app_nonempty_r. discriminate.
Qed.

Lemma display_title_truthy data t :
  display_title data = Ok t -> Py.truthy t = true.
Proof.
  unfold display_title.
  destruct (with_alt (raw_title data) (find_alt data alt_keys)) as [t0|e] eqn:E;
    simpl; [|discriminate].
  intros [= <-]. apply with_cuisine_truthy.
  eapply with_alt_truthy; [apply truthy_raw_title | exact E].
Qed.

Lemma coerce_dict_parts data r :
  coerce_dict data = Ok r ->
  exists title sts,
    display_title data = Ok title /\ steps data = Ok sts
    /\ r = [("title", title);
            ("cuisine", Py.get data "cuisine");
            ("servings", servings data);
            ("total_time_minutes", total_time_minutes data);
            ("ingredients", PList (ingredients data));
            ("steps", PList sts);
            ("nutrition", Py.get data "nutrition");
            ("tips", Py.get data "tips")].
Proof.
  unfold coerce_dict. destruct (display_title data) as [title|e]; simpl; [|discriminate].
  destruct (steps data) as [sts|e]; simpl; [|discriminate].
  intros [= <-]. now exists title, sts.
Qed.

Lemma ingredients_shape data : Forall ingredient_shape (ingredients data).
Proof.
  assert (Hd : ingredient_shape default_ingredient).
  { exists (PStr "salt"), (PStr "to taste"). now split. }
  assert (Hn : Forall ingredient_shape (norm_ings data)).
  { unfold norm_ings. destruct (source_ingredients data); try constructor.
    apply Forall_forall. intros e He. apply in_flat_map in He as (item & _ & He).
    unfold coerce_ingredient in He.
    destruct (Py.truthy (ingredient_name item)) eqn:E; [|contradiction].
    destruct He as [<-|[]]. now exists (ingredient_name item), (ingredient_quantity item). }
  unfold ingredients. destruct (norm_ings data); [now constructor | exact Hn].
Qed.

Lemma coerce_step_shape idx s out :
  coerce_step idx s = Ok out -> Forall step_shape out.
Proof.
  unfold coerce_step. destruct (Py.truthy (step_instruction s)) eqn:E.
  - destruct (Py.int (step_number idx s)) as [n|e]; simpl; [|discriminate].
    intros [= <-]. constructor; [|constructor]. now exists n, (step_instruction s).
  - intros [= <-]. constructor.
Qed.

Lemma coerce_step_list_shape l : forall idx out,
  coerce_step_list idx l = Ok out -> Forall step_shape out.
Proof.
  induction l as [|s l IH]; intros idx out; simpl.
  - intros [= <-]. constructor.
  - destruct (coerce_step idx s) as [here|e] eqn:E; simpl; [|discriminate].
    destruct (coerce_step_list (idx + 1) l) as [rest|e] eqn:El; simpl; [|discriminate].
    intros [= <-]. apply Forall_app. split.
    + now apply coerce_step_shape in E.
    + now apply IH in El.
Qed.

Lemma sentences_nonempty s : Forall (fun p => p <> "") (sentences s).
Proof.
  unfold sentences. apply Forall_forall. intros p Hp.
  apply in_map_iff in Hp as (q & <- & Hq). apply filter_In in Hq as [_ Hq].
  destruct (Str.strip q); [discriminate | discriminate].
Qed.

Lemma number_sentences_shape parts : forall idx,
  Forall (fun p => p <> "") parts -> Forall step_shape (number_sentences idx parts).
Proof.
  induction parts as [|p parts IH]; intros idx Hp; simpl; [constructor|].
  inversion Hp as [|? ? Hp1 Hp2]; subst. constructor; [|now apply IH].
  exists idx, (PStr p). split; [reflexivity | now apply truthy_nonempty].
Qed.

Lemma steps_shape data sts : steps data = Ok sts -> Forall step_shape sts.
Proof.
  assert (Hd : step_shape default_step).
  { exists 1, (PStr "Mix ingredients and cook until done."). now split. }
  unfold steps. destruct (norm_steps data) as [l|e] eqn:E; simpl; [|discriminate].
  intros [= <-].
  assert (Hl : Forall step_shape l).
  { unfold norm_steps in E. destruct (source_steps data); try (injection E as <-; constructor).
    - destruct (Str.is_empty (Str.strip s)); injection E as <-; [constructor|].
      apply number_sentences_shape, sentences_nonempty.
    - now apply coerce_step_list_shape in E. }
  destruct l; [now constructor | exact Hl].
Qed.

(** X1.  Whatever dictionary comes in, a coerced dictionary has the eight
    fields of [Recipe] in their order; the title is present; cuisine,
    nutrition and tips are the values of the source; servings is an integer;
    the total time is [None] or an integer other than 0; every ingredient is
    a [{name, quantity}] pair with a name that is present, and every step a
    [{number, instruction}] pair with an integer number and an instruction
    that is present. *)
Theorem coerced_shape (data r : pydict) :
  _coerce_recipe_dict (PDict data) = Ok r ->
  map fst r = ["title"; "cuisine"; "servings"; "total_time_minutes";
               "ingredients"; "steps"; "nutrition"; "tips"]
  /\ Py.truthy (Py.get r "title") = true
  /\ Py.get r "cuisine" = Py.get data "cuisine"
  /\ Py.get r "nutrition" = Py.get data "nutrition"
  /\ Py.get r "tips" = Py.get data "tips"
  /\ (exists s, Py.get r "servings" = PInt s)
  /\ (Py.get r "total_time_minutes" = PNone
      \/ exists t, t <> 0 /\ Py.get r "total_time_minutes" = PInt t)
  /\ (exists ings, Py.get r "ingredients" = PList ings /\ Forall ingredient_shape ings)
  /\ (exists sts, Py.get r "steps" = PList sts /\ Forall step_shape sts).
Proof.
  intros Hr. simpl in Hr. apply coerce_dict_parts in Hr as (title & sts & Ht & Hs & ->).
  split; [reflexivity|]. split; [exact (display_title_truthy _ _ Ht)|].
  repeat (split; [reflexivity|]).
  split; [eexists; reflexivity|]. split.
  - cbn. unfold total_time_minutes.
    destruct (_ =? 0) eqn:E; [now left|]. right. eexists. split; [|reflexivity].
    now apply Z.eqb_neq.
  - split.
    + exists (ingredients data). split; [reflexivity | apply ingredients_shape].
    + exists sts. split; [reflexivity | now apply (steps_shape data)].
Qed.

Lemma coerced_shape_witness :
  map fst timed_out = ["title"; "cuisine"; "servings"; "total_time_minutes";
                       "ingredients"; "steps"; "nutrition"; "tips"]
  /\ Py.truthy (Py.get timed_out "title") = true
  /\ Py.get timed_out "cuisine" = Py.get timed "cuisine"
  /\ Py.get timed_out "nutrition" = Py.get timed "nutrition"
  /\ Py.get timed_out "tips" = Py.get timed "tips"
  /\ (exists s, Py.get timed_out "servings" = PInt s)
  /\ (Py.get timed_out "total_time_minutes" = PNone
      \/ exists t, t <> 0 /\ Py.get timed_out "total_time_minutes" = PInt t)
  /\ (exists ings, Py.get timed_out "ingredients" = PList ings
                   /\ Forall ingredient_shape ings)
  /\ (exists sts, Py.get timed_out "steps" = PList sts /\ Forall step_shape sts).
Proof. apply (coerced_shape timed timed_out). reflexivity. Defined.


Lemma plain_instruction s : plain s = true -> step_instruction s = PStr (Py.str s).
Proof. destruct s; try reflexivity. discriminate. Qed.

Lemma plain_number idx s : plain s = true -> step_number idx s = PInt idx.
Proof. destruct s; try reflexivity. discriminate. Qed.

Lemma is_str_empty v : Py.is_str "" v = Str.is_empty (Py.str v).
Proof.
  destruct (Str.is_empty (Py.str v)) eqn:E.
  - apply is_empty_true, str_empty in E. now subst.
  - destruct v; try reflexivity. simpl in *. now destruct s.
Qed.

(** X2.  In a list of steps none of which is a dictionary, every item but
    the empty text becomes a step: its instruction is the text of the item
    and its number the position of the item in the list, counted from 1 with
    the empty texts counted too.  Nothing is raised. *)
Theorem plain_steps_numbered (idx : Z) (l : list pyval) :
  forallb plain l = true ->
  coerce_step_list idx l
  = Ok (map (fun p => step_entry (fst p) (PStr (Py.str (snd p))))
          (filter (fun p => negb (Py.is_str "" (snd p))) (enumerate idx l))).
Proof.
  revert idx. induction l as [|s l IH]; intros idx Hl; [reflexivity|].
  simpl in Hl. apply andb_true_iff in Hl as [Hs Hl].
  cbn [coerce_step_list enumerate filter snd]. rewrite (IH (idx + 1) Hl).
  unfold coerce_step. rewrite (plain_instruction s Hs), (plain_number idx s Hs).
  rewrite is_str_empty. cbn [Py.truthy Py.int bind].
  destruct (Str.is_empty (Py.str s)); reflexivity.
Qed.

Lemma plain_steps_numbered_witness :
  coerce_step_list 1 [PStr "Boil"; PStr ""; PInt 3; PList [PStr "a b"; PStr "c‍d"; PStr "é"]]
  = Ok [step_entry 1 (PStr "Boil"); step_entry 3 (PStr "3");
        step_entry 4 (PStr "['a\xa0b', 'c\u200dd', 'é']")].
Proof.
  apply (plain_steps_numbered 1
           [PStr "Boil"; PStr ""; PInt 3; PList [PStr "a b"; PStr "c‍d"; PStr "é"]]).
  reflexivity.
Defined.

Lemma number_sentences_enumerate parts : forall idx,
  number_sentences idx parts
  = map (fun p => step_entry (fst p) (PStr (snd p))) (enumerate idx parts).
Proof.
  induction parts as [|p parts IH]; intros idx; [reflexivity|].
  simpl. now rewrite IH.
Qed.

(** The text is cut at a separator that comes after a piece without one. *)
Lemma split_onto_piece sep p : forall cur s,
  Str.contains (String sep "") p = false ->
  Str.split_onto sep cur (p ++ s) = Str.split_onto sep (Str.rev p ++ cur) s.
Proof.
  induction p as [|c p IH]; intros cur s Hp; [reflexivity|].
  cbn [Str.contains Str.startswith] in Hp. apply orb_false_elim in Hp as [Hc Hp].
  rewrite andb_true_r in Hc. cbn [append Str.split_onto].
  rewrite Ascii.eqb_sym, Hc, (IH _ _ Hp), rev_cons, append_assoc. reflexivity.
Qed.

(** [sep.join(pieces).split(sep)] gives the pieces back. *)
Lemma split_join sep p pieces :
  Forall (fun q => Str.contains (String sep "") q = false) (p :: pieces) ->
  Str.split sep (Str.join (String sep "") (p :: pieces)) = p :: pieces.
Proof.
  unfold Str.split. revert p.
  induction pieces as [|q pieces IH]; intros p Hp;
    inversion Hp as [|? ? Hp1 Hp2]; subst.
  - cbn [Str.join]. rewrite <- (append_nil_r p) at 1.
    rewrite (split_onto_piece _ _ _ _ Hp1). cbn [Str.split_onto].
    now rewrite append_nil_r, rev_involutive.
  - change (Str.join (String sep "") (p :: q :: pieces))
      with (p ++ String sep (Str.join (String sep "") (q :: pieces))).
    rewrite (split_onto_piece _ _ _ _ Hp1). cbn [Str.split_onto].
    rewrite Ascii.eqb_refl, append_nil_r, rev_involutive. f_equal. now apply IH.
Qed.

Lemma contains_char_cut c s :
  Str.contains (String c "") s = true -> exists a b, s = a ++ String c b.
Proof.
  induction s as [|x s IH]; [discriminate|].
  cbn [Str.contains Str.startswith]. intros H. apply orb_prop in H as [H|H].
  - rewrite andb_true_r in H. apply Ascii.eqb_eq in H. subst x. now exists "", s.
  - destruct (IH H) as (a & b & ->). now exists (String x a), b.
Qed.

(** A text with a printable ASCII character in it is not white space only. *)
Lemma strip_keeps c s :
  33 <= Str.code c < 128 -> Str.contains (String c "") s = true -> Str.strip s <> "".
Proof.
  intros Hc H. destruct (contains_char_cut _ _ H) as (a & b & ->).
  unfold Str.strip, Str.lstrip, Str.rstrip.
  rewrite rev_app, rev_cons, append_assoc. cbn [append].
  destruct (lstrip_before_plain true c (Str.rev a) Hc (Str.rev b))
    as (sk & kept & _ & ->).
  rewrite rev_app, rev_cons, rev_involutive, append_assoc. cbn [append].
  destruct (lstrip_before_plain false c (Str.rev kept) Hc a) as (sk' & kept' & _ & ->).
  now destruct kept'.
Qed.

Lemma enumerate_map {A B : Type} (f : A -> B) (l : list A) : forall idx,
  enumerate idx (map f l) = map (fun ip => (fst ip, f (snd ip))) (enumerate idx l).
Proof.
  induction l as [|x l IH]; intros idx; [reflexivity|].
  cbn [map enumerate fst snd]. now rewrite IH.
Qed.

(** X3.  Steps given as one text are cut at the periods.  For a text that
    is made of pieces without a period, joined by periods, the steps are the
    pieces that are not white space only, each without the white space at
    its ends, all of them and in their order, numbered from 1; when no piece
    is left (a blank text among others) there is the one step "Mix
    ingredients and cook until done.", and these are the steps of the
    coerced dictionary. *)
Theorem text_steps_sentences (data : pydict) (pieces : list string) :
  let kept := filter (fun p => negb (Str.is_empty (Str.strip p))) pieces in
  let step (ip : Z * string) :=
    PDict [("number", PInt (fst ip)); ("instruction", PStr (Str.strip (snd ip)))] in
  let given :=
    match kept with
    | [] => [PDict [("number", PInt 1);
                    ("instruction", PStr "Mix ingredients and cook until done.")]]
    | _ => map step (enumerate 1 kept)
    end in
  Forall (fun p => Str.contains "." p = false) pieces ->
  source_steps data = PStr (Str.join "." pieces) ->
  norm_steps data = Ok (map step (enumerate 1 kept))
  /\ steps data = Ok given
  /\ (forall r, _coerce_recipe_dict (PDict data) = Ok r ->
                Py.lookup "steps" r = Some (PList given)).
Proof.
  intros kept step given Hp Hs.
  assert (Hn : norm_steps data = Ok (map step (enumerate 1 kept))).
  { unfold norm_steps. rewrite Hs.
    destruct (Str.is_empty (Str.strip (Str.join "." pieces))) eqn:E.
    - assert (Hk : kept = []).
      { unfold kept. destruct pieces as [|p [|q pieces]]; [reflexivity | |].
        - cbn [Str.join] in E. cbn [filter]. now rewrite E.
        - exfalso. apply is_empty_true in E. revert E.
          apply (strip_keeps "."); [vm_compute; split; [discriminate | reflexivity]|].
          change (Str.join "." (p :: q :: pieces))
            with (p ++ "." ++ Str.join "." (q :: pieces)).
          apply contains_middle. }
      now rewrite Hk.
    - destruct pieces as [|p pieces]; [discriminate E|].
      unfold sentences. rewrite (split_join "." p pieces Hp).
      fold kept. rewrite number_sentences_enumerate, enumerate_map, map_map.
      reflexivity. }
  assert (Hst : steps data = Ok given).
  { unfold steps. rewrite Hn. cbn [bind]. unfold given.
    destruct kept as [|p kept']; reflexivity. }
  split; [exact Hn|]. split; [exact Hst|].
  intros r Hr. cbn [_coerce_recipe_dict] in Hr.
  apply coerce_dict_steps in Hr as (sts & Hsts & Hl). congruence.
Qed.

Lemma text_steps_sentences_witness :
  norm_steps boil_and_serve
  = Ok [PDict [("number", PInt 1); ("instruction", PStr "Boil the dal")];
        PDict [("number", PInt 2); ("instruction", PStr "Serve hot")]].
Proof.
  apply (text_steps_sentences boil_and_serve [" Boil the dal"; "  Serve hot"; " "]).
  - repeat constructor.
  - reflexivity.
Defined.


Lemma int_raise_class v e :
  Py.int v = Raise e -> e = TypeError \/ e = ValueError \/ e = OverflowError.
Proof.
  destruct v; simpl; try discriminate; try (intros [= <-]; auto).
  - destruct (PyFloat.to_Z f); [discriminate|].
    destruct (Prim2SF f); intros [= <-]; auto.
  - destruct (Str.to_Z s); [discriminate | intros [= <-]; auto].
Qed.

Lemma coerce_step_raise idx s e : coerce_step idx s = Raise e <-> bad_number e s.
Proof.
  unfold coerce_step, bad_number. split.
  - destruct (Py.truthy (step_instruction s)); [|discriminate].
    destruct (Py.int (step_number idx s)) as [n|e'] eqn:E; simpl; [discriminate|].
    intros [= ->]. destruct s; try discriminate E.
    exists entries. split; [reflexivity|].
    unfold step_number, Py.or in E.
    destruct (Py.truthy (Py.get entries "number")); [now split | discriminate E].
  - intros (d & -> & Ht & Hi).
    assert (Hinst : Py.truthy (step_instruction (PDict d)) = true).
    { unfold step_instruction. rewrite !truthy_or.
      replace (Py.truthy (PStr (Py.str (PDict d)))) with true; [apply orb_true_r|].
      symmetry. apply truthy_nonempty. apply (repr_nonempty (PDict d)). }
    rewrite Hinst. unfold step_number, Py.or. rewrite Ht, Hi. reflexivity.
Qed.

Lemma coerce_step_list_raise l : forall idx,
  (exists e, coerce_step_list idx l = Raise e) <-> (exists e, Exists (bad_number e) l).
Proof.
  induction l as [|s l IH]; intros idx.
  - split; [intros [e H]; discriminate H | intros [e H]; inversion H].
  - cbn [coerce_step_list]. split.
    + intros [e H].
      destruct (coerce_step idx s) as [here|e1] eqn:E1; simpl in H.
      * destruct (coerce_step_list (idx + 1) l) as [rest|e2] eqn:E2; simpl in H;
          [discriminate|].
        destruct (proj1 (IH (idx + 1))) as [e' He']; [now exists e2|].
        exists e'. now apply Exists_cons_tl.
      * exists e1. apply Exists_cons_hd. now apply (coerce_step_raise idx).
    + intros [e H]. inversion H as [? ? Hs | ? ? Hl]; subst.
      * exists e. apply (coerce_step_raise idx) in Hs. now rewrite Hs.
      * destruct (coerce_step idx s) as [here|e1]; simpl; [|now exists e1].
        destruct (proj2 (IH (idx + 1))) as [e' He']; [now exists e|].
        rewrite He'. now exists e'.
Qed.

Lemma coerce_step_list_class l : forall idx e,
  coerce_step_list idx l = Raise e -> e = TypeError \/ e = ValueError \/ e = OverflowError.
Proof.
  induction l as [|s l IH]; intros idx e; cbn [coerce_step_list]; [discriminate|].
  destruct (coerce_step idx s) as [here|e1] eqn:E1; simpl.
  - destruct (coerce_step_list (idx + 1) l) as [rest|e2] eqn:E2; simpl; [discriminate|].
    intros [= <-]. now apply (IH (idx + 1)).
  - intros [= <-]. apply (coerce_step_raise idx) in E1 as (d & _ & _ & Hi).
    now apply int_raise_class in Hi.
Qed.

Lemma steps_raise data e :
  steps data = Raise e <->
  exists l, source_steps data = PList l /\ coerce_step_list 1 l = Raise e.
Proof.
  unfold steps, norm_steps. split.
  - destruct (source_steps data) as [| | | |t|l|d]; simpl; try discriminate.
    + destruct (Str.is_empty (Str.strip t)); discriminate.
    + destruct (coerce_step_list 1 l) as [r|e'] eqn:E; simpl; [discriminate|].
      intros [= <-]. now exists l.
  - intros (l & -> & Hl). now rewrite Hl.
Qed.

Lemma display_title_raise data e :
  display_title data = Raise e <->
  e = TypeError
  /\ exists a, find_alt data alt_keys = Some a /\ a <> ""
               /\ Py.contains a (raw_title data) = Raise TypeError.
Proof.
  unfold display_title, with_alt. split.
  - destruct (find_alt data alt_keys) as [a|]; simpl; [|discriminate].
    destruct (Str.is_empty a) eqn:Ea; simpl; [discriminate|].
    destruct (Py.contains a (raw_title data)) as [found|e'] eqn:Ec; simpl.
    + destruct found; discriminate.
    + intros [= <-].
      assert (e' = TypeError) as ->.
      { destruct (raw_title data); simpl in Ec; congruence. }
      split; [reflexivity|]. exists a. repeat split; [|exact Ec].
      intros ->. discriminate Ea.
  - intros (-> & a & -> & Ha & Hc). destruct a; [contradiction|]. simpl.
    now rewrite Hc.
Qed.

(** X4.  The coercion of a dictionary raises in two cases and in no other:
    an alternate title is present and the title is a value that has no
    membership test (a number or a truth value, refused with [TypeError]);
    or the steps are a list that holds a dictionary whose [number] is
    present and refused by [int].  Whatever it raises is a [TypeError], a
    [ValueError] or an [OverflowError]. *)
Theorem coercion_raises (data : pydict) :
  ((exists e, _coerce_recipe_dict (PDict data) = Raise e)
   <-> (exists a, find_alt data alt_keys = Some a /\ a <> ""
                  /\ Py.contains a (raw_title data) = Raise TypeError)
       \/ (exists l e, source_steps data = PList l /\ Exists (bad_number e) l))
  /\ (forall e, _coerce_recipe_dict (PDict data) = Raise e ->
        e = TypeError \/ e = ValueError \/ e = OverflowError).
Proof.
  cbn [_coerce_recipe_dict]. unfold coerce_dict. split; [split|].
  - intros [e H].
    destruct (display_title data) as [t|e1] eqn:Et; simpl in H.
    + destruct (steps data) as [sts|e2] eqn:Es; simpl in H; [discriminate|].
      right. apply steps_raise in Es as (l & Hl & Hr).
      destruct (proj1 (coerce_step_list_raise l 1)) as [e' He']; [now exists e2|].
      now exists l, e'.
    + left. now apply display_title_raise in Et as [_ Ha].
  - intros [Ha | (l & e & Hl & Hb)].
    + assert (Ht : display_title data = Raise TypeError)
        by now apply display_title_raise.
      rewrite Ht. now exists TypeError.
    + destruct (display_title data) as [t|e1]; simpl; [|now exists e1].
      destruct (proj2 (coerce_step_list_raise l 1)) as [e' He']; [now exists e|].
      assert (Hs : steps data = Raise e') by (apply steps_raise; now exists l).
      rewrite Hs. now exists e'.
  - intros e H.
    destruct (display_title data) as [t|e1] eqn:Et; simpl in H.
    + destruct (steps data) as [sts|e2] eqn:Es; simpl in H; [discriminate|].
      injection H as <-. apply steps_raise in Es as (l & _ & Hr).
      now apply coerce_step_list_class in Hr.
    + injection H as <-. apply display_title_raise in Et as [-> _]. now left.
Qed.

(** X5.  What the validation of [Recipe] makes of the coerced numbers.  With
    [s] and [t] the integers the coercion reads for the servings and the
    time: a recipe is returned only when [s] is at least 1 and [t] at least
    0, and then it holds [s] and, for [t] other than 0, [t]; with these
    bounds and the other fields accepted, a recipe is returned; a negative
    time goes through the coercion as it is and is refused. *)
Theorem coerced_then_validated (Rest : Type) (rest_fields : pydict -> option Rest)
    (data r : pydict) :
  _coerce_recipe_dict (PDict data) = Ok r ->
  let s := to_int (Py.get_default data "servings" (PInt 2)) 2 in
  let t := to_int (Py.get_default data "total_time_minutes"
                     (Py.get_default data "time_minutes" (PInt 0))) 0 in
  (forall recipe, Validator.validate Rest rest_fields r = Ok recipe ->
     1 <= s /\ 0 <= t
     /\ Validator.servings Rest recipe = s
     /\ Validator.total_time_minutes Rest recipe = (if t =? 0 then None else Some t)
     /\ rest_fields r = Some (Validator.rest Rest recipe))
  /\ (forall rest, 1 <= s -> 0 <= t -> rest_fields r = Some rest ->
        Validator.validate Rest rest_fields r
        = Ok {| Validator.servings := s;
                Validator.total_time_minutes := if t =? 0 then None else Some t;
                Validator.rest := rest |})
  /\ (t < 0 ->
        Py.lookup "total_time_minutes" r = Some (PInt t)
        /\ Validator.validate Rest rest_fields r = Raise ValidationError).
Proof.
  intros Hr s t. cbn [_coerce_recipe_dict] in Hr.
  apply coerce_dict_numbers in Hr as [Hs Ht].
  assert (Hsf : Validator.servings_field r
                = if 1 <=? s then Ok s else Raise ValidationError).
  { unfold Validator.servings_field. rewrite Hs. reflexivity. }
  assert (Htf : Validator.total_time_minutes_field r
                = if t =? 0 then Ok None
                  else if 0 <=? t then Ok (Some t) else Raise ValidationError).
  { unfold Validator.total_time_minutes_field. rewrite Ht.
    unfold total_time_minutes. fold t. destruct (t =? 0); [reflexivity|].
    cbn. unfold Validator.ge. now destruct (0 <=? t). }
  unfold Validator.validate. rewrite Hsf, Htf.
  split; [|split].
  - intros recipe.
    destruct (1 <=? s) eqn:E1; [|discriminate].
    destruct (t =? 0) eqn:E0.
    + destruct (rest_fields r); [|discriminate]. intros [= <-].
      apply Z.leb_le in E1. apply Z.eqb_eq in E0. cbn. repeat split; auto; lia.
    + destruct (0 <=? t) eqn:E2; [|discriminate].
      destruct (rest_fields r); [|discriminate]. intros [= <-].
      apply Z.leb_le in E1, E2. cbn. repeat split; auto.
  - intros rest H1 H0 ->. apply Z.leb_le in H1. rewrite H1.
    destruct (t =? 0); [reflexivity|]. apply Z.leb_le in H0. now rewrite H0.
  - intros Hneg. split.
    + rewrite Ht. unfold total_time_minutes. fold t.
      assert (E : (t =? 0) = false) by (apply Z.eqb_neq; lia). now rewrite E.
    + assert (E0 : (t =? 0) = false) by (apply Z.eqb_neq; lia).
      assert (E2 : (0 <=? t) = false) by (apply Z.leb_gt; lia).
      rewrite E0, E2. now destruct (1 <=? s).
Qed.

Lemma coerced_then_validated_witness :
  Py.lookup "total_time_minutes" negative_time_out = Some (PInt (-5))
  /\ Validator.validate unit (fun _ => Some tt) negative_time_out = Raise ValidationError.
Proof.
  apply (coerced_then_validated unit (fun _ => Some tt) negative_time negative_time_out
           eq_refl).
  reflexivity.
Defined.

End CoercionFacts.

(** ** Properties of the request validators *)

Module SchemaFacts.
Import Schemas PromptBuilder StrFacts StripFacts.

Lemma normalize_ingredients_in v p :
  In p (normalize_ingredients v)
  <-> exists item, In item v /\ Str.strip item = p /\ p <> "".
Proof.
  unfold normalize_ingredients. rewrite in_map_iff. split.
  - intros (item & <- & Hin). apply filter_In in Hin as [Hin Hc].
    apply andb_true_iff in Hc as [_ Hc]. exists item. repeat split; [exact Hin|].
    intros E. now rewrite E in Hc.
  - intros (item & Hin & <- & Hne). exists item. split; [reflexivity|].
    apply filter_In. split; [exact Hin|].
    destruct item; [now contradiction Hne|].
    simpl. destruct (Str.strip (String a item)); [now contradiction Hne | reflexivity].
Qed.

Lemma normalize_ingredients_fixed v :
  Forall (fun p => p <> "" /\ Str.strip p = p) v -> normalize_ingredients v = v.
Proof.
  unfold normalize_ingredients. induction v as [|p v IH]; intros H; [reflexivity|].
  inversion H as [|? ? [Hne Hs] Hv]; subst. cbn [filter].
  rewrite Hs. destruct p; [now contradiction Hne|]. cbn [Str.is_empty negb andb map].
  now rewrite Hs, (IH Hv).
Qed.

(** X6.  The ingredients of a text request after validation: the items of
    the request in their order, each with the white space at its ends
    removed, the blank ones left out.  No item is empty or has white space
    at an end; applying the validator again changes nothing; and the list
    is empty exactly when every item of the request is blank, so a request
    of blank items passes the check of its length and is left with no
    ingredient. *)
Theorem ingredients_normalized (v : list string) :
  normalize_ingredients v
  = filter (fun p => negb (Str.is_empty p)) (map Str.strip v)
  /\ Forall (fun p => p <> "" /\ Str.strip p = p) (normalize_ingredients v)
  /\ normalize_ingredients (normalize_ingredients v) = normalize_ingredients v
  /\ (normalize_ingredients v = [] <-> Forall (fun item => Str.strip item = "") v)
  /\ (v <> [] -> Forall (fun item => Str.strip item = "") v -> ingredients_field v = Ok []).
Proof.
  assert (Hall : Forall (fun p => p <> "" /\ Str.strip p = p) (normalize_ingredients v)).
  { apply Forall_forall. intros p Hp.
    apply normalize_ingredients_in in Hp as (item & _ & <- & Hne).
    split; [exact Hne | apply strip_idempotent]. }
  assert (Hnil : normalize_ingredients v = [] <-> Forall (fun item => Str.strip item = "") v).
  { split.
    - intros E. apply Forall_forall. intros item Hin.
      destruct (Str.strip item) as [|c s] eqn:Es; [reflexivity|].
      assert (Hp : In (String c s) (normalize_ingredients v)).
      { apply normalize_ingredients_in. exists item. repeat split; auto. discriminate. }
      rewrite E in Hp. contradiction.
    - intros H. destruct (normalize_ingredients v) as [|p l] eqn:E; [reflexivity|].
      assert (Hp : In p (normalize_ingredients v)) by (rewrite E; now left).
      apply normalize_ingredients_in in Hp as (item & Hin & Hs & Hne).
      rewrite Forall_forall in H. rewrite (H item Hin) in Hs. congruence. }
  split; [|split; [exact Hall | split; [now apply normalize_ingredients_fixed | split]]].
  - clear Hall Hnil. unfold normalize_ingredients.
    induction v as [|item v IH]; [reflexivity|].
    cbn [filter map]. destruct item as [|c item]; [exact IH|].
    cbn [Str.is_empty negb andb].
    destruct (Str.is_empty (Str.strip (String c item))); cbn [negb]; [exact IH|].
    cbn [map]. now rewrite IH.
  - exact Hnil.
  - intros Hne Hb. unfold ingredients_field. destruct v; [now contradiction Hne|].
    now rewrite (proj2 Hnil Hb).
Qed.

Lemma ingredients_normalized_witness :
  ingredients_field [" "; ""] = Ok [].
Proof.
  apply (proj2 (proj2 (proj2 (proj2 (ingredients_normalized [" "; ""]))))).
  - discriminate.
  - repeat constructor.
Defined.

End SchemaFacts.

(** ** Further properties of the prompt builder *)

Module PromptFacts.
Import Schemas PromptBuilder StrFacts PromptBuilderFacts.

Lemma choice_in pool drawn : pool <> [] -> In (choice pool drawn) pool.
Proof.
  intros Hne. unfold choice. apply nth_In.
  apply Nat.mod_upper_bound. destruct pool; [contradiction | discriminate].
Qed.

Lemma variation_part_fixed variation pool d1 d2 :
  variation <> Some true -> variation_part variation pool d1 = variation_part variation pool d2.
Proof. destruct variation as [[|]|]; [contradiction | reflexivity | reflexivity]. Qed.

Lemma in_concat_parts (part : string) (group : list string) (groups : list (list string)) :
  In group groups -> In part group -> In part (List.concat groups).
Proof. intros Hg Hp. apply in_concat. now exists group. Qed.

(** X8.  The variation directive.  A request without [variation] set gives
    the same prompt whatever the random source draws.  With [variation]
    set, the prompt holds one sentence of the builder's pool, followed by a
    newline: one of four sentences for the text and the image prompt, one of
    three for the free prompt; the draw never fails. *)
Theorem variation_directive :
  ((forall payload d1 d2, text_variation payload <> Some true ->
      _build_text_prompt payload d1 = _build_text_prompt payload d2)
   /\ (forall preferences d1 d2, image_variation preferences <> Some true ->
         _build_image_prompt preferences d1 = _build_image_prompt preferences d2)
   /\ (forall payload d1 d2, prompt_variation payload <> Some true ->
         _build_prompt_recipe_prompt payload d1 = _build_prompt_recipe_prompt payload d2))
  /\ ((forall payload drawn, text_variation payload = Some true ->
         exists v, In v variations
                   /\ Str.contains (v ++ Str.nl) (_build_text_prompt payload drawn) = true)
      /\ (forall preferences drawn, image_variation preferences = Some true ->
            exists v, In v variations
                      /\ Str.contains (v ++ Str.nl)
                           (_build_image_prompt preferences drawn) = true)
      /\ (forall payload drawn, prompt_variation payload = Some true ->
            exists v, In v prompt_variations
                      /\ Str.contains (v ++ Str.nl)
                           (_build_prompt_recipe_prompt payload drawn) = true))
  /\ length variations = 4%nat /\ length prompt_variations = 3%nat.
Proof.
  split; [|split; [|split; reflexivity]].
  - split; [|split]; intros p d1 d2 Hv.
    + unfold _build_text_prompt, text_parts.
      now rewrite (variation_part_fixed _ variations d1 d2 Hv).
    + unfold _build_image_prompt, image_parts.
      now rewrite (variation_part_fixed _ variations d1 d2 Hv).
    + unfold _build_prompt_recipe_prompt, prompt_parts.
      now rewrite (variation_part_fixed _ prompt_variations d1 d2 Hv).
  - split; [|split]; intros p drawn Hv.
    + exists (choice variations drawn). split; [apply choice_in; discriminate|].
      eapply contains_concat; [|apply contains_refl].
      eapply in_concat_parts; [do 6 right; left; reflexivity|].
      rewrite Hv. now left.
    + exists (choice variations drawn). split; [apply choice_in; discriminate|].
      eapply contains_concat; [|apply contains_refl].
      eapply in_concat_parts; [do 6 right; left; reflexivity|].
      rewrite Hv. now left.
    + exists (choice prompt_variations drawn). split; [apply choice_in; discriminate|].
      eapply contains_concat; [|apply contains_refl].
      eapply in_concat_parts; [do 3 right; left; reflexivity|].
      rewrite Hv. now left.
Qed.

Lemma contains_join sep parts p :
  In p parts -> Str.contains p (Str.join sep parts) = true.
Proof.
  induction parts as [|q parts IH]; [contradiction|].
  intros [->|Hin].
  - destruct parts as [|r parts]; [apply contains_refl|].
    cbn [Str.join]. apply contains_iff. now exists "", (sep ++ Str.join sep (r :: parts)).
  - destruct parts as [|r parts]; [contradiction|].
    change (Str.join sep (q :: r :: parts)) with (q ++ sep ++ Str.join sep (r :: parts)).
    apply contains_trans with (Str.join sep (r :: parts)); [now apply IH|].
    apply contains_iff. exists (q ++ sep), "".
    now rewrite append_nil_r, append_assoc.
Qed.

(** The line a builder writes for an option that is given *)
Lemma when_in b part : b = true -> In part (when b part).
Proof. intros ->. now left. Qed.

Lemma startswith_app pre x : Str.startswith pre (pre ++ x) = true.
Proof. apply startswith_iff. now exists x. Qed.

Lemma prefix_absent pre parts x :
  Forall (fun p => Str.startswith pre p = false) parts -> ~ In (pre ++ x) parts.
Proof.
  intros H Hin. rewrite Forall_forall in H. apply H in Hin.
  now rewrite startswith_app in Hin.
Qed.

Lemma dietary_part_clear pre dietary :
  (forall x, Str.startswith pre ("Dietary: " ++ x) = false) ->
  Forall (fun p => Str.startswith pre p = false) (dietary_part dietary).
Proof.
  intros H. unfold dietary_part. destruct dietary as [d|]; [|constructor].
  destruct (dietary_prefs d); constructor; [apply H | constructor].
Qed.

Lemma variation_part_clear pre variation pool drawn :
  pool <> [] ->
  Forall (fun v => forall x, Str.startswith pre (v ++ x) = false) pool ->
  Forall (fun p => Str.startswith pre p = false) (variation_part variation pool drawn).
Proof.
  intros Hne H. unfold variation_part. destruct variation as [[|]|]; try constructor.
  - rewrite Forall_forall in H. apply H. now apply choice_in.
  - constructor.
Qed.

Ltac clear_parts :=
  apply Forall_concat;
  repeat first
    [ apply Forall_nil
    | apply Forall_cons
    | reflexivity
    | apply dietary_part_clear; intros; reflexivity
    | apply variation_part_clear;
        [discriminate | repeat (constructor; [intros; reflexivity|]); constructor]
    | match goal with
      | |- Forall _ (when ?b _) => destruct b; cbn [when]
      end ].

(** X9.  What the text prompt carries of the request.  Every ingredient of
    the request is in the prompt.  A cuisine hint that is not empty, a
    number of servings other than 0 and a time limit other than 0 each have
    their line in the prompt, and the option that is absent (or empty, or
    0) has no line among the parts of the prompt. *)
Theorem text_prompt_carries_request (payload : RecipeFromTextRequest) (drawn : nat) :
  let prompt := _build_text_prompt payload drawn in
  let parts := text_parts payload drawn in
  Forall (fun i => Str.contains i prompt = true) (text_ingredients payload)
  /\ (forall c, text_cuisine_hint payload = Some c -> c <> "" ->
        Str.contains ("Cuisine hint: " ++ c ++ "." ++ Str.nl) prompt = true)
  /\ (forall n, text_servings payload = Some n -> n <> 0 ->
        Str.contains ("Target servings: " ++ Str.of_Z n ++ "." ++ Str.nl) prompt = true)
  /\ (forall n, text_cooking_time_limit_minutes payload = Some n -> n <> 0 ->
        Str.contains ("Time limit: " ++ Str.of_Z n ++ " minutes." ++ Str.nl) prompt = true)
  /\ (given_text (text_cuisine_hint payload) = false ->
        forall x, ~ In ("Cuisine hint: " ++ x) parts)
  /\ (given_number (text_servings payload) = false ->
        forall x, ~ In ("Target servings: " ++ x) parts)
  /\ (given_number (text_cooking_time_limit_minutes payload) = false ->
        forall x, ~ In ("Time limit: " ++ x) parts).
Proof.
  intros prompt parts.
  assert (Hpart : forall part, In part parts -> Str.contains part prompt = true).
  { intros part Hin. eapply contains_concat; [exact Hin | apply contains_refl]. }
  assert (Hnot : forall z, z <> 0 -> negb (z =? 0) = true).
  { intros z Hz. apply negb_true_iff, Z.eqb_neq, Hz. }
  split; [|split; [|split; [|split; [|split; [|split]]]]].
  - apply Forall_forall. intros i Hi.
    apply contains_trans with (Str.join ", " (text_ingredients payload));
      [now apply contains_join|].
    apply contains_trans
      with ("Ingredients available: " ++ Str.join ", " (text_ingredients payload)
              ++ "." ++ Str.nl);
      [apply contains_middle|].
    apply Hpart. eapply in_concat_parts; [left; reflexivity|].
    do 3 right. now left.
  - intros c Hc Hne. apply Hpart.
    eapply in_concat_parts; [do 1 right; left; reflexivity|].
    rewrite Hc. apply when_in. destruct c; [contradiction | reflexivity].
  - intros n Hn Hne. apply Hpart.
    eapply in_concat_parts; [do 2 right; left; reflexivity|].
    rewrite Hn. apply when_in. now apply Hnot.
  - intros n Hn Hne. apply Hpart.
    eapply in_concat_parts; [do 3 right; left; reflexivity|].
    rewrite Hn. apply when_in. now apply Hnot.
  - intros Hg x. apply prefix_absent. unfold parts, text_parts. rewrite Hg.
    clear_parts.
  - intros Hg x. apply prefix_absent. unfold parts, text_parts. rewrite Hg.
    clear_parts.
  - intros Hg x. apply prefix_absent. unfold parts, text_parts. rewrite Hg.
    clear_parts.
Qed.

Lemma text_prompt_carries_request_witness :
  Forall (fun i => Str.contains i (_build_text_prompt hindi_request 0) = true)
         ["aloo"; "matar"]
  /\ Str.contains ("Target servings: 2." ++ Str.nl) (_build_text_prompt hindi_request 0) = true
  /\ forall x, ~ In ("Time limit: " ++ x) (text_parts hindi_request 0).
Proof.
  pose proof (text_prompt_carries_request hindi_request 0) as (Hi & _ & Hs & _ & _ & _ & Ht).
  split; [exact Hi|]. split.
  - apply (Hs 2); [reflexivity | discriminate].
  - apply Ht. reflexivity.
Defined.


(** X10.  What the free prompt and the image prompt carry.  The free
    prompt holds the text of the user's request in a line of its own, and
    the servings line exactly when the servings are given and not 0.  The
    image prompt holds the lines of the cuisine hint, the servings and the
    time limit that are given, and none for an option that is absent. *)
Theorem other_prompts_carry_request :
  (forall payload drawn,
     let prompt := _build_prompt_recipe_prompt payload drawn in
     Str.contains ("User request: " ++ prompt_text payload ++ Str.nl) prompt = true
     /\ (forall n, prompt_servings payload = Some n -> n <> 0 ->
           Str.contains ("Target servings: " ++ Str.of_Z n ++ "." ++ Str.nl) prompt = true)
     /\ (given_number (prompt_servings payload) = false ->
           forall x, ~ In ("Target servings: " ++ x) (prompt_parts payload drawn)))
  /\ (forall preferences drawn,
        let prompt := _build_image_prompt preferences drawn in
        let parts := image_parts preferences drawn in
        (forall c, image_cuisine_hint preferences = Some c -> c <> "" ->
           Str.contains ("Cuisine hint: " ++ c ++ "." ++ Str.nl) prompt = true)
        /\ (forall n, image_servings preferences = Some n -> n <> 0 ->
              Str.contains ("Target servings: " ++ Str.of_Z n ++ "." ++ Str.nl) prompt = true)
        /\ (forall n, image_cooking_time_limit_minutes preferences = Some n -> n <> 0 ->
              Str.contains ("Time limit: " ++ Str.of_Z n ++ " minutes." ++ Str.nl) prompt
              = true)
        /\ (given_text (image_cuisine_hint preferences) = false ->
              forall x, ~ In ("Cuisine hint: " ++ x) parts)
        /\ (given_number (image_servings preferences) = false ->
              forall x, ~ In ("Target servings: " ++ x) parts)
        /\ (given_number (image_cooking_time_limit_minutes preferences) = false ->
              forall x, ~ In ("Time limit: " ++ x) parts)).
Proof.
  assert (Hnot : forall z, z <> 0 -> negb (z =? 0) = true).
  { intros z Hz. apply negb_true_iff, Z.eqb_neq, Hz. }
  split.
  - intros payload drawn prompt.
    assert (Hpart : forall part, In part (prompt_parts payload drawn) ->
                                 Str.contains part prompt = true).
    { intros part Hin. eapply contains_concat; [exact Hin | apply contains_refl]. }
    split; [|split].
    + apply Hpart. eapply in_concat_parts; [left; reflexivity|]. do 3 right. now left.
    + intros n Hn Hne. apply Hpart.
      eapply in_concat_parts; [do 1 right; left; reflexivity|].
      rewrite Hn. apply when_in. now apply Hnot.
    + intros Hg x. apply prefix_absent. unfold prompt_parts. rewrite Hg. clear_parts.
  - intros preferences drawn prompt parts.
    assert (Hpart : forall part, In part parts -> Str.contains part prompt = true).
    { intros part Hin. eapply contains_concat; [exact Hin | apply contains_refl]. }
    split; [|split; [|split; [|split; [|split]]]].
    + intros c Hc Hne. apply Hpart.
      eapply in_concat_parts; [do 1 right; left; reflexivity|].
      rewrite Hc. apply when_in. destruct c; [contradiction | reflexivity].
    + intros n Hn Hne. apply Hpart.
      eapply in_concat_parts; [do 2 right; left; reflexivity|].
      rewrite Hn. apply when_in. now apply Hnot.
    + intros n Hn Hne. apply Hpart.
      eapply in_concat_parts; [do 3 right; left; reflexivity|].
      rewrite Hn. apply when_in. now apply Hnot.
    + intros Hg x. apply prefix_absent. unfold parts, image_parts. rewrite Hg. clear_parts.
    + intros Hg x. apply prefix_absent. unfold parts, image_parts. rewrite Hg. clear_parts.
    + intros Hg x. apply prefix_absent. unfold parts, image_parts. rewrite Hg. clear_parts.
Qed.

Lemma prefs_of_flags (flags : list (string * option bool)) :
  flat_map (fun kv : string * bool =>
              if snd kv then [Str.replace_char "_"%char " " (fst kv)] else [])
    (flat_map (fun kv : string * option bool =>
                 match snd kv with Some v => [(fst kv, v)] | None => [] end) flags)
  = map (Str.replace_char "_"%char " ")
      (map fst (filter (fun kv : string * option bool =>
                          match snd kv with Some true => true | _ => false end) flags)).
Proof.
  induction flags as [|[k [[|]|]] flags IH]; cbn [flat_map filter snd fst app map];
    now rewrite ?IH.
Qed.

(** X11.  The dietary line names the preferences that are set to [True],
    in the order of the fields of [DietaryPreference], with the underscores
    of their names turned into spaces; a preference set to [False] or left
    out is not named.  Without a preference set to [True], and without
    preferences, the prompts have no dietary line; with one, the line is a
    part of the text prompt and of the image prompt. *)
Theorem dietary_line (d : DietaryPreference) :
  let named := map (Str.replace_char "_"%char " ") (chosen d) in
  let line := "Dietary: " ++ Str.join ", " named ++ "." ++ Str.nl in
  dietary_prefs d = named
  /\ (chosen d = [] -> dietary_part (Some d) = [])
  /\ dietary_part None = []
  /\ (chosen d <> [] ->
        dietary_part (Some d) = [line]
        /\ (forall payload drawn, text_dietary payload = Some d ->
              Str.contains line (_build_text_prompt payload drawn) = true)
        /\ (forall preferences drawn, image_dietary preferences = Some d ->
              Str.contains line (_build_image_prompt preferences drawn) = true)).
Proof.
  intros named line.
  assert (Hp : dietary_prefs d = named) by apply prefs_of_flags.
  split; [exact Hp|]. split; [|split; [reflexivity|]].
  - intros Hc. unfold dietary_part. rewrite Hp. unfold named. now rewrite Hc.
  - intros Hc.
    assert (Hl : dietary_part (Some d) = [line]).
    { unfold dietary_part. rewrite Hp. unfold line.
      destruct named eqn:En; [|reflexivity].
      unfold named in En. destruct (chosen d); [contradiction | discriminate]. }
    split; [exact Hl|]. split; intros p drawn Hd.
    + eapply contains_concat; [|apply contains_refl].
      eapply in_concat_parts; [do 4 right; left; reflexivity|].
      rewrite Hd, Hl. now left.
    + eapply contains_concat; [|apply contains_refl].
      eapply in_concat_parts; [do 4 right; left; reflexivity|].
      rewrite Hd, Hl. now left.
Qed.

End PromptFacts.

(** ** Further properties of the extraction *)

Module RepairFacts.
Import Extract Repair StrFacts StripFacts ExtractFacts.

Lemma extract_of_strip t1 t2 :
  Str.strip t1 = Str.strip t2 ->
  _extract_and_normalize_json t1 = _extract_and_normalize_json t2.
Proof. intros H. unfold _extract_and_normalize_json. now rewrite H. Qed.

(** X12.  White space around the reply does not count: two replies that
    are equal once stripped are read alike, so a reply is read as its
    stripped form is, and as it is with a newline put after it; a reply of
    white space alone, or an empty one, is refused with [JSONDecodeError]. *)
Theorem white_space_around (text : string) :
  (forall other, Str.strip other = Str.strip text ->
     _extract_and_normalize_json other = _extract_and_normalize_json text
     /\ normalize other = normalize text)
  /\ normalize (Str.strip text) = normalize text
  /\ normalize (text ++ Str.nl) = normalize text
  /\ (Str.strip text = "" ->
        _extract_and_normalize_json text = Raise JSONDecodeError
        /\ normalize text = Raise JSONDecodeError).
Proof.
  assert (H : forall other, Str.strip other = Str.strip text ->
                _extract_and_normalize_json other = _extract_and_normalize_json text
                /\ normalize other = normalize text).
  { intros other Ho. pose proof (extract_of_strip other text Ho) as He.
    split; [exact He|]. unfold normalize. now rewrite He. }
  split; [exact H|]. split; [|split].
  - apply H, strip_idempotent.
  - apply H, strip_newline.
  - intros Hb.
    assert (He : _extract_and_normalize_json text = Raise JSONDecodeError).
    { unfold _extract_and_normalize_json. rewrite Hb. vm_compute. reflexivity. }
    split; [exact He|]. unfold normalize. now rewrite He.
Qed.

Lemma white_space_around_witness :
  normalize (" " ++ Str.nl) = Raise JSONDecodeError.
Proof. apply (proj2 (proj2 (proj2 (white_space_around (" " ++ Str.nl))))). reflexivity. Defined.

(** *** The trailing commas *)

Lemma drop_commas_length s : forall skip,
  (String.length (drop_commas skip s) <= String.length s)%nat.
Proof.
  induction s as [|c s IH]; intros skip; [destruct skip; simpl; lia|].
  cbn [drop_commas]. destruct skip as [|k].
  - destruct ((Str.code c =? 44) && closes s).
    + specialize (IH (spaces s)). simpl. lia.
    + specialize (IH 0%nat). simpl. lia.
  - specialize (IH k). simpl. lia.
Qed.

Lemma drop_commas_fixed s : trailing_comma s = false -> drop_commas 0 s = s.
Proof.
  induction s as [|c s IH]; [reflexivity|].
  cbn [trailing_comma drop_commas]. intros H. apply orb_false_elim in H as [H1 H2].
  now rewrite H1, (IH H2).
Qed.

Lemma drop_commas_shorter s :
  trailing_comma s = true -> (String.length (drop_commas 0 s) < String.length s)%nat.
Proof.
  induction s as [|c s IH]; [discriminate|].
  cbn [trailing_comma drop_commas]. intros H.
  destruct ((Str.code c =? 44) && closes s).
  - pose proof (drop_commas_length s (spaces s)). simpl. lia.
  - simpl in H. specialize (IH H). simpl. lia.
Qed.

Lemma comma_free_no_trailing s : comma_free s = true -> trailing_comma s = false.
Proof.
  induction s as [|c s IH]; [reflexivity|].
  cbn [comma_free trailing_comma]. intros H. apply andb_true_iff in H as [H1 H2].
  apply negb_true_iff in H1. now rewrite H1, (IH H2).
Qed.

Lemma drop_commas_app pre s :
  comma_free pre = true -> drop_commas 0 (pre ++ s) = pre ++ drop_commas 0 s.
Proof.
  induction pre as [|c pre IH]; [reflexivity|].
  cbn [comma_free]. intros H. apply andb_true_iff in H as [H1 H2].
  apply negb_true_iff in H1. cbn [append drop_commas]. now rewrite H1, (IH H2).
Qed.

Lemma lstrip_blank w s : blank w = true -> Str.lstrip (w ++ s) = Str.lstrip s.
Proof.
  unfold Str.lstrip. induction w as [|c w IH]; [reflexivity|].
  cbn [blank]. intros H. apply andb_true_iff in H as [H1 H2].
  cbn [append Str.lstrip_gen]. now rewrite H1, (IH H2).
Qed.

Lemma closing_plain c : closing c = true -> 33 <= Str.code c < 128.
Proof.
  unfold closing. intros H. apply orb_true_iff in H as [H|H]; apply Z.eqb_eq in H; lia.
Qed.

Lemma drop_commas_skip w s : forall extra,
  drop_commas (String.length w + extra) (w ++ s) = drop_commas extra s.
Proof.
  induction w as [|c w IH]; intros extra; [reflexivity|].
  cbn [String.length append Nat.add drop_commas]. apply IH.
Qed.

Lemma length_app (a b : string) :
  String.length (a ++ b) = (String.length a + String.length b)%nat.
Proof. induction a as [|c a IH]; simpl; [reflexivity | now rewrite IH]. Qed.

(** X13.  The last repair changes a text exactly when the text holds a
    comma that is followed, after white space if any, by a closing bracket
    or brace; the text never gets longer.  In a text whose only comma is
    such a one, with one-byte white space after it, the comma and the white
    space are removed and all else is kept. *)
Theorem trailing_commas_dropped (s : string) :
  (drop_commas 0 s = s <-> trailing_comma s = false)
  /\ (String.length (drop_commas 0 s) <= String.length s)%nat
  /\ (forall pre w c post,
        s = pre ++ "," ++ w ++ String c post ->
        comma_free pre = true -> blank w = true -> closing c = true ->
        comma_free post = true ->
        drop_commas 0 s = pre ++ String c post).
Proof.
  split; [|split].
  - split.
    + intros H. destruct (trailing_comma s) eqn:E; [|reflexivity].
      apply drop_commas_shorter in E. rewrite H in E. lia.
    + apply drop_commas_fixed.
  - apply drop_commas_length.
  - intros pre w c post -> Hpre Hw Hc Hpost.
    rewrite (drop_commas_app pre _ Hpre). f_equal.
    cbn [append drop_commas].
    assert (Hl : Str.lstrip (w ++ String c post) = String c post).
    { rewrite (lstrip_blank w _ Hw). apply lstrip_plain. now apply closing_plain. }
    assert (Hcl : closes (w ++ String c post) = true).
    { unfold closes. now rewrite Hl. }
    assert (Hsp : spaces (w ++ String c post) = (String.length w + 0)%nat).
    { unfold spaces. rewrite Hl, length_app. lia. }
    change (Str.code "," =? 44) with true. cbn [andb]. rewrite Hcl, Hsp.
    rewrite drop_commas_skip. apply drop_commas_fixed.
    cbn [trailing_comma].
    assert (Hnc : (Str.code c =? 44) = false).
    { apply Z.eqb_neq. unfold closing in Hc.
      apply orb_true_iff in Hc as [H|H]; apply Z.eqb_eq in H; lia. }
    rewrite Hnc. now apply comma_free_no_trailing.
Qed.

Lemma trailing_commas_dropped_witness :
  drop_commas 0 ("{" ++ quoted "a" ++ ":[1]," ++ Str.nl ++ "}")
  = "{" ++ quoted "a" ++ ":[1]}".
Proof.
  apply (proj2 (proj2 (trailing_commas_dropped _)) ("{" ++ quoted "a" ++ ":[1]") Str.nl
           "}"%char ""); reflexivity.
Defined.


(** *** Prose before the object *)

Lemma code_inj a b : Str.code a = Str.code b -> a = b.
Proof.
  unfold Str.code. intros H. apply Nat2Z.inj in H.
  rewrite <- (ascii_nat_embedding a), <- (ascii_nat_embedding b). now rewrite H.
Qed.

Lemma code_eqb_brace c : (Str.code c =? 123) = Ascii.eqb "{" c.
Proof.
  destruct (Ascii.eqb_spec "{" c) as [<-|Hne]; [reflexivity|].
  apply Z.eqb_neq. intros H. apply Hne. symmetry. now apply code_inj.
Qed.

Lemma from_brace_app q r :
  Str.contains "{" q = false -> from_brace (q ++ String "{" r) = Some (String "{" r).
Proof.
  induction q as [|c q IH]; [reflexivity|].
  cbn [Str.contains Str.startswith]. intros H. apply orb_false_elim in H as [H1 H2].
  rewrite andb_true_r in H1. cbn [append from_brace].
  now rewrite code_eqb_brace, H1, (IH H2).
Qed.

Lemma contains_suffix sub p q : Str.contains sub q = true -> Str.contains sub (p ++ q) = true.
Proof.
  intros H. apply contains_trans with q; [exact H|].
  apply contains_iff. exists p, "". now rewrite append_nil_r.
Qed.

Lemma not_contains_suffix sub p q :
  Str.contains sub (p ++ q) = false -> Str.contains sub q = false.
Proof.
  intros H. destruct (Str.contains sub q) eqn:E; [|reflexivity].
  apply (contains_suffix sub p) in E. congruence.
Qed.

(** The text of an object, from its opening brace to its closing brace *)
Lemma brace_search_object q body :
  Str.contains "{" q = false ->
  brace_search (q ++ "{" ++ body ++ "}") = Some ("{" ++ body ++ "}").
Proof.
  intros Hq. unfold brace_search.
  change ("{" ++ body ++ "}") with (String "{" (body ++ "}")).
  rewrite (from_brace_app q _ Hq), rev_app.
  change (Str.rev "}" ++ Str.rev body) with (String "}" (Str.rev body)).
  rewrite lstrip_plain by (change (Str.code "}") with 125; lia).
  reflexivity.
Qed.

Lemma rev_object body :
  Str.rev ("{" ++ body ++ "}") = String "}" (Str.rev body ++ "{").
Proof.
  change ("{" ++ body ++ "}") with (String "{" (body ++ "}")).
  rewrite rev_cons, rev_app. reflexivity.
Qed.

Lemma strip_object body : Str.strip ("{" ++ body ++ "}") = "{" ++ body ++ "}".
Proof.
  unfold Str.strip, Str.rstrip, Str.lstrip.
  rewrite rev_object, lstrip_plain by (change (Str.code "}") with 125; lia).
  rewrite <- rev_object, rev_involutive.
  apply lstrip_plain. change (Str.code "{") with 123. lia.
Qed.

Lemma strip_before_object prose body :
  exists skipped kept,
    prose = skipped ++ kept
    /\ Str.strip (prose ++ "{" ++ body ++ "}") = kept ++ "{" ++ body ++ "}".
Proof.
  unfold Str.strip, Str.rstrip, Str.lstrip.
  assert (Hr : Str.rev (prose ++ "{" ++ body ++ "}")
               = String "}" ((Str.rev body ++ "{") ++ Str.rev prose)).
  { now rewrite rev_app, rev_object. }
  rewrite Hr, lstrip_plain by (change (Str.code "}") with 125; lia).
  rewrite <- Hr, rev_involutive.
  apply (lstrip_before_plain false). change (Str.code "{") with 123. lia.
Qed.

(** X14.  Prose before the object is left out: a reply that is some text
    without a brace and without a fence, and then an object from its
    opening brace to its closing brace, is read as the object alone is. *)
Theorem prose_before_braces (prose body : string) :
  Str.contains "{" prose = false ->
  Str.contains fence (prose ++ "{" ++ body ++ "}") = false ->
  _extract_and_normalize_json (prose ++ "{" ++ body ++ "}")
  = _extract_and_normalize_json ("{" ++ body ++ "}")
  /\ normalize (prose ++ "{" ++ body ++ "}") = normalize ("{" ++ body ++ "}").
Proof.
  intros Hbrace Hfence.
  assert (He : _extract_and_normalize_json (prose ++ "{" ++ body ++ "}")
               = _extract_and_normalize_json ("{" ++ body ++ "}")).
  { destruct (strip_before_object prose body) as (skipped & kept & Hp & Hs).
    unfold _extract_and_normalize_json. rewrite Hs, strip_object.
    assert (Hk : Str.contains "{" kept = false).
    { rewrite Hp in Hbrace. now apply not_contains_suffix in Hbrace. }
    assert (Hf1 : Str.contains fence (kept ++ "{" ++ body ++ "}") = false).
    { rewrite Hp, append_assoc in Hfence. now apply not_contains_suffix in Hfence. }
    assert (Hf2 : Str.contains fence ("{" ++ body ++ "}") = false).
    { now apply not_contains_suffix in Hfence. }
    rewrite (fence_search_none _ Hf1), (fence_search_none _ Hf2).
    rewrite (brace_search_object kept body Hk).
    pose proof (brace_search_object "" body eq_refl) as Hb. cbn [append] in Hb.
    cbn [append]. now rewrite Hb. }
  split; [exact He|]. unfold normalize. now rewrite He.
Qed.

Lemma prose_before_braces_witness :
  normalize ("Sure! Here's the recipe: " ++ "{" ++ (quoted "title" ++ ":" ++ quoted "Dal") ++ "}")
  = normalize ("{" ++ (quoted "title" ++ ":" ++ quoted "Dal") ++ "}").
Proof.
  apply (prose_before_braces "Sure! Here's the recipe: "
           (quoted "title" ++ ":" ++ quoted "Dal")); reflexivity.
Defined.


(** *** A fenced block inside prose *)

Lemma before_fence_closing body post :
  Str.contains fence body = false ->
  before_fence (body ++ Str.nl ++ fence ++ post) = Some (body ++ Str.nl).
Proof.
  rewrite nl_app.
  induction body as [|c body IH]; intros H; [reflexivity|].
  cbn [Str.contains] in H. apply orb_false_elim in H as [H1 H2].
  pose proof (startswith_fence_nl (String c body) (fence ++ post)) as E.
  cbn [append before_fence] in *. rewrite E, H1, (IH H2). reflexivity.
Qed.

Lemma fence_search_skip kept s :
  Str.contains "`" kept = false -> fence_search (kept ++ s) = fence_search s.
Proof.
  induction kept as [|c kept IH]; [reflexivity|].
  cbn [Str.contains Str.startswith]. intros H. apply orb_false_elim in H as [H1 H2].
  rewrite andb_true_r in H1.
  cbn [append]. rewrite fence_search_unfold. unfold fence_at.
  cbn [fence Str.startswith]. rewrite H1. cbn [andb]. now apply IH.
Qed.

(** The stripped form of a text around a block that begins and ends with a
    backtick *)
Lemma strip_around_block pre inner post :
  exists skipped kept kept' dropped,
    pre = skipped ++ kept /\ post = kept' ++ dropped
    /\ Str.strip (pre ++ String "`" (inner ++ String "`" post))
       = kept ++ String "`" (inner ++ String "`" kept').
Proof.
  unfold Str.strip, Str.rstrip, Str.lstrip.
  assert (Hb : 33 <= Str.code "`" < 128) by (change (Str.code "`") with 96; lia).
  assert (Hr : Str.rev (pre ++ String "`" (inner ++ String "`" post))
               = Str.rev post ++ String "`" (Str.rev (pre ++ String "`" inner))).
  { replace (pre ++ String "`" (inner ++ String "`" post))
      with ((pre ++ String "`" inner) ++ String "`" post)
      by (rewrite append_assoc; reflexivity).
    now rewrite rev_app, rev_cons, append_assoc. }
  rewrite Hr.
  destruct (lstrip_before_plain true "`" (Str.rev (pre ++ String "`" inner)) Hb
              (Str.rev post)) as (sk' & k' & Hpost & ->).
  assert (Hback : Str.rev (k' ++ String "`" (Str.rev (pre ++ String "`" inner)))
                  = pre ++ String "`" (inner ++ String "`" (Str.rev k'))).
  { rewrite rev_app, rev_cons, rev_involutive, !append_assoc. reflexivity. }
  rewrite Hback.
  destruct (lstrip_before_plain false "`" (inner ++ String "`" (Str.rev k')) Hb pre)
    as (sk & k & Hpre & ->).
  exists sk, k, (Str.rev k'), (Str.rev sk'). repeat split; [exact Hpre|].
  rewrite <- rev_app, <- Hpost. now rewrite rev_involutive.
Qed.

(** X15.  A fenced block inside prose: a reply that is some text without a
    backtick, a fenced block (with the tag [json] in any case, or with no
    tag) around a text without a fence in it, and any text after the block,
    is read as the text inside the block is. *)
Theorem fence_inside_prose (pre tag body post : string) :
  tag = "" \/ Str.lower tag = "json" ->
  Str.contains "`" pre = false ->
  Str.contains fence body = false ->
  _extract_and_normalize_json (pre ++ fenced tag body ++ post)
  = _extract_and_normalize_json body
  /\ normalize (pre ++ fenced tag body ++ post) = normalize body.
Proof.
  intros Htag Hpre Hbody.
  assert (He : _extract_and_normalize_json (pre ++ fenced tag body ++ post)
               = _extract_and_normalize_json body).
  { assert (Hshape : pre ++ fenced tag body ++ post
                     = pre ++ String "`" (("``" ++ tag ++ Str.nl ++ body ++ Str.nl ++ "``")
                                            ++ String "`" post)).
    { unfold fenced, fence. cbn [append]. now rewrite !append_assoc. }
    destruct (strip_around_block pre ("``" ++ tag ++ Str.nl ++ body ++ Str.nl ++ "``") post)
      as (sk & kept & kept' & dr & Hp & Hq & Hs).
    unfold _extract_and_normalize_json. rewrite Hshape, Hs.
    assert (Hk : Str.contains "`" kept = false).
    { rewrite Hp in Hpre. now apply not_contains_suffix in Hpre. }
    rewrite (fence_search_skip kept _ Hk), fence_search_unfold.
    assert (Hblock : String "`" (("``" ++ tag ++ Str.nl ++ body ++ Str.nl ++ "``")
                                   ++ String "`" kept')
                     = fence ++ tag ++ Str.nl ++ (body ++ Str.nl ++ fence ++ kept')).
    { unfold fence. cbn [append]. now rewrite !append_assoc. }
    rewrite Hblock.
    rewrite (fence_at_after tag _ (body ++ Str.nl) Htag)
      by now apply before_fence_closing.
    now rewrite strip_newline, (fence_search_stripped body Hbody). }
  split; [exact He|]. unfold normalize. now rewrite He.
Qed.

Lemma fence_inside_prose_witness :
  normalize ("Here is the recipe:" ++ Str.nl ++ fenced "json" dal_text ++ Str.nl ++ "Enjoy!")
  = normalize dal_text.
Proof.
  apply (fence_inside_prose ("Here is the recipe:" ++ Str.nl) "json" dal_text
           (Str.nl ++ "Enjoy!")).
  - now right.
  - reflexivity.
  - reflexivity.
Defined.

End RepairFacts.

(** ** Properties of the generators and their endpoints *)

Module GeneratorFacts.
Import Invoker InvokerFacts Generator.

Lemma backoff_defaults k :
  (k <= 3)%nat -> backoff 1%float k = firstn k [1; 2; 4]%float.
Proof.
  intros Hk. destruct k as [|[|[|[|k]]]]; try reflexivity. lia.
Qed.

Lemma key_cases env :
  (env = None \/ env = Some "") /\ _get_api_key env = Fails RuntimeError
  \/ exists key, env = Some key /\ key <> "" /\ _get_api_key env = Done key.
Proof.
  destruct env as [[|c key]|].
  - left. split; [now right | reflexivity].
  - right. exists (String c key). repeat split. discriminate.
  - left. split; [now left | reflexivity].
Qed.

Section Facts.

Variable Rest : Type.
Variable rest_fields : pydict -> option Rest.
Variables S Model Reply : Type.
Variable open_model : string -> float -> outcome Model.
Variable generate_content : Model -> string -> S -> outcome Reply * S.
Variable response_text : Reply -> outcome string.
Variable pass : float -> S -> S.

Local Abbreviation Recipe := (Validator.Recipe Rest).
Local Abbreviation world := (world S Reply).
Local Abbreviation ask := (ask S Model Reply open_model generate_content response_text pass).
Local Abbreviation parse := (parse Rest rest_fields).
Local Abbreviation generate :=
  (generate Rest rest_fields S Model Reply open_model generate_content response_text pass).
Local Abbreviation generate_recipe_from_text :=
  (generate_recipe_from_text Rest rest_fields S Model Reply open_model generate_content
     response_text pass).
Local Abbreviation generate_recipe_from_prompt :=
  (generate_recipe_from_prompt Rest rest_fields S Model Reply open_model generate_content
     response_text pass).
Local Abbreviation recipe_from_text :=
  (recipe_from_text Rest rest_fields S Model Reply open_model generate_content
     response_text pass).
Local Abbreviation recipe_from_prompt :=
  (recipe_from_prompt Rest rest_fields S Model Reply open_model generate_content
     response_text pass).

Lemma bounded_refl (w : world) : bounded w w.
Proof.
  exists [], 0%nat. rewrite app_nil_r. repeat split; auto with arith.
Qed.

Lemma retries_bounded call_fn w :
  bounded w (snd (_call_with_retries S Reply call_fn pass 4 1%float w)).
Proof.
  unfold _call_with_retries, range.
  change (Z.to_nat (4 + 1 - 1)) with 4%nat.
  destruct (attempts_loop_spec S Reply call_fn pass 4 3 1 1%float
              (Exception "Call failed after retries") w eq_refl)
    as (fails & final & He & _ & Hl & _).
  exists (retried fails 1%float ++ [Called final])%list, (length fails).
  rewrite attempts_retried, sleeps_retried.
  repeat split; [exact He | exact Hl | lia | now apply backoff_defaults].
Qed.

(** A value that the invoker returns is the outcome of its last call. *)
Lemma retries_return call_fn w reply :
  fst (_call_with_retries S Reply call_fn pass 4 1%float w) = Returns reply ->
  exists evs,
    events (snd (_call_with_retries S Reply call_fn pass 4 1%float w))
    = (evs ++ [Called (Returns reply)])%list.
Proof.
  unfold _call_with_retries, range.
  change (Z.to_nat (4 + 1 - 1)) with 4%nat.
  destruct (attempts_loop_spec S Reply call_fn pass 4 3 1 1%float
              (Exception "Call failed after retries") w eq_refl)
    as (fails & final & He & _ & _ & _ & _ & [[Hr _]|(e & e' & _ & _ & _ & _ & _ & Hr)]);
    intros Hrun; rewrite Hrun in Hr; [|discriminate Hr].
  subst final. exists (events w ++ retried fails 1%float)%list.
  rewrite He, <- app_assoc. reflexivity.
Qed.

(** A text that the first [try] block gives is the text of the reply that
    the last call of the model returned. *)
Lemma ask_text key prompt variation w text :
  fst (ask key prompt variation w) = Returns text ->
  exists evs reply,
    events (snd (ask key prompt variation w)) = (evs ++ [Called (Returns reply)])%list
    /\ response_text reply = Returns text.
Proof.
  unfold Generator.ask.
  destruct (open_model key (temperature variation)) as [model|e]; [|discriminate].
  pose proof (retries_return (generate_content model prompt) w) as Hret.
  destruct (_call_with_retries S Reply (generate_content model prompt) pass 4 1%float w)
    as [[reply|e] w1]; [|discriminate].
  cbn [fst snd] in *. intros Ht.
  destruct (Hret reply eq_refl) as [evs He]. now exists evs, reply.
Qed.

Lemma ask_bounded key prompt variation w :
  bounded w (snd (ask key prompt variation w)).
Proof.
  unfold Generator.ask. destruct (open_model key (temperature variation)) as [model|e];
    [|apply bounded_refl].
  pose proof (retries_bounded (generate_content model prompt) w) as Hb.
  destruct (_call_with_retries S Reply (generate_content model prompt) pass 4 1%float w)
    as [o w1].
  now destruct o.
Qed.

Lemma parse_cases text :
  (exists recipe r, parse text = Done recipe
                    /\ Extract.normalize text = Ok r
                    /\ Validator.validate Rest rest_fields r = Ok recipe)
  \/ parse text = Fails (Class ValueError).
Proof.
  unfold Generator.parse, Extract.normalize.
  destruct (Extract._extract_and_normalize_json text) as [data|e]; [|now right].
  cbn [bind]. destruct (Normalizer._coerce_recipe_dict data) as [r|e]; [|now right].
  cbn [bind]. destruct (Validator.validate Rest rest_fields r) as [recipe|e] eqn:E;
    [|now right].
  left. now exists recipe, r.
Qed.

Lemma generate_cases key prompt variation w :
  let run := generate key prompt variation w in
  bounded w (snd run)
  /\ ((exists recipe evs reply text r,
         fst run = Done recipe
         /\ events (snd run) = (evs ++ [Called (Returns reply)])%list
         /\ response_text reply = Returns text
         /\ Extract.normalize text = Ok r
         /\ Validator.validate Rest rest_fields r = Ok recipe)
      \/ fst run = Fails (Class ValueError)
      \/ (exists e, ordinary e = false /\ fst run = Fails (Passed e))).
Proof.
  intros run. unfold run, Generator.generate.
  pose proof (ask_bounded key prompt variation w) as Hb.
  pose proof (ask_text key prompt variation w) as Ht.
  destruct (ask key prompt variation w) as [[text|e] w1]; cbn [fst snd] in *.
  - split; [exact Hb|].
    destruct (parse_cases text) as [(recipe & r & Hp & Hn & Hv)|Hp]; rewrite Hp.
    + left. destruct (Ht text eq_refl) as (evs & reply & He & Hr).
      now exists recipe, evs, reply, text, r.
    + right. now left.
  - destruct (ordinary e) eqn:Ho; cbn [fst snd].
    + split; [exact Hb | right; now left].
    + split; [exact Hb | right; right; now exists e].
Qed.

(** X16.  What a generator gives.  Without a key in the environment (none,
    or an empty one) it raises [RuntimeError] and the model is not called.
    With a key it returns a recipe or raises [ValueError]; nothing else
    leaves it but an exception of the provider's library that is no
    instance of [Exception], which goes through as it is.  The model is
    called at most four times, with sleeps of 1, 2 and 4 seconds between
    the calls.  A recipe that is returned comes from the reply of the last
    call of the model in the run: it is the validated form of the coerced
    object that is extracted from the text of that reply. *)
Theorem generator_outcomes :
  let sound (env : option string) (w : world) (run : answer Recipe * world) :=
    ((env = None \/ env = Some "") -> run = (Fails RuntimeError, w))
    /\ (forall key, env = Some key -> key <> "" ->
          (exists recipe, fst run = Done recipe)
          \/ fst run = Fails (Class ValueError)
          \/ (exists e, ordinary e = false /\ fst run = Fails (Passed e)))
    /\ bounded w (snd run)
    /\ (forall recipe, fst run = Done recipe ->
          exists evs reply text r,
            events (snd run) = (evs ++ [Called (Returns reply)])%list
            /\ response_text reply = Returns text
            /\ Extract.normalize text = Ok r
            /\ Validator.validate Rest rest_fields r = Ok recipe) in
  (forall env payload drawn w,
     sound env w (generate_recipe_from_text env payload drawn w))
  /\ (forall env payload drawn w,
        sound env w (generate_recipe_from_prompt env payload drawn w)).
Proof.
  intros sound.
  assert (H : forall env prompt variation w,
             sound env w
               (match _get_api_key env with
                | Fails e => (Fails e, w)
                | Done key => generate key prompt variation w
                end)).
  { intros env prompt variation w.
    destruct (key_cases env) as [[Hno Hk]|(key & -> & Hne & Hk)]; rewrite Hk.
    - repeat split.
      + intros key -> Hne. destruct Hno as [Hno|Hno]; [discriminate | congruence].
      + apply bounded_refl.
      + discriminate.
    - assert (Hkey : ~ (Some key = None \/ Some key = Some "")).
      { intros [Hno|Hno]; [discriminate | congruence]. }
      destruct (generate_cases key prompt variation w)
        as (Hb & [(recipe & evs & reply & text & r & Hd & He & Hr & Hn & Hv)
                 |[Hf|(e & Ho & Hf)]]).
      + split; [intros Hno; now destruct Hkey|]. split; [|split; [exact Hb|]].
        * intros _ _ _. left. now exists recipe.
        * intros recipe' Hd'. rewrite Hd in Hd'. injection Hd' as <-.
          now exists evs, reply, text, r.
      + split; [intros Hno; now destruct Hkey|]. split; [|split; [exact Hb|]].
        * intros _ _ _. right. now left.
        * intros recipe' Hd'. rewrite Hf in Hd'. discriminate.
      + split; [intros Hno; now destruct Hkey|]. split; [|split; [exact Hb|]].
        * intros _ _ _. right. right. now exists e.
        * intros recipe' Hd'. rewrite Hf in Hd'. discriminate. }
  split; intros env payload drawn w; apply H.
Qed.

(** X17.  What the endpoints [recipe_from_text] and [recipe_from_prompt]
    answer once the user is authenticated: the recipe, or the status 400,
    or the status 500.  The status is 500 exactly when the key is missing
    from the environment; whatever fails after that (the call of the
    model, the extraction, the coercion, the validation of the recipe) gives
    the status 400, and the status 422 of the endpoints' first handler is
    never given. *)
Theorem endpoint_statuses :
  let sound (env : option string) (run : answer Recipe * world)
            (out : http Recipe * world) :=
    snd out = snd run
    /\ (forall recipe, fst out = Response recipe <-> fst run = Done recipe)
    /\ (fst out = HTTPException 500 <-> (env = None \/ env = Some ""))
    /\ (fst out = HTTPException 400 <-> fst run = Fails (Class ValueError))
    /\ (forall status_code, fst out = HTTPException status_code ->
          status_code = 400 \/ status_code = 500) in
  (forall env payload drawn w,
     sound env (generate_recipe_from_text env payload drawn w)
       (recipe_from_text env payload drawn w))
  /\ (forall env payload drawn w,
        sound env (generate_recipe_from_prompt env payload drawn w)
          (recipe_from_prompt env payload drawn w)).
Proof.
  intros sound.
  assert (H : forall env prompt variation w,
             let run := match _get_api_key env with
                        | Fails e => (Fails e, w)
                        | Done key => generate key prompt variation w
                        end in
             sound env run (let (a, w1) := run in (respond Rest a, w1))).
  { intros env prompt variation w run. unfold run.
    destruct (key_cases env) as [[Hno Hk]|(key & -> & Hne & Hk)]; rewrite Hk.
    - cbn [fst snd respond is_validation_error is_value_error].
      split; [reflexivity|]. split; [|split; [|split]].
      + intros recipe. split; discriminate.
      + split; [intros _; exact Hno | reflexivity].
      + split; discriminate.
      + intros status_code [= <-]. now right.
    - destruct (generate_cases key prompt variation w) as (_ & Hc).
      destruct (generate key prompt variation w) as [a w1]. cbn [fst snd] in *.
      assert (Hkey : ~ (Some key = None \/ Some key = Some "")).
      { intros [Hno|Hno]; [discriminate | congruence]. }
      destruct Hc as [(recipe & evs & reply & text & r & -> & _)|[->|(e & _ & ->)]];
        cbn [fst snd respond is_validation_error is_value_error].
      + split; [reflexivity|]. split; [|split; [|split]].
        * intros recipe'. split; intros [= <-]; reflexivity.
        * split; [discriminate | intros Hno; now contradiction Hkey].
        * split; discriminate.
        * discriminate.
      + split; [reflexivity|]. split; [|split; [|split]].
        * intros recipe'. split; discriminate.
        * split; [discriminate | intros Hno; now contradiction Hkey].
        * split; reflexivity.
        * intros status_code [= <-]. now left.
      + split; [reflexivity|]. split; [|split; [|split]].
        * intros recipe'. split; discriminate.
        * split; [discriminate | intros Hno; now contradiction Hkey].
        * split; discriminate.
        * discriminate. }
  split; intros env payload drawn w; apply H.
Qed.

End Facts.

Lemma endpoint_statuses_witness :
  fst (recipe_from_text unit (fun _ => Some tt) unit unit string
         (fun _ _ => Returns tt) (fun _ _ => no_servings_reply) (fun text => Returns text)
         (fun _ s => s) (Some "key") PromptBuilder.hindi_request 0
         {| outside := tt; events := [] |})
  = HTTPException 400.
Proof.
  apply (proj1 (proj2 (proj2 (proj2
           (proj1 (endpoint_statuses unit (fun _ => Some tt) unit unit string
                     (fun _ _ => Returns tt) (fun _ _ => no_servings_reply)
                     (fun text => Returns text) (fun _ s => s))
              (Some "key") PromptBuilder.hindi_request 0%nat
              {| outside := tt; events := [] |}))))).
  vm_compute. reflexivity.
Defined.

End GeneratorFacts.

(** ** Properties of the store *)

Module StoreFacts.
Import Store.

Lemma next_id_above seq ids :
  seq < next_id seq ids /\ Forall (fun i => i < next_id seq ids) ids.
Proof.
  unfold next_id. induction ids as [|i ids [IH1 IH2]]; simpl.
  - split; [lia | constructor].
  - split; [lia|]. constructor; [lia|].
    eapply Forall_impl; [|exact IH2]. simpl. intros a Ha. lia.
Qed.

Lemma next_id_new seq ids : ~ In (next_id seq ids) ids.
Proof.
  intros Hin. destruct (next_id_above seq ids) as [_ H].
  rewrite Forall_forall in H. apply H in Hin. lia.
Qed.

Lemma filter_none {A : Type} (f : A -> bool) (l : list A) :
  existsb f l = false -> filter (fun x => negb (f x)) l = l.
Proof.
  induction l as [|x l IH]; [reflexivity|].
  simpl. intros H. apply orb_false_elim in H as [H1 H2].
  now rewrite H1, (IH H2).
Qed.

Lemma find_app {A : Type} (f : A -> bool) (l1 l2 : list A) :
  find f (l1 ++ l2) = match find f l1 with Some x => Some x | None => find f l2 end.
Proof. induction l1 as [|x l1 IH]; simpl; [reflexivity|]. now destruct (f x). Qed.

Lemma find_absent {A : Type} (f : A -> bool) (l : list A) :
  (forall x, In x l -> f x = false) -> find f l = None.
Proof.
  induction l as [|x l IH]; [reflexivity|]. intros H. simpl.
  rewrite (H x) by now left. apply IH. intros y Hy. apply H. now right.
Qed.

Lemma NoDup_snoc {A : Type} (l : list A) (x : A) : NoDup l -> ~ In x l -> NoDup (l ++ [x]).
Proof.
  intros Hl Hx. apply NoDup_app; [exact Hl | repeat constructor; auto|].
  intros a Ha [<-|[]]. contradiction.
Qed.

Lemma NoDup_map_filter {A B : Type} (g : A -> B) (f : A -> bool) (l : list A) :
  NoDup (map g l) -> NoDup (map g (filter f l)).
Proof.
  induction l as [|x l IH]; simpl; [constructor|].
  intros H. inversion H as [|? ? Hx Hl]; subst.
  destruct (f x); [|now apply IH]. simpl. constructor; [|now apply IH].
  intros Hin. apply Hx. apply in_map_iff in Hin as (y & Hy & Hin).
  apply filter_In in Hin as [Hin _]. apply in_map_iff. now exists y.
Qed.

Lemma NoDup_map_eq {A B : Type} (g : A -> B) (l : list A) (x y : A) :
  NoDup (map g l) -> In x l -> In y l -> g x = g y -> x = y.
Proof.
  induction l as [|z l IH]; [contradiction|].
  simpl. intros Hnd Hx Hy E. inversion Hnd as [|? ? Hz Hrest]; subst.
  destruct Hx as [->|Hx], Hy as [->|Hy]; auto.
  - exfalso. apply Hz. rewrite E. now apply in_map.
  - exfalso. apply Hz. rewrite <- E. now apply in_map.
Qed.

(** In a table without two rows of the same id, the rows with the id of a
    row of the table are that row alone. *)
Lemma find_by_id (rows : list saved_recipe) rid uid r :
  NoDup (map recipe_id rows) ->
  find (owned rid uid) rows = Some r ->
  forall u, find (owned rid u) (filter (fun x => negb (owned rid uid x)) rows) = None.
Proof.
  intros Hnd Hf u. apply find_absent. intros x Hx.
  apply filter_In in Hx as [Hin Hno]. apply negb_true_iff in Hno.
  apply find_some in Hf as [Hr Ho].
  unfold owned in *. apply andb_true_iff in Ho as [Hid Hu].
  apply Z.eqb_eq in Hid, Hu.
  destruct (recipe_id x =? rid) eqn:E; [|reflexivity].
  apply Z.eqb_eq in E. exfalso.
  assert (x = r) by (apply (NoDup_map_eq recipe_id rows); auto; congruence).
  subst x. cbn [andb] in Hno. rewrite Hu, Z.eqb_refl in Hno. discriminate.
Qed.

Section Facts.

Variable sha256 : string -> string.

Local Abbreviation create_user := (create_user sha256).
Local Abbreviation matching_user := (matching_user sha256).
Local Abbreviation verify_user := (verify_user sha256).
Local Abbreviation signup := (signup sha256).
Local Abbreviation login_user := (login_user sha256).

(** X18.  Saving a recipe and reading it back.  A text that does not parse
    as JSON is refused with [ValueError]; any other is saved.  The recipe
    saved under the id that is returned is read back by its owner with the
    title, the text and the time it was saved with, and by no other user;
    the id is one no recipe had before, and the recipes under the other ids
    are read as before.  The table keeps its ids distinct and its texts
    parsable. *)
Theorem saved_recipe_round_trip (now : string) (uid : Z) (title data : string)
    (db : database) :
  (Json.loads data = Raise JSONDecodeError ->
     save_recipe now uid title data db = Raise ValueError)
  /\ (forall v, Json.loads data = Ok v ->
        exists rid db', save_recipe now uid title data db = Ok (rid, db'))
  /\ (forall rid db', save_recipe now uid title data db = Ok (rid, db') ->
        get_recipe rid uid db'
        = Some [("id", PInt rid); ("recipe_title", PStr title);
                ("recipe_data", PStr data); ("created_at", PStr now)]
        /\ (forall u, u <> uid -> get_recipe rid u db' = None)
        /\ (forall u, get_recipe rid u db = None)
        /\ (forall rid' u, rid' <> rid -> get_recipe rid' u db' = get_recipe rid' u db)
        /\ (consistent db -> consistent db')
        /\ (sequenced db -> sequenced db')
        /\ (parsable db -> parsable db')).
Proof.
  unfold save_recipe. split; [|split].
  - now intros ->.
  - intros v ->. eauto.
  - intros rid db'. destruct (Json.loads data) as [v|e] eqn:El;
      [|destruct e; discriminate].
    intros [= <- <-].
    set (rid := next_id (saved_recipes_seq db) (map recipe_id (saved_recipes db))).
    assert (Hnew : forall u, find (owned rid u) (saved_recipes db) = None).
    { intros u. apply find_absent. intros x Hx. unfold owned.
      destruct (recipe_id x =? rid) eqn:E; [|reflexivity].
      apply Z.eqb_eq in E. exfalso.
      apply (next_id_new (saved_recipes_seq db) (map recipe_id (saved_recipes db))).
      fold rid. rewrite <- E. now apply in_map. }
    unfold get_recipe. cbn [saved_recipes].
    split; [|split; [|split; [|split; [|split; [|split]]]]].
    + rewrite find_app, Hnew. cbn [find]. unfold owned at 1. cbn [recipe_id recipe_user_id].
      now rewrite !Z.eqb_refl.
    + intros u Hu. rewrite find_app, Hnew. cbn [find]. unfold owned at 1. cbn [recipe_id recipe_user_id].
      rewrite Z.eqb_refl. cbn [andb].
      assert (E : (uid =? u) = false) by (apply Z.eqb_neq; congruence).
      now rewrite E.
    + intros u. now rewrite Hnew.
    + intros rid' u Hne. rewrite find_app.
      destruct (find (owned rid' u) (saved_recipes db)); [reflexivity|].
      cbn [find]. unfold owned at 1. cbn [recipe_id recipe_user_id].
      assert (E : (rid =? rid') = false) by (apply Z.eqb_neq; congruence).
      now rewrite E.
    + intros (H1 & H2 & H3 & H4 & H5). unfold consistent. cbn.
      repeat split; auto. rewrite map_app. apply NoDup_snoc; [exact H5|].
      apply next_id_new.
    + intros (H1 & H2 & H3). unfold sequenced. cbn. repeat split; auto.
      destruct (next_id_above (saved_recipes_seq db) (map recipe_id (saved_recipes db)))
        as [Hs _]. fold rid in Hs.
      apply Forall_app. split.
      * eapply Forall_impl; [|exact H3]. simpl. intros r Hr. lia.
      * constructor; [simpl; lia | constructor].
    + intros Hp. unfold parsable. cbn. apply Forall_app. split; [exact Hp|].
      constructor; [now exists v | constructor].
Qed.

(** X19.  Deleting a recipe.  [delete_recipe] answers [True] exactly when
    the user owns a recipe of that id; it then leaves no recipe of that id,
    and in any case leaves the recipes of other ids and the recipes the user
    does not own as they were: a user who is not the owner deletes
    nothing, and the endpoint answers such a user with the status 404.  The
    id of a deleted recipe is not given to a recipe saved later. *)
Theorem recipe_deleted_by_owner (rid uid : Z) (db : database) :
  consistent db -> sequenced db ->
  let deleted := fst (delete_recipe rid uid db) in
  let db' := snd (delete_recipe rid uid db) in
  (deleted = true <-> exists r, get_recipe rid uid db = Some r)
  /\ (deleted = false -> db' = db)
  /\ (deleted = true -> forall u, get_recipe rid u db' = None)
  /\ (forall rid' u, rid' <> rid \/ u <> uid ->
        get_recipe rid' u db' = get_recipe rid' u db)
  /\ (forall owner r, owner <> uid -> get_recipe rid owner db = Some r ->
        delete_recipe_endpoint rid uid db = (HTTPException 404, db))
  /\ consistent db' /\ sequenced db' /\ (parsable db -> parsable db')
  /\ (deleted = true ->
        forall now u title data rid' db'',
          save_recipe now u title data db' = Ok (rid', db'') -> rid < rid').
Proof.
  intros Hc Hs deleted db'. unfold deleted, db', delete_recipe. cbn [fst snd].
  assert (Hex : existsb (owned rid uid) (saved_recipes db) = true
                <-> exists r, get_recipe rid uid db = Some r).
  { unfold get_recipe. split.
    - intros H. apply existsb_exists in H as (x & Hin & Hx).
      destruct (find (owned rid uid) (saved_recipes db)) as [r|] eqn:E;
        [now exists (recipe_dict r)|].
      eapply find_none in E; [|exact Hin]. congruence.
    - intros [r H].
      destruct (find (owned rid uid) (saved_recipes db)) as [x|] eqn:E; [|discriminate].
      apply find_some in E as [Hin Hx]. apply existsb_exists. now exists x. }
  assert (Hsame : existsb (owned rid uid) (saved_recipes db) = false ->
                  snd (delete_recipe rid uid db) = db).
  { intros H. destruct db as [us useq ss sseq rs rseq]. cbn in *. f_equal.
    now apply filter_none. }
  split; [exact Hex|]. split; [|split; [|split; [|split; [|split; [|split; [|split]]]]]].
  - exact Hsame.
  - intros H u. apply Hex in H as [r H]. unfold get_recipe in *. cbn [saved_recipes].
    destruct (find (owned rid uid) (saved_recipes db)) as [x|] eqn:E; [|discriminate].
    destruct Hc as (_ & _ & _ & _ & Hnd).
    now rewrite (find_by_id _ rid uid x Hnd E u).
  - intros rid' u Hne. unfold get_recipe. cbn [saved_recipes]. f_equal.
    clear Hex Hc Hs Hsame. induction (saved_recipes db) as [|x rows IH]; [reflexivity|].
    simpl. destruct (owned rid uid x) eqn:Eo; simpl.
    + assert (E : owned rid' u x = false).
      { unfold owned in *. apply andb_true_iff in Eo as [E1 E2].
        apply Z.eqb_eq in E1, E2. apply andb_false_iff.
        destruct Hne as [Hne|Hne]; [left | right]; apply Z.eqb_neq; congruence. }
      rewrite E. exact IH.
    + destruct (owned rid' u x); [reflexivity | exact IH].
  - intros owner r Hne Hr. unfold delete_recipe_endpoint.
    assert (Hno : existsb (owned rid uid) (saved_recipes db) = false).
    { destruct (existsb (owned rid uid) (saved_recipes db)) eqn:E; [|reflexivity].
      exfalso. apply existsb_exists in E as (x & Hx & Ex).
      unfold get_recipe in Hr.
      destruct (find (owned rid owner) (saved_recipes db)) as [y|] eqn:Ey;
        [|discriminate].
      apply find_some in Ey as [Hy Ey]. unfold owned in Ex, Ey.
      apply andb_true_iff in Ex as [Ex1 Ex2]. apply andb_true_iff in Ey as [Ey1 Ey2].
      apply Z.eqb_eq in Ex1, Ex2, Ey1, Ey2.
      destruct Hc as (_ & _ & _ & _ & Hnd).
      assert (x = y) by (apply (NoDup_map_eq recipe_id (saved_recipes db)); auto; congruence).
      subst y. congruence. }
    specialize (Hsame Hno). unfold delete_recipe in *. cbn [snd] in Hsame.
    now rewrite Hno, Hsame.
  - destruct Hc as (H1 & H2 & H3 & H4 & H5). unfold consistent. cbn.
    repeat split; auto. now apply NoDup_map_filter.
  - destruct Hs as (H1 & H2 & H3). unfold sequenced. cbn. repeat split; auto.
    apply Forall_forall. intros x Hx. apply filter_In in Hx as [Hx _].
    rewrite Forall_forall in H3. now apply H3.
  - intros Hp. unfold parsable in *. cbn. apply Forall_forall. intros x Hx.
    apply filter_In in Hx as [Hx _]. rewrite Forall_forall in Hp. now apply Hp.
  - intros H now u title data rid' db''. unfold save_recipe.
    destruct (Json.loads data) as [v|e]; [|destruct e; discriminate].
    intros [= <- _]. cbn [saved_recipes saved_recipes_seq].
    apply existsb_exists in H as (x & Hin & Hx).
    destruct Hs as (_ & _ & H3). rewrite Forall_forall in H3. specialize (H3 x Hin).
    unfold owned in Hx. apply andb_true_iff in Hx as [Hx _]. apply Z.eqb_eq in Hx.
    match goal with |- _ < next_id ?s ?ids => destruct (next_id_above s ids) as [Hn _] end.
    lia.
Qed.


Lemma matching_user_app email' password (db : database) (u : user) rest :
  users db = (rest ++ [u])%list ->
  ~ In email' (map email rest) ->
  matching_user email' password db
  = if String.eqb (email u) email'
       && String.eqb (password_hash u) (hash_password sha256 password) && is_active u
    then Some u else None.
Proof.
  intros Hu Hno. unfold Store.matching_user. rewrite Hu, find_app.
  rewrite find_absent; [reflexivity|].
  intros x Hx. destruct (String.eqb_spec (email x) email') as [E|E]; [|reflexivity].
  exfalso. apply Hno. rewrite <- E. now apply in_map.
Qed.

(** X20.  Creating a user and checking a password.  [create_user] answers
    [False] exactly when the email is taken, and then changes nothing.
    When it answers [True], the email with the same password is verified
    and gives the new user, whose id no user had before; a password with
    another hash is not verified; the other emails are verified as before.
    So the endpoint [signup] answers with the new user or with the status
    400, and its [UserResponse] is never built from [None]. *)
Theorem user_created_and_verified (now email' password name' : string) (db : database) :
  let created := fst (create_user now email' password name' db) in
  let db' := snd (create_user now email' password name' db) in
  let id := next_id (users_seq db) (map user_id (users db)) in
  let info := [("id", PInt id); ("email", PStr email'); ("name", PStr name')] in
  (created = false <-> In email' (map email (users db)))
  /\ (created = false ->
        db' = db
        /\ signup now email' password name' db = (Some (HTTPException 400), db))
  /\ (created = true ->
        verify_user email' password db' = Some info
        /\ ~ In id (map user_id (users db))
        /\ (forall other, sha256 other <> sha256 password ->
              verify_user email' other db' = None)
        /\ (forall e p, e <> email' -> verify_user e p db' = verify_user e p db)
        /\ signup now email' password name' db = (Some (Returned info), db'))
  /\ (consistent db -> consistent db')
  /\ (sequenced db -> sequenced db').
Proof.
  intros created db' id info. unfold created, db', Store.signup, Store.create_user.
  destruct (existsb (fun u => String.eqb (email u) email') (users db)) eqn:E.
  - cbn [fst snd].
    assert (Hin : In email' (map email (users db))).
    { apply existsb_exists in E as (u & Hu & He). apply String.eqb_eq in He.
      rewrite <- He. now apply in_map. }
    split; [tauto|]. split; [auto|]. split; [discriminate | auto].
  - cbn [fst snd].
    assert (Hno : ~ In email' (map email (users db))).
    { intros Hin. apply in_map_iff in Hin as (u & He & Hu).
      assert (Ht : existsb (fun u => String.eqb (email u) email') (users db) = true).
      { apply existsb_exists. exists u. split; [exact Hu | now apply String.eqb_eq]. }
      congruence. }
    fold id.
    set (new := {| user_id := id; email := email';
                   password_hash := hash_password sha256 password; name := name';
                   user_created_at := now; is_active := true |}).
    set (db1 := {| users := users db ++ [new]; users_seq := id;
                   sessions := sessions db; sessions_seq := sessions_seq db;
                   saved_recipes := saved_recipes db;
                   saved_recipes_seq := saved_recipes_seq db |}).
    assert (Hm : forall p, matching_user email' p db1
                           = if String.eqb (hash_password sha256 password)
                                  (hash_password sha256 p)
                             then Some new else None).
    { intros p. rewrite (matching_user_app email' p db1 new (users db) eq_refl Hno).
      cbn [email password_hash is_active new]. rewrite String.eqb_refl.
      now rewrite andb_true_r. }
    assert (Hv : verify_user email' password db1 = Some info).
    { unfold Store.verify_user. rewrite Hm, String.eqb_refl. reflexivity. }
    split; [split; [discriminate | contradiction]|].
    split; [discriminate|]. split; [|split].
    + intros _. split; [exact Hv|]. split; [apply next_id_new|]. split; [|split].
      * intros other Ho. unfold Store.verify_user. rewrite Hm.
        destruct (String.eqb_spec (hash_password sha256 password)
                    (hash_password sha256 other)) as [Eh|Eh]; [|reflexivity].
        unfold hash_password in Eh. congruence.
      * intros e p He. unfold Store.verify_user, Store.matching_user. f_equal.
        cbn [users db1]. rewrite find_app.
        destruct (find _ (users db)); [reflexivity|].
        cbn [find email new].
        destruct (String.eqb_spec email' e) as [Ee|Ee]; [congruence | reflexivity].
      * now rewrite Hv.
    + intros (H1 & H2 & H3 & H4 & H5). unfold consistent. cbn [users sessions saved_recipes db1].
      rewrite !map_app. repeat split; auto.
      * apply NoDup_snoc; [exact H1 | apply next_id_new].
      * apply NoDup_snoc; [exact H2 | exact Hno].
    + intros (H1 & H2 & H3). unfold sequenced.
      cbn [users users_seq sessions sessions_seq saved_recipes saved_recipes_seq db1].
      repeat split; auto.
      destruct (next_id_above (users_seq db) (map user_id (users db))) as [Hs _].
      fold id in Hs. apply Forall_app. split.
      * eapply Forall_impl; [|exact H1]. simpl. intros u Hu. lia.
      * constructor; [simpl; lia | constructor].
Qed.

(** In a table without two users of the same id, the active users with the
    id of an active user of the table are that user alone. *)
Lemma users_by_id (rows : list user) (u : user) :
  NoDup (map user_id rows) -> In u rows -> is_active u = true ->
  filter (fun x => (user_id x =? user_id u) && is_active x) rows = [u].
Proof.
  induction rows as [|x rows IH]; [contradiction|].
  intros Hnd Hin Ha. simpl in Hnd. inversion Hnd as [|? ? Hx Hrest]; subst.
  assert (Hnone : forall l, ~ In (user_id u) (map user_id l) ->
                            filter (fun x => (user_id x =? user_id u) && is_active x) l = []).
  { induction l as [|y l IHl]; [reflexivity|]. intros Hy. simpl.
    assert (E : (user_id y =? user_id u) = false).
    { apply Z.eqb_neq. intros E. apply Hy. left. exact E. }
    rewrite E. apply IHl. intros Hl. apply Hy. now right. }
  simpl. destruct Hin as [->|Hin].
  - rewrite Z.eqb_refl, Ha. cbn [andb]. f_equal. now apply Hnone.
  - assert (E : (user_id x =? user_id u) = false).
    { apply Z.eqb_neq. intros E. apply Hx. rewrite E. now apply in_map. }
    rewrite E. now apply IH.
Qed.

Lemma session_users_app token now (db : database) (s : session) rest :
  sessions db = (rest ++ [s])%list ->
  ~ In token (map session_token rest) ->
  session_users token now db
  = if String.eqb (session_token s) token && String.ltb now (expires_at s)
    then filter (fun u => (user_id u =? session_user_id s) && is_active u) (users db)
    else [].
Proof.
  intros Hs Hno. unfold session_users. rewrite Hs, flat_map_app.
  assert (Hrest : flat_map
                    (fun s0 =>
                       if String.eqb (session_token s0) token
                          && String.ltb now (expires_at s0)
                       then filter (fun u => (user_id u =? session_user_id s0) && is_active u)
                              (users db)
                       else []) rest = []).
  { clear Hs. induction rest as [|x rest IH]; [reflexivity|].
    simpl. destruct (String.eqb_spec (session_token x) token) as [E|E].
    - exfalso. apply Hno. left. exact E.
    - cbn [andb app]. apply IH. intros Hin. apply Hno. now right. }
  rewrite Hrest. cbn [flat_map app]. now rewrite app_nil_r.
Qed.

Lemma session_users_deleted token now (db : database) :
  session_users token now (delete_session token db) = [].
Proof.
  unfold session_users, delete_session. cbn [sessions users].
  induction (sessions db) as [|s rest IH]; [reflexivity|].
  simpl. destruct (String.eqb_spec (session_token s) token) as [E|E]; cbn [negb].
  - exact IH.
  - cbn [flat_map]. destruct (String.eqb_spec (session_token s) token); [contradiction|].
    cbn [andb app]. exact IH.
Qed.

(** X21.  A session from login to logout.  A login with an email and a
    password that are not verified gives the status 401 and changes
    nothing.  A login that is verified, with a token that is new, returns
    the user and sets the token as the cookie; with that cookie the user is
    the current user at every time before the expiry of the session, and
    nobody is at or after the expiry; after a logout with the cookie nobody
    is the current user, at any time.  Without a cookie, or with an empty
    one, nobody is the current user and [require_auth] gives the status
    401. *)
Theorem session_from_login_to_logout (token expires now email' password : string)
    (db : database) :
  consistent db ->
  token <> "" ->
  ~ In token (map session_token (sessions db)) ->
  let answer := fst (login_user token expires now email' password db) in
  let db' := snd (login_user token expires now email' password db) in
  (verify_user email' password db = None ->
     answer = Some (HTTPException 401) /\ db' = db)
  /\ (forall info, verify_user email' password db = Some info ->
        answer = Some (Returned (info, token))
        /\ (forall at_time, String.ltb at_time expires = true ->
              get_current_user (Some token) at_time db' = Some info
              /\ require_auth (Some token) at_time db' = Returned info)
        /\ (forall at_time, String.ltb at_time expires = false ->
              get_current_user (Some token) at_time db' = None
              /\ require_auth (Some token) at_time db' = HTTPException 401)
        /\ (forall at_time,
              get_current_user (Some token) at_time (logout_user (Some token) db') = None)
        /\ consistent db')
  /\ (forall at_time any,
        require_auth None at_time any = HTTPException 401
        /\ require_auth (Some "") at_time any = HTTPException 401).
Proof.
  intros Hc Htoken Hnew answer db'. unfold answer, db', Store.login_user, Store.verify_user.
  assert (Hex : existsb (fun s => String.eqb (session_token s) token) (sessions db) = false).
  { destruct (existsb _ (sessions db)) eqn:E; [|reflexivity].
    apply existsb_exists in E as (s & Hs & He). apply String.eqb_eq in He.
    exfalso. apply Hnew. rewrite <- He. now apply in_map. }
  split; [|split].
  - destruct (matching_user email' password db); [discriminate|]. now split.
  - intros info. destruct (matching_user email' password db) as [u|] eqn:Em;
      [|discriminate].
    intros [= <-]. unfold create_session. rewrite Hex. cbn [fst snd].
    set (id := next_id (sessions_seq db) (map session_id (sessions db))).
    set (new := {| session_id := id; session_user_id := user_id u;
                   session_token := token; expires_at := expires;
                   session_created_at := now |}).
    set (db1 := {| users := users db; users_seq := users_seq db;
                   sessions := sessions db ++ [new]; sessions_seq := id;
                   saved_recipes := saved_recipes db;
                   saved_recipes_seq := saved_recipes_seq db |}).
    unfold Store.matching_user in Em. apply find_some in Em as [Hin Hu].
    apply andb_true_iff in Hu as [_ Hact].
    destruct Hc as (H1 & H2 & H3 & H4 & H5).
    assert (Hsu : forall at_time,
               session_users token at_time db1
               = if String.ltb at_time expires then [u] else []).
    { intros at_time.
      rewrite (session_users_app token at_time db1 new (sessions db) eq_refl Hnew).
      cbn [session_token expires_at session_user_id new users db1].
      rewrite String.eqb_refl. cbn [andb].
      destruct (String.ltb at_time expires); [|reflexivity].
      now apply users_by_id. }
    assert (Hcur : forall at_time,
               get_current_user (Some token) at_time db1
               = if String.ltb at_time expires then Some (user_dict u) else None).
    { intros at_time. unfold get_current_user, get_user_by_session.
      destruct token; [contradiction|]. cbn [Str.is_empty]. rewrite Hsu.
      now destruct (String.ltb at_time expires). }
    split; [reflexivity|]. split; [|split; [|split]].
    + intros at_time Hl. unfold require_auth. rewrite Hcur, Hl. now split.
    + intros at_time Hl. unfold require_auth. rewrite Hcur, Hl. now split.
    + intros at_time. unfold get_current_user, logout_user, get_user_by_session.
      destruct token; [contradiction|]. cbn [Str.is_empty].
      now rewrite session_users_deleted.
    + unfold consistent. cbn [users sessions saved_recipes db1]. rewrite !map_app.
      repeat split; auto.
      * apply NoDup_snoc; [exact H3 | apply next_id_new].
      * apply NoDup_snoc; [exact H4 | exact Hnew].
  - intros at_time any. now split.
Qed.

End Facts.

Lemma recipe_deleted_by_owner_witness :
  fst (delete_recipe 1 2 one_recipe) = false
  /\ snd (delete_recipe 1 2 one_recipe) = one_recipe.
Proof.
  assert (Hc : consistent one_recipe).
  { unfold consistent. simpl. repeat split; repeat constructor; intros []. }
  assert (Hs : sequenced one_recipe).
  { unfold sequenced. simpl.
    repeat split; repeat first [apply Forall_nil | apply Forall_cons]; simpl; lia. }
  pose proof (recipe_deleted_by_owner 1 2 one_recipe Hc Hs) as (_ & H & _).
  split; [reflexivity | now apply H].
Defined.

Lemma session_from_login_to_logout_witness :
  get_current_user (Some "token") "2024-01-02 09:00:00"
    (snd (login_user (fun p => "hash") "token" "2024-01-08 10:00:00.000000"
            "2024-01-01 10:00:00" "asha@example.com" "secret" one_recipe))
  = Some [("id", PInt 1); ("email", PStr "asha@example.com"); ("name", PStr "Asha")].
Proof.
  assert (Hc : consistent one_recipe).
  { unfold consistent. simpl. repeat split; repeat constructor; intros []. }
  assert (Ht : "token" <> "") by discriminate.
  assert (Hn : ~ In "token" (map session_token (sessions one_recipe))) by (intros []).
  pose proof (session_from_login_to_logout (fun p => "hash") "token"
                "2024-01-08 10:00:00.000000" "2024-01-01 10:00:00"
                "asha@example.com" "secret" one_recipe Hc Ht Hn) as (_ & H & _).
  destruct (H _ eq_refl) as (_ & Hlive & _).
  now apply Hlive.
Defined.

End StoreFacts.
